(** * ea2puml: Enterprise Architect to PlantUML exporter

    A shallow embedding of the exporter (the monolithic script
    [ea2puml.py] and the refactored package [ea2puml/]) together with the
    properties of its geometry kernel, alias allocator, grouping pass,
    connector handling and handler dispatch.

    Conventions of the embedding:
    - a Python [str] is a [string], one [ascii] per code point, so the model
      covers the code points below 256;
    - a Python [int] is a [Z];
    - an insertion-ordered [dict] whose iteration order reaches the output
      ([elements], [packages], [connectors]) is an association list kept
      with unique keys; a [dict] that is only looked up is a [gmap];
    - a raised exception is the [Raise] outcome of [result];
    - the file system is explicit state, threaded through [export] and
      [run]; whether the operating system grants the creation of a
      directory or the writing of a file is read from it, so that either
      can fail;
    - the COM automation objects of Enterprise Architect are records holding
      the attributes the exporter reads. *)

From Stdlib Require Import ZArith Lia String Ascii List.
From Stdlib Require Import DecimalString HexadecimalString.
From Stdlib Require DecimalZ DecimalPos HexadecimalN HexadecimalPos.
From Stdlib Require Import Sorting.Permutation Sorting.Sorted.
From stdpp Require Import base gmap strings list.

Local Open Scope string_scope.
Local Open Scope list_scope.

(* ===================================================================== *)
(** * Python values and built-ins                                          *)
(* ===================================================================== *)

Inductive PyError : Type :=
  | RecursionError
  | OverflowError
  | KeyError (msg : string)
  | RuntimeError (msg : string)
  | OSError (msg : string).

Inductive result (A : Type) : Type :=
  | Ok (a : A)
  | Raise (e : PyError).
Arguments Ok {A} a.
Arguments Raise {A} e.

Definition rbind {A B : Type} (r : result A) (k : A -> result B) : result B :=
  match r with
  | Ok a => k a
  | Raise e => Raise e
  end.

Notation "'let*' x ':=' r 'in' k" := (rbind r (fun x => k))
  (at level 10, x name, r at level 100, k at level 200).

Module Py.

(** ** Characters *)

Definition code (c : ascii) : N := N_of_ascii c.

Definition in_range (lo hi : N) (c : ascii) : bool :=
  ((lo <=? code c) && (code c <=? hi))%N.

(** The regex class [[A-Za-z0-9]]. *)
Definition is_alnum (c : ascii) : bool :=
  in_range 65 90 c || in_range 97 122 c || in_range 48 57 c.

(** The regex class [[A-Za-z0-9_]]. *)
Definition is_word (c : ascii) : bool :=
  is_alnum c || (code c =? 95)%N.

(** The regex class [[A-Za-z0-9._-]]. *)
Definition is_filename_char (c : ascii) : bool :=
  is_alnum c || (code c =? 46)%N || (code c =? 95)%N || (code c =? 45)%N.

(** [str.isspace] on one code point below 256. *)
Definition isspace (c : ascii) : bool :=
  in_range 9 13 c || in_range 28 32 c || (code c =? 133)%N || (code c =? 160)%N.

(** [str.isdigit] on one code point below 256: the decimal digits and the
    superscripts 1, 2, 3. *)
Definition isdigit (c : ascii) : bool :=
  in_range 48 57 c || (code c =? 178)%N || (code c =? 179)%N || (code c =? 185)%N.

(** [str.lower] on one code point below 256. *)
Definition lower_char (c : ascii) : ascii :=
  if in_range 65 90 c || (in_range 192 222 c && negb (code c =? 215)%N)
  then ascii_of_N (code c + 32) else c.

(** [str.upper] on the letters whose upper case is again one code point
    below 256; the exporter applies it to [#] followed by hexadecimal
    digits and signs only. *)
Definition upper_char (c : ascii) : ascii :=
  if in_range 97 122 c || (in_range 224 254 c && negb (code c =? 247)%N)
  then ascii_of_N (code c - 32) else c.

(** ** Strings *)

(** The one-character string holding a double quote. *)
Definition dquote : string := String "034"%char EmptyString.

(** The one-character string holding a line feed. *)
Definition newline : string := String "010"%char EmptyString.

Definition chars (s : string) : list ascii := list_ascii_of_string s.
Definition str (l : list ascii) : string := string_of_list_ascii l.

Definition len (s : string) : nat := String.length s.

Definition lower (s : string) : string := str (map lower_char (chars s)).
Definition upper (s : string) : string := str (map upper_char (chars s)).

Fixpoint lstrip_chars (l : list ascii) : list ascii :=
  match l with
  | [] => []
  | c :: l' => if isspace c then lstrip_chars l' else l
  end.

(** [s.strip()] *)
Definition strip (s : string) : string :=
  str (rev (lstrip_chars (rev (lstrip_chars (chars s))))).

(** [s[:n]] *)
Definition slice_to (n : nat) (s : string) : string := str (take n (chars s)).

(** [s[n:]] *)
Definition slice_from (n : nat) (s : string) : string := str (drop n (chars s)).

(** [s[a:b]] for [0 <= a <= b] *)
Definition slice (a b : nat) (s : string) : string :=
  str (take (b - a) (drop a (chars s))).

(** [s[-n:]] for [n > 0] *)
Definition slice_last (n : nat) (s : string) : string :=
  str (drop (length (chars s) - n) (chars s)).

(** ["c" * n]; a negative count is [Z.to_nat]'s zero, the empty string. *)
Definition repeat_char (c : ascii) (n : Z) : string :=
  str (repeat c (Z.to_nat n)).

Fixpoint starts_with_chars (p l : list ascii) : bool :=
  match p, l with
  | [], _ => true
  | _ :: _, [] => false
  | a :: p', b :: l' => if Ascii.eqb a b then starts_with_chars p' l' else false
  end.

(** [s.startswith(p)] *)
Definition startswith (p s : string) : bool :=
  starts_with_chars (chars p) (chars s).

Fixpoint contains_chars (p l : list ascii) : bool :=
  starts_with_chars p l ||
  match l with
  | [] => false
  | _ :: l' => contains_chars p l'
  end.

(** [p in s] *)
Definition contains (p s : string) : bool :=
  contains_chars (chars p) (chars s).

(** [s.replace(old, new)] for a non-empty [old]: the occurrences are
    found left to right and do not overlap; [skip] counts the characters
    of the current occurrence still to be dropped. *)
Fixpoint replace_chars (old new : list ascii) (skip : nat) (l : list ascii)
  : list ascii :=
  match l with
  | [] => []
  | c :: l' =>
      match skip with
      | S k => replace_chars old new k l'
      | O =>
          if starts_with_chars old l
          then new ++ replace_chars old new (length old - 1) l'
          else c :: replace_chars old new 0 l'
      end
  end.

Definition replace (old new s : string) : string :=
  str (replace_chars (chars old) (chars new) 0 (chars s)).

(** [sep.join(parts)] *)
Fixpoint join (sep : string) (parts : list string) : string :=
  match parts with
  | [] => ""
  | [p] => p
  | p :: rest => p +:+ sep +:+ join sep rest
  end.

(** [re.sub(r"[^A-Za-z0-9]", "", s)] *)
Definition sub_non_alnum_empty (s : string) : string :=
  str (filter (fun c => is_alnum c = true) (chars s)).

(** One pass of [re.sub(cls+, "_", s)] for a negated class: every maximal
    run of characters outside [keep] becomes one underscore. *)
Fixpoint sub_runs (keep : ascii -> bool) (in_run : bool) (l : list ascii)
  : list ascii :=
  match l with
  | [] => []
  | c :: l' =>
      if keep c then c :: sub_runs keep false l'
      else if in_run then sub_runs keep true l'
      else "_"%char :: sub_runs keep true l'
  end.

(** [re.sub(r"[^A-Za-z0-9_]+", "_", s)] *)
Definition sub_non_word_underscore (s : string) : string :=
  str (sub_runs is_word false (chars s)).

(** [re.sub(r"[^A-Za-z0-9._-]+", "_", s)] *)
Definition sub_non_filename_underscore (s : string) : string :=
  str (sub_runs is_filename_char false (chars s)).

(** A line boundary of [str.splitlines] below code point 256. *)
Definition is_linebreak (c : ascii) : bool :=
  in_range 10 13 c || in_range 28 30 c || (code c =? 133)%N.

(** [s.splitlines()]: [cur] is the current line, reversed; a carriage
    return directly followed by a line feed is one boundary. *)
Fixpoint splitlines_chars (cur : list ascii) (l : list ascii) : list string :=
  match l with
  | [] => match cur with [] => [] | _ => [str (rev cur)] end
  | c :: l' =>
      if is_linebreak c then
        match l' with
        | d :: l'' =>
            if ((code c =? 13) && (code d =? 10))%N
            then str (rev cur) :: splitlines_chars [] l''
            else str (rev cur) :: splitlines_chars [] l'
        | [] => [str (rev cur)]
        end
      else splitlines_chars (c :: cur) l'
  end.

Definition splitlines (s : string) : list string := splitlines_chars [] (chars s).

(** [str(n)] for an int *)
Definition str_of_int (n : Z) : string :=
  DecimalString.NilZero.string_of_int (Z.to_int n).

(** [hex(n)] *)
Definition hex (n : Z) : string :=
  (if (n <? 0)%Z then "-" else "") +:+ "0x" +:+
  HexadecimalString.NilZero.string_of_uint (N.to_hex_uint (Z.to_N (Z.abs n))).

Definition hex_digit (n : N) : ascii :=
  if (n <? 10)%N then ascii_of_N (48 + n) else ascii_of_N (87 + n).

(** One character inside [repr(s)], [q] being the quote chosen. *)
Definition repr_char (q : ascii) (c : ascii) : list ascii :=
  if Ascii.eqb c q || (code c =? 92)%N then ["\"%char; c]
  else if (code c =? 9)%N then ["\"%char; "t"%char]
  else if (code c =? 10)%N then ["\"%char; "n"%char]
  else if (code c =? 13)%N then ["\"%char; "r"%char]
  else if (code c <? 32)%N || in_range 127 160 c || (code c =? 173)%N
  then ["\"%char; "x"%char; hex_digit (code c / 16); hex_digit (code c mod 16)]
  else [c].

(** [repr(s)]: single quotes, unless the string holds a single quote and
    no double quote. *)
Definition repr (s : string) : string :=
  let has c := existsb (Ascii.eqb c) (chars s) in
  let q := if has "'"%char && negb (has "034"%char) then "034"%char else "'"%char in
  str (q :: flat_map (repr_char q) (chars s) ++ [q]).

(** Truth value of a string: non-empty. *)
Definition truthy (s : string) : bool :=
  match s with EmptyString => false | _ => true end.

(** [a or b] on strings *)
Definition or_str (a b : string) : string := if truthy a then a else b.

(** [float(n)] for an int [n >= 0], as the integer it denotes: rounding to
    53 significant bits, ties to even; [OverflowError] when the rounded
    value does not fit a double. *)
Definition float_of_int (n : Z) : result Z :=
  let e := (Z.log2 n - 52)%Z in
  if (e <=? 0)%Z then Ok n
  else
    let q := Z.shiftr n e in
    let r := (n - Z.shiftl q e)%Z in
    let half := Z.shiftl 1 (e - 1) in
    let q' := if (half <? r)%Z || ((r =? half)%Z && Z.odd q) then (q + 1)%Z else q in
    let v := Z.shiftl q' e in
    if (Z.shiftl 1 1024 <=? v)%Z then Raise OverflowError else Ok v.

(** [i >= 0.5 * n] for ints [i] and [n >= 0]: [n] is converted to a
    double, halving a double that holds an integer is exact, and an int
    is compared with a float by value. *)
Definition ge_half_of (i n : Z) : result bool :=
  let* f := float_of_int n in Ok (f <=? 2 * i)%Z.

(** ** Insertion-ordered dictionaries *)

Section Dict.
Context {V : Type}.

Fixpoint get (d : list (string * V)) (k : string) : option V :=
  match d with
  | [] => None
  | (k', v) :: d' => if String.eqb k' k then Some v else get d' k
  end.

(** [d[k] = v]: an existing key keeps its place, a new one goes last. *)
Fixpoint set (d : list (string * V)) (k : string) (v : V) : list (string * V) :=
  match d with
  | [] => [(k, v)]
  | (k', v') :: d' =>
      if String.eqb k' k then (k', v) :: d' else (k', v') :: set d' k v
  end.

Definition keys (d : list (string * V)) : list string := map fst d.
Definition values (d : list (string * V)) : list V := map snd d.
Definition contains_key (d : list (string * V)) (k : string) : bool :=
  match get d k with Some _ => true | None => false end.
End Dict.

(** [sorted(l, key=key)] for keys that are pairs of ints: a stable
    insertion sort. *)
Definition key_le (a b : Z * Z) : bool :=
  ((fst a <? fst b) || ((fst a =? fst b) && (snd a <=? snd b)))%Z.

Section Sorted.
Context {A : Type} (key : A -> Z * Z).

Fixpoint insert_sorted (x : A) (l : list A) : list A :=
  match l with
  | [] => [x]
  | y :: l' =>
      if key_le (key x) (key y) then x :: y :: l' else y :: insert_sorted x l'
  end.

Definition sorted (l : list A) : list A := foldr insert_sorted [] l.

(** The order the result of [sorted] is in. *)
Definition key_order (a b : A) : Prop := key_le (key a) (key b) = true.
End Sorted.

End Py.


(* ===================================================================== *)
(** * The process environment                                              *)
(* ===================================================================== *)

(** What a run of the interpreter takes from outside the program: the
    keyed hash of [str] and [bytes] objects, the bytes the operating system
    hands out at the k-th call of [os.urandom(4)], and the recursion limit. *)
Record Env : Type := {
  hash_str : string -> Z;
  hash_bytes : list ascii -> Z;
  urandom4 : nat -> list ascii;
  recursion_limit : nat;
}.

(* ===================================================================== *)
(** * ea2puml/utils.py (the same helpers open ea2puml.py)                  *)
(* ===================================================================== *)

Module utils.

(** [puml_escape_inline]: backslashes doubled, then double quotes
    escaped. *)
Definition puml_escape_inline (text : string) : string :=
  Py.replace Py.dquote ("\" +:+ Py.dquote) (Py.replace "\" "\\" text).

(** [sanitize_alias]; [draws] counts the calls of [os.urandom] made so
    far by the process. *)
Definition sanitize_alias (env : Env) (draws : nat) (guid : string)
  : string * nat :=
  if negb (Py.truthy guid) then
    ("E_" +:+ Py.str_of_int (Z.abs (hash_bytes env (urandom4 env draws))), S draws)
  else
    let g := Py.sub_non_alnum_empty guid in
    let g := if negb (Py.truthy g)
             then "E" +:+ Py.str_of_int (Z.abs (hash_str env guid) mod 10 ^ 8)
             else g in
    ("E_" +:+ Py.slice_to 16 g, draws).

(** [slugify_name] *)
Definition slugify_name (name : string) : string :=
  let s := Py.sub_non_word_underscore (Py.strip (Py.or_str name "")) in
  let s := match s with
           | EmptyString => "E_" +:+ s
           | String c _ => if Py.isdigit c then "E_" +:+ s else s
           end in
  if (40 <? Py.len s)%nat then Py.slice_to 40 s else s.

(** Two display names share a base slug. *)
Definition same_base (base : string) (c : string * string) : Prop :=
  slugify_name (snd c) = base.

#[global] Instance same_base_dec base c : Decision (same_base base c).
Proof. unfold same_base. apply _. Defined.

Module AliasFactory.

Record t : Type := {
  mode : string;
  counts : gmap string Z;
}.

(** [AliasFactory(mode)] *)
Definition init (mode : string) : t := {| mode := mode; counts := ∅ |}.

(** [make]: returns the alias, the factory after the call and the
    number of [os.urandom] calls after it. *)
Definition make (env : Env) (self : t) (draws : nat) (guid name : string)
  : string * t * nat :=
  if String.eqb (mode self) "uuid" then
    let '(a, draws') := sanitize_alias env draws guid in (a, self, draws')
  else if String.eqb (mode self) "human" then
    let base := Py.or_str (slugify_name name) "E" in
    let n := default 0%Z (counts self !! base) in
    let self' := {| mode := mode self; counts := <[base := (n + 1)%Z]> (counts self) |} in
    (if (n =? 0)%Z then base else base +:+ "_" +:+ Py.str_of_int (n + 1), self', draws)
  else ("", self, draws).

(** The aliases of one run: [make] called once per shape, in order, on
    the pairs of instance GUID and display name. *)
Fixpoint make_all (env : Env) (self : t) (draws : nat) (calls : list (string * string))
  : list string :=
  match calls with
  | [] => []
  | (guid, name) :: calls' =>
      let '(a, self', draws') := make env self draws guid name in
      a :: make_all env self' draws' calls'
  end.

End AliasFactory.

End utils.

(* ===================================================================== *)
(** * The automation interface of Enterprise Architect                     *)
(* ===================================================================== *)

Module EA.

Record TaggedValue : Type := {
  tv_Name : string;
  tv_Value : option string;   (* [None]: attribute absent or [None] *)
  tv_Notes : option string;
}.

Record Element : Type := {
  ElementID : Z;
  Name : string;
  Type_ : string;
  Stereotype : string;
  Notes : string;
  MiscData0 : Z;              (* [MiscData(0)]: the id of the nested diagram *)
  TaggedValues : option (list TaggedValue);  (* [None]: the access raises *)
}.

Record DiagramObject : Type := {
  do_ElementID : Z;
  InstanceGUID : string;
  Left : Z;
  Right : Z;
  Top : Z;
  Bottom : Z;
  BackgroundColor : option Z; (* [None]: attribute absent *)
  ShowTags : option bool;
}.

Record DiagramLink : Type := {
  dl_ConnectorID : Z;
  IsHidden : bool;
  SourceInstanceUID : string; (* empty when the link carries none *)
  TargetInstanceUID : string;
  LineColor : option Z;
  LineWidth : option Z;
  HiddenLabels : option bool;
}.

Record Connector : Type := {
  ConnectorID : Z;
  c_Name : string;
  c_Type : string;
  c_Stereotype : string;
  Direction : string;
  ClientID : Z;
  SupplierID : Z;
}.

Record Diagram : Type := {
  DiagramID : Z;
  d_Name : string;
  d_Type : string;
  DiagramObjects : list DiagramObject;
  DiagramLinks : list DiagramLink;
}.

Record Repository : Type := {
  GetElementByID : Z -> Element;
  GetDiagramByID : Z -> Diagram;
  GetConnectorByID : Z -> Connector;
  (** [GetTreeSelectedItem()]: the item type and the item, a diagram when
      the type is 8. *)
  GetTreeSelectedItem : Z * Diagram;
  (** [GetCurrentDiagram()], [None] when no diagram is open. *)
  GetCurrentDiagram : option Diagram;
}.

End EA.

(* ===================================================================== *)
(** * The file system                                                      *)
(* ===================================================================== *)

Module OS.

(** The machine a run meets: the directories and the files that exist,
    and what the operating system answers to the requests of the run.
    - [mkdir_answer p] answers the creation of the directory [p] with its
      missing parents: the parents created on the way and the error, if
      any, that ends the call;
    - [open_answer p text] answers the writing of [text] to the file [p]:
      [None] when the file is written; otherwise the error, with the
      content the file is left with when it was opened before the error
      and [None] when it was not opened;
    - [join_answer] and [truediv_answer] are the path operations of the
      platform, [os.path.join] and the [/] of [pathlib], where they are
      not computed here. *)
Record FS : Type := {
  dirs : gset string;
  files : gmap string string;
  mkdir_answer : string -> gset string * option PyError;
  open_answer : string -> string -> option (option string * PyError);
  join_answer : string -> string -> string;
  truediv_answer : string -> string -> string;
}.

Definition with_dirs (fs : FS) (d : gset string) : FS :=
  {| dirs := d; files := files fs; mkdir_answer := mkdir_answer fs;
     open_answer := open_answer fs; join_answer := join_answer fs;
     truediv_answer := truediv_answer fs |}.

Definition with_files (fs : FS) (f : gmap string string) : FS :=
  {| dirs := dirs fs; files := f; mkdir_answer := mkdir_answer fs;
     open_answer := open_answer fs; join_answer := join_answer fs;
     truediv_answer := truediv_answer fs |}.

(** [os.makedirs(outdir, exist_ok=True)], [Path.mkdir(parents=True,
    exist_ok=True)]: the parents created before a failure stay. *)
Definition makedirs (outdir : string) (fs : FS) : FS * result unit :=
  let '(made, err) := mkdir_answer fs outdir in
  match err with
  | Some e => (with_dirs fs (made ∪ dirs fs), Raise e)
  | None => (with_dirs fs ({[outdir]} ∪ made ∪ dirs fs), Ok tt)
  end.

(** [with open(path, "w", encoding="utf-8") as f: f.write(text)] *)
Definition write_text (path text : string) (fs : FS) : FS * result unit :=
  match open_answer fs path text with
  | None => (with_files fs (<[path := text]> (files fs)), Ok tt)
  | Some (None, e) => (fs, Raise e)
  | Some (Some partial, e) => (with_files fs (<[path := partial]> (files fs)), Raise e)
  end.

Definition is_sep (c : ascii) : bool := ((Py.code c =? 47) || (Py.code c =? 92))%N.

(** The second path of a join starts at a root or names a drive. *)
Definition rooted (b : list ascii) : bool :=
  match b with
  | c :: rest =>
      is_sep c || match rest with d :: _ => (Py.code d =? 58)%N | [] => false end
  | [] => false
  end.

(** The first path of a join starts with a separator followed by another
    one or by a colon: a network or device path, or a path the versions
    of the library split in different ways. *)
Definition unc (a : list ascii) : bool :=
  match a with
  | c :: d :: _ => is_sep c && (is_sep d || (Py.code d =? 58)%N)
  | _ => false
  end.

(** [os.path.join(a, b)] on Windows. For a first path that is none of
    the above and a second one that is relative and names no drive, the
    second is appended, with a backslash in between unless the first,
    after its drive letter and colon, is empty or ends with a separator;
    the other cases are left to [join_answer]. *)
Definition path_join (fs : FS) (a b : string) : string :=
  if unc (Py.chars a) || rooted (Py.chars b) then join_answer fs a b
  else
    let rest := match Py.chars a with
                | _ :: d :: rest' =>
                    if (Py.code d =? 58)%N then rest' else Py.chars a
                | _ => Py.chars a
                end in
    match rev rest with
    | [] => a +:+ b
    | c :: _ => if is_sep c then a +:+ b else a +:+ "\" +:+ b
    end.

(** [a / b] of [pathlib], as the string of the resulting path. *)
Definition truediv (fs : FS) (a b : string) : string := truediv_answer fs a b.

End OS.

(* ===================================================================== *)
(** * ea2puml.py: the monolithic exporter                                  *)
(* ===================================================================== *)

Module EAPlantUMLExporter.

Import utils.

Local Open Scope Z_scope.

(** [ea_color_long_to_hex] *)
Definition ea_color_long_to_hex (ea_long : option Z) : option string :=
  match ea_long with
  | None => None
  | Some n =>
      if n =? -1 then None
      else
        let hx := Py.replace "0x" "" (Py.hex n) in
        let hx := Py.repeat_char "0" (6 - Z.of_nat (Py.len hx)) +:+ Py.slice_last 6 hx in
        let b := Py.slice 0 2 hx in
        let g := Py.slice 2 4 hx in
        let r := Py.slice 4 6 hx in
        Some (Py.upper ("#" +:+ r +:+ g +:+ b))
  end.

(** [ELEMENT_TYPE_TO_PUML.get(etype, "rectangle")] *)
Definition ELEMENT_TYPE_TO_PUML (etype : string) : string :=
  if String.eqb etype "Class" then "class"
  else if String.eqb etype "Interface" then "interface"
  else if String.eqb etype "Enumeration" then "enum"
  else if String.eqb etype "Component" then "component"
  else if String.eqb etype "Node" then "node"
  else if String.eqb etype "Artifact" then "artifact"
  else if String.eqb etype "Actor" then "actor"
  else if String.eqb etype "UseCase" then "usecase"
  else if String.eqb etype "Package" then "package"
  else if String.eqb etype "State" then "state"
  else if String.eqb etype "Device" then "node"
  else if String.eqb etype "Text" then "rectangle"
  else if String.eqb etype "Note" then "note"
  else if String.eqb etype "Boundary" then "rectangle"
  else if String.eqb etype "Activity" then "rectangle"
  else if String.eqb etype "Requirement" then "rectangle"
  else if String.eqb etype "Environment" then "frame"
  else "rectangle".

Definition one_of (t : string) (l : list string) : bool :=
  existsb (String.eqb t) l.

(** [relation_for_type] *)
Definition relation_for_type (conn_type : string) : string * string :=
  let t := Py.lower (Py.or_str conn_type "") in
  if one_of t ["association"] then ("--", ">")
  else if one_of t ["dependency"] then ("..", ">")
  else if one_of t ["realization"; "realisation"] then ("..", "|>")
  else if one_of t ["generalization"; "inheritance"] then ("--", "|>")
  else if one_of t ["aggregation"] then ("o-", ">")
  else if one_of t ["composition"] then ("*-", ">")
  else if one_of t ["informationflow"; "information flow"] then ("..", ">")
  else if one_of t ["controlflow"; "control flow"; "flow"] then ("-", "->")
  else ("--", ">").

(** ** Geometry helpers *)

Record Rect : Type := { x : Z; y : Z; w : Z; h : Z }.

(** [rect(dobj, cornerX, cornerY)] *)
Definition rect (dobj : EA.DiagramObject) (cornerX cornerY : Z) : Rect :=
  {| x := EA.Left dobj + cornerX;
     y := - EA.Top dobj + cornerY;
     w := EA.Right dobj - EA.Left dobj;
     h := - (EA.Bottom dobj - EA.Top dobj) |}.

(** [center(rect)]; [//] is [Z.div], which rounds down as Python's does. *)
Definition center (r : Rect) : Z * Z :=
  (x r + w r / 2, y r + h r / 2).

(** [area(rect)] *)
Definition area (r : Rect) : Z :=
  Z.max 0 (w r) * Z.max 0 (h r).

(** [overlap_area(a, b)] *)
Definition overlap_area (a b : Rect) : Z :=
  let x1 := Z.max (x a) (x b) in
  let y1 := Z.max (y a) (y b) in
  let x2 := Z.min (x a + w a) (x b + w b) in
  let y2 := Z.min (y a + h a) (y b + h b) in
  if (x2 <=? x1) || (y2 <=? y1) then 0
  else (x2 - x1) * (y2 - y1).

(** [center_inside(inner_rect, outer_rect)] *)
Definition center_inside (inner_rect outer_rect : Rect) : bool :=
  let '(cx, cy) := center inner_rect in
  (x outer_rect <=? cx) &&
  (y outer_rect <=? cy) &&
  (cx <=? x outer_rect + w outer_rect) &&
  (cy <=? y outer_rect + h outer_rect).

(** The membership test of [gather]'s second pass,
    [center_inside(erect, preg) or (ov >= 0.5 * area(erect))]: the right
    operand, the only one that touches a float, is evaluated when the left
    one is false. *)
Definition inside (erect preg : Rect) : result bool :=
  let ov := overlap_area erect preg in
  if center_inside erect preg then Ok true
  else Py.ge_half_of ov (area erect).

(** ** The exporter object *)

Record Config : Type := {
  include_tags : bool;
  include_colors : bool;
  element_stereo : string;      (* off | on | inname *)
  edge_labels : string;         (* stereotype | name | both | none *)
  direction : option string;
  skin : bool;
  autolayout : bool;
  explore : bool;               (* diagnostic prints only *)
  alias_mode : string;          (* uuid | human | name *)
  interface_style : string;     (* lollipop | class *)
}.

(** The [el] dictionaries of [self.elements]. *)
Record El : Type := {
  el_guid : string;
  el_alias : string;
  el_name : string;
  el_type : string;
  el_stereotype : string;
  el_notes : string;
  el_show_tags : bool;
  el_bg_hex : option string;
  el_raw : EA.Element;
  el_dobj : EA.DiagramObject;
  el_rect : Rect;
}.

(** The entries of [self.packages]. *)
Record Pkg : Type := {
  pkg_guid : string;
  pkg_name : string;
  pkg_alias : string;
  pkg_color : option string;
  pkg_rect : Rect;
}.

(** The [conn] dictionaries of [self.connectors]. *)
Record Conn : Type := {
  conn_id : string;
  conn_name : string;
  conn_type : string;
  conn_stereotype : string;
  conn_direction : string;
  source_uid : string;
  target_uid : string;
  line_hex : option string;
  line_width : Z;
  hidden_labels : bool;
  conn_raw : EA.Connector;
  conn_dlnk : EA.DiagramLink;
}.

(** The mutable fields of the exporter, and [draws], the number of
    [os.urandom] calls the process has made. *)
Record State : Type := {
  alias_factory : AliasFactory.t;
  elements : list (string * El);
  connectors : list (string * Conn);
  alias_by_guid : gmap string string;
  packages : list (string * Pkg);
  members_in_pkg : gmap string (list string);
  elemid_to_instuid : gmap Z string;
  draws : nat;
}.

(** [__init__] *)
Definition init (cfg : Config) : State :=
  {| alias_factory := AliasFactory.init (alias_mode cfg);
     elements := [];
     connectors := [];
     alias_by_guid := ∅;
     packages := [];
     members_in_pkg := ∅;
     elemid_to_instuid := ∅;
     draws := O |}.

Definition set_members_in_pkg (st : State) (m : gmap string (list string)) : State :=
  {| alias_factory := alias_factory st; elements := elements st;
     connectors := connectors st; alias_by_guid := alias_by_guid st;
     packages := packages st; members_in_pkg := m;
     elemid_to_instuid := elemid_to_instuid st; draws := draws st |}.

Definition set_connectors (st : State) (c : list (string * Conn)) : State :=
  {| alias_factory := alias_factory st; elements := elements st;
     connectors := c; alias_by_guid := alias_by_guid st;
     packages := packages st; members_in_pkg := members_in_pkg st;
     elemid_to_instuid := elemid_to_instuid st; draws := draws st |}.

(** ** Endpoint resolution *)

Inductive Endpoint : Type := source | target.

(** [resolve_endpoint_uid(dlnk, dconn, which)] *)
Definition resolve_endpoint_uid (st : State) (dlnk : EA.DiagramLink)
    (dconn : EA.Connector) (which : Endpoint) : option string :=
  let uid := match which with
             | source => EA.SourceInstanceUID dlnk
             | target => EA.TargetInstanceUID dlnk
             end in
  if Py.truthy uid && Py.contains_key (elements st) uid then Some uid
  else
    let elem_id := match which with
                   | source => EA.ClientID dconn
                   | target => EA.SupplierID dconn
                   end in
    elemid_to_instuid st !! elem_id.

(** [not uid] for an optional string: [None] and the empty string. *)
Definition falsy (uid : option string) : bool :=
  match uid with
  | None => true
  | Some s => negb (Py.truthy s)
  end.

(** ** Gather *)

Section Gather.

Variable env : Env.
Variable cfg : Config.
Variable repo : EA.Repository.

(** The loop body of the first pass up to the nested diagram; the
    diagnostic print of [explore] writes to the console only. *)
Definition collect (dObj : EA.DiagramObject) (cornerX cornerY : Z) (st : State)
  : State * El :=
  let dElem := EA.GetElementByID repo (EA.do_ElementID dObj) in
  let inst_guid := EA.InstanceGUID dObj in
  let ids := match elemid_to_instuid st !! EA.do_ElementID dObj with
             | Some _ => elemid_to_instuid st
             | None => <[EA.do_ElementID dObj := inst_guid]> (elemid_to_instuid st)
             end in
  let '(alias, factory, draws') :=
    AliasFactory.make env (alias_factory st) (draws st) inst_guid
      (Py.or_str (EA.Name dElem) "") in
  let r := rect dObj cornerX cornerY in
  let bg := if include_colors cfg
            then ea_color_long_to_hex (Some (default (-1) (EA.BackgroundColor dObj)))
            else None in
  let el := {| el_guid := inst_guid;
               el_alias := alias;
               el_name := Py.or_str (EA.Name dElem) "";
               el_type := Py.or_str (EA.Type_ dElem) "";
               el_stereotype := Py.or_str (EA.Stereotype dElem) "";
               el_notes := Py.or_str (EA.Notes dElem) "";
               el_show_tags := default false (EA.ShowTags dObj);
               el_bg_hex := bg;
               el_raw := dElem;
               el_dobj := dObj;
               el_rect := r |} in
  let pkgs := if String.eqb (el_type el) "Package"
              then Py.set (packages st) inst_guid
                     {| pkg_guid := inst_guid; pkg_name := el_name el;
                        pkg_alias := alias; pkg_color := bg; pkg_rect := r |}
              else packages st in
  ({| alias_factory := factory;
      elements := Py.set (elements st) inst_guid el;
      connectors := connectors st;
      alias_by_guid := <[inst_guid := alias]> (alias_by_guid st);
      packages := pkgs;
      members_in_pkg := members_in_pkg st;
      elemid_to_instuid := ids;
      draws := draws' |}, el).

(** The first pass over [diagram.DiagramObjects]; [gather_sub] is the
    recursive call for a nested diagram. *)
Fixpoint first_pass (gather_sub : EA.Diagram -> Z -> Z -> State -> result State)
    (objs : list EA.DiagramObject) (cornerX cornerY : Z) (st : State)
  : result State :=
  match objs with
  | [] => Ok st
  | dObj :: objs' =>
      let '(st1, el) := collect dObj cornerX cornerY st in
      let* st2 :=
        (if String.eqb (el_type el) "UMLDiagram"
         then gather_sub (EA.GetDiagramByID repo (EA.MiscData0 (el_raw el)))
                (EA.Left dObj) (- EA.Top dObj) st1
         else Ok st1) in
      first_pass gather_sub objs' cornerX cornerY st2
  end.

(** The members of one package: the inner loop of the second pass. *)
Fixpoint members_of (pkg_guid : string) (preg : Rect) (els : list (string * El))
  : result (list string) :=
  match els with
  | [] => Ok []
  | (guid, el) :: els' =>
      if String.eqb guid pkg_guid then members_of pkg_guid preg els'
      else
        let* ins := inside (el_rect el) preg in
        let* rest := members_of pkg_guid preg els' in
        Ok (if ins then guid :: rest else rest)
  end.

(** The second pass: geometry-based package membership. *)
Fixpoint second_pass (pkgs : list (string * Pkg)) (st : State) : result State :=
  match pkgs with
  | [] => Ok st
  | (pkg_guid, pkg) :: pkgs' =>
      let* members := members_of pkg_guid (pkg_rect pkg) (elements st) in
      second_pass pkgs' (set_members_in_pkg st (<[pkg_guid := members]> (members_in_pkg st)))
  end.

(** One iteration of the loop over [diagram.DiagramLinks]. *)
Definition add_link (dLnk : EA.DiagramLink) (st : State) : State :=
  if EA.IsHidden dLnk then st
  else
    let dConn := EA.GetConnectorByID repo (EA.dl_ConnectorID dLnk) in
    let source_uid := resolve_endpoint_uid st dLnk dConn source in
    let target_uid := resolve_endpoint_uid st dLnk dConn target in
    if falsy source_uid || falsy target_uid then st
    else
      let conn := {| conn_id := Py.str_of_int (EA.dl_ConnectorID dLnk);
                     conn_name := Py.or_str (EA.c_Name dConn) "";
                     conn_type := Py.or_str (EA.c_Type dConn) "";
                     conn_stereotype := Py.or_str (EA.c_Stereotype dConn) "";
                     conn_direction := Py.or_str (EA.Direction dConn) "Unspecified";
                     source_uid := default "" source_uid;
                     target_uid := default "" target_uid;
                     line_hex := if include_colors cfg
                                 then ea_color_long_to_hex
                                        (Some (default (-1) (EA.LineColor dLnk)))
                                 else None;
                     line_width := default 1 (EA.LineWidth dLnk);
                     hidden_labels := default false (EA.HiddenLabels dLnk);
                     conn_raw := dConn;
                     conn_dlnk := dLnk |} in
      set_connectors st (Py.set (connectors st) (conn_id conn) conn).

Definition add_links (links : list EA.DiagramLink) (st : State) : State :=
  foldl (fun s l => add_link l s) st links.

(** [gather(diagram, cornerX, cornerY)]; [depth] is the number of frames
    left before the interpreter raises [RecursionError]. *)
Fixpoint gather (depth : nat) (diagram : EA.Diagram) (cornerX cornerY : Z)
    (st : State) : result State :=
  match depth with
  | O => Raise RecursionError
  | S depth' =>
      let* st1 := first_pass (gather depth') (EA.DiagramObjects diagram)
                    cornerX cornerY st in
      let* st2 := second_pass (packages st1) st1 in
      Ok (add_links (EA.DiagramLinks diagram) st2)
  end.

End Gather.

(** ** Render *)

Section Render.

Variable cfg : Config.

(** [render_header(diagram)] *)
Definition render_header (diagram : EA.Diagram) : string :=
  let lines := ["@startuml";
                "title " +:+ Py.dquote +:+ puml_escape_inline (EA.d_Name diagram) +:+ Py.dquote] in
  let lines :=
    match direction cfg with
    | Some d =>
        if String.eqb d "LR" then lines ++ ["left to right direction"]
        else if String.eqb d "TB"
        then lines ++ ["' top to bottom direction (PlantUML default)"]
        else lines
    | None => lines
    end in
  let lines :=
    if skin cfg then
      lines ++ [""; "' --- optional skinparams ---";
                "skinparam defaultFontName Arial";
                "skinparam shadowing false";
                "skinparam classAttributeIconSize 0";
                "skinparam wrapWidth 200";
                "skinparam dpi 144"]
    else lines in
  let lines := if autolayout cfg then lines ++ [""; "autolayout"] else lines in
  Py.join Py.newline (lines ++ [""]).

(** [render_footer()] *)
Definition render_footer : string := Py.newline +:+ "@enduml" +:+ Py.newline.

(** [ref_token(el)] *)
Definition ref_token (el : El) : string :=
  if String.eqb (alias_mode cfg) "name"
  then Py.dquote +:+ puml_escape_inline (el_name el) +:+ Py.dquote
  else el_alias el.

(** [element_decl(el)] *)
Definition element_decl (el : El) : string :=
  let name := Py.or_str (el_name el) "" in
  let st := Py.or_str (el_stereotype el) "" in
  let etype := Py.or_str (el_type el) "" in
  let alias := el_alias el in
  let bg := el_bg_hex el in
  let keyword := ELEMENT_TYPE_TO_PUML etype in
  if one_of etype ["Note"; "Text"] then
    let txt := Py.or_str (el_notes el) name in
    let lines := ["note as " +:+ Py.or_str alias (Py.or_str (slugify_name name) "Note_1")] in
    let lines := if Py.truthy txt then lines ++ Py.splitlines txt else lines in
    Py.join Py.newline (lines ++ ["end note"])
  else
    let on := String.eqb (element_stereo cfg) "on" && Py.truthy st in
    let inname := negb on && String.eqb (element_stereo cfg) "inname" && Py.truthy st in
    let stereo_suffix := if on then " <<" +:+ st +:+ ">>" else "" in
    let name_disp := if inname then name +:+ " <<" +:+ st +:+ ">>" else name in
    let disp := Py.dquote +:+ puml_escape_inline name_disp +:+ Py.dquote in
    let color := match bg with
                 | Some c => if Py.truthy c then " " +:+ c else ""
                 | None => ""
                 end in
    if String.eqb etype "Interface" && String.eqb (interface_style cfg) "lollipop" then
      if String.eqb (alias_mode cfg) "name"
      then "() " +:+ disp +:+ color
      else "() " +:+ disp +:+ " as " +:+ alias +:+ color
    else
      if String.eqb (alias_mode cfg) "name"
      then keyword +:+ stereo_suffix +:+ " " +:+ disp +:+ color
      else keyword +:+ stereo_suffix +:+ " " +:+ disp +:+ " as " +:+ alias +:+ color.

(** [str(v).strip() != ""] for an optional string, false on [None]. *)
Definition nonblank (v : option string) : bool :=
  match v with
  | Some s => Py.truthy (Py.strip s)
  | None => false
  end.

(** The line of one tagged value in [tag_block_for_element], if any. *)
Definition tag_line (tv : EA.TaggedValue) : option string :=
  let val := EA.tv_Value tv in
  let val :=
    if negb (nonblank val) then
      match EA.tv_Notes tv with
      | Some notes => if Py.truthy notes && nonblank (Some notes) then Some notes else val
      | None => val
      end
    else val in
  match val with
  | Some v => if nonblank val then Some (EA.tv_Name tv +:+ "=" +:+ v) else None
  | None => None
  end.

(** [tag_block_for_element(el)] *)
Definition tag_block_for_element (el : El) : option string :=
  match EA.TaggedValues (el_raw el) with
  | None => None
  | Some [] => None
  | Some tvs =>
      if negb (include_tags cfg || el_show_tags el) then None
      else
        match omap tag_line tvs with
        | [] => None
        | lines =>
            Some ("note right of " +:+ ref_token el +:+ Py.newline +:+
                  Py.join Py.newline lines +:+ Py.newline +:+ "end note")
        end
  end.

(** What the two loops of [render_elements_grouped] append for one
    element: its declaration and, if any, its tag block. *)
Definition emit (el : El) : list string :=
  element_decl el ::
  match tag_block_for_element el with
  | Some tagb => if Py.truthy tagb then [tagb] else []
  | None => []
  end.

(** [pkg_key] *)
Definition pkg_key (p : Pkg) : Z * Z := (y (pkg_rect p), x (pkg_rect p)).

(** The header line of a package block. *)
Definition package_header (pkg : Pkg) : string :=
  let color := match pkg_color pkg with Some c => c | None => "" end in
  "package " +:+ Py.dquote +:+ puml_escape_inline (pkg_name pkg) +:+ Py.dquote +:+
  (if Py.truthy color then " " +:+ color else "") +:+ " {".

(** The elements one package block declares, in order, each under its
    key: the members of the package that are no packages themselves;
    [self.elements[guid]] raises [KeyError] on a missing key. *)
Fixpoint block_members (st : State) (guids : list string)
  : result (list (string * El)) :=
  match guids with
  | [] => Ok []
  | guid :: guids' =>
      match Py.get (elements st) guid with
      | None => Raise (KeyError guid)
      | Some el =>
          let* rest := block_members st guids' in
          Ok (if String.eqb (el_type el) "Package" then rest else (guid, el) :: rest)
      end
  end.

(** The package blocks in emission order, each with the elements declared
    in it. *)
Fixpoint blocks_of (st : State) (pkgs : list Pkg)
  : result (list (Pkg * list (string * El))) :=
  match pkgs with
  | [] => Ok []
  | pkg :: pkgs' =>
      let* ms := block_members st (default [] (members_in_pkg st !! pkg_guid pkg)) in
      let* rest := blocks_of st pkgs' in
      Ok ((pkg, ms) :: rest)
  end.

Definition sorted_pkgs (st : State) : list Pkg :=
  Py.sorted pkg_key (Py.values (packages st)).

Definition blocks (st : State) : result (list (Pkg * list (string * El))) :=
  blocks_of st (sorted_pkgs st).

(** The set [emitted] after the package loop. *)
Definition emitted (bs : list (Pkg * list (string * El))) : list string :=
  flat_map (fun b => Py.keys (snd b)) bs.

(** The elements the leftover loop declares, each under its key. *)
Definition leftovers (st : State) (bs : list (Pkg * list (string * El)))
  : list (string * El) :=
  filter (fun ge => negb (String.eqb (el_type (snd ge)) "Package"
                          || existsb (String.eqb (fst ge)) (emitted bs)) = true)
    (elements st).

Definition block_lines (b : Pkg * list (string * El)) : list string :=
  package_header (fst b) :: flat_map emit (Py.values (snd b)) ++ ["}"; ""].

(** [render_elements_grouped()] *)
Definition render_elements_grouped (st : State) : result string :=
  let* bs := blocks st in
  Ok (Py.join Py.newline
        (flat_map block_lines bs ++ flat_map emit (Py.values (leftovers st bs)) ++ [""])).

(** The relation token of a connector, before colouring. *)
Definition relation (c : Conn) : string :=
  let '(style, head) := relation_for_type (conn_type c) in
  if String.eqb head "|>" then style +:+ head
  else if String.eqb head "->" then style +:+ "->"
  else if Py.contains "Source" (conn_direction c)
          || Py.contains "Bi-Directional" (conn_direction c)
  then style +:+ head
  else style +:+ "-".

(** The colour, when there is one, goes into the relation token. *)
Definition colored (c : Conn) (rel : string) : string :=
  match line_hex c with
  | Some hx =>
      if include_colors cfg && Py.truthy hx then
        if Py.startswith "--" rel then "-[" +:+ hx +:+ "]-" +:+ Py.slice_from 2 rel
        else if Py.startswith ".." rel then ".[" +:+ hx +:+ "]." +:+ Py.slice_from 2 rel
        else if Py.startswith "*-" rel then "*[" +:+ hx +:+ "]-" +:+ Py.slice_from 2 rel
        else if Py.startswith "o-" rel then "o[" +:+ hx +:+ "]-" +:+ Py.slice_from 2 rel
        else if Py.startswith "-" rel then "-[" +:+ hx +:+ "]" +:+ Py.slice_from 1 rel
        else rel
      else rel
  | None => rel
  end.

(** The [parts] list and the [label] of [render_connectors]. *)
Definition connector_parts (c : Conn) : list string :=
  (if one_of (edge_labels cfg) ["name"; "both"] && negb (hidden_labels c)
      && Py.truthy (conn_name c)
   then [conn_name c] else []) ++
  (if one_of (edge_labels cfg) ["stereotype"; "both"] && Py.truthy (conn_stereotype c)
   then ["<<" +:+ conn_stereotype c +:+ ">>"] else []).

Definition connector_label (c : Conn) : string :=
  match connector_parts c with
  | [] => ""
  | parts => " : " +:+ Py.join " " parts
  end.

(** The line [render_connectors] appends for one connector, if any. *)
Definition connector_line (st : State) (c : Conn) : option string :=
  match Py.get (elements st) (source_uid c), Py.get (elements st) (target_uid c) with
  | Some src_el, Some dst_el =>
      Some (ref_token src_el +:+ " " +:+ colored c (relation c) +:+ " " +:+
            ref_token dst_el +:+ connector_label c)
  | _, _ => None
  end.

(** [render_connectors()] *)
Definition render_connectors (st : State) : string :=
  Py.join Py.newline (omap (connector_line st) (Py.values (connectors st)) ++ [""]).

(** ** Sequence (basic) *)

(** [is_sequence_diagram(diagram)]; reading [diagram.Type] succeeds, as
    every attribute read of the automation interface does here, so the
    [except] branch is not taken. *)
Definition is_sequence_diagram (diagram : EA.Diagram) : bool :=
  String.eqb (Py.lower (Py.or_str (EA.d_Type diagram) "")) "sequence".

Definition participant_line (el : El) : string :=
  let et := Py.lower (Py.or_str (el_type el) "") in
  let name := puml_escape_inline (el_name el) in
  let ref := ref_token el in
  let kw := if one_of et ["actor"] then "actor " else "participant " in
  if String.eqb (alias_mode cfg) "name"
  then kw +:+ Py.dquote +:+ name +:+ Py.dquote
  else kw +:+ Py.dquote +:+ name +:+ Py.dquote +:+ " as " +:+ ref.

(** The [parts] and [label] of a message in [render_sequence]. *)
Definition message_parts (c : Conn) : list string :=
  (if one_of (edge_labels cfg) ["name"; "both"] && Py.truthy (conn_name c)
   then [conn_name c] else []) ++
  (if one_of (edge_labels cfg) ["stereotype"; "both"] && Py.truthy (conn_stereotype c)
   then ["<<" +:+ conn_stereotype c +:+ ">>"] else []).

Definition message_line (st : State) (c : Conn) : option string :=
  match Py.get (elements st) (source_uid c), Py.get (elements st) (target_uid c) with
  | Some src_el, Some dst_el =>
      if one_of (Py.lower (Py.or_str (conn_type c) "")) ["message"; "sequence"] then
        Some (ref_token src_el +:+ " -> " +:+ ref_token dst_el +:+
              match message_parts c with
              | [] => ""
              | parts => " : " +:+ Py.join " " parts
              end)
      else None
  | _, _ => None
  end.

(** [render_sequence(diagram)] *)
Definition render_sequence (st : State) : string :=
  Py.join Py.newline
    (map participant_line (Py.values (elements st)) ++ [""] ++
     omap (message_line st) (Py.values (connectors st)) ++ [""]).

End Render.

(** ** Main *)

(** [get_selected_diagram()] *)
Definition get_selected_diagram (repo : EA.Repository) : result EA.Diagram :=
  let '(itemType, item) := EA.GetTreeSelectedItem repo in
  if negb (itemType =? 8)
  then Raise (RuntimeError "Please select a Diagram in EA's Project Browser before running.")
  else Ok item.

(** The text [export] writes: everything between [gather] and the file. *)
Definition render (cfg : Config) (diagram : EA.Diagram) (st : State) : result string :=
  let* body :=
    (if is_sequence_diagram diagram then Ok [render_sequence cfg st]
     else
       let* grouped := render_elements_grouped cfg st in
       Ok [grouped; render_connectors cfg st]) in
  Ok (Py.join Py.newline ([render_header cfg diagram] ++ body ++ [render_footer])).

(** [export(outdir, filename)]; [app] is the outcome of [connect_ea], the
    repository of the running Enterprise Architect or the error of the
    dispatch. Returns the file system after the call and the path written
    or the error raised; the directory is made before the file is opened,
    so it stays when the writing fails. *)
Definition export (env : Env) (cfg : Config) (app : result EA.Repository)
    (outdir : string) (filename : option string) (fs : OS.FS)
  : OS.FS * result string :=
  match
    (let* repo := app in
     let* diagram := get_selected_diagram repo in
     let* st := gather env cfg repo (recursion_limit env) diagram 0 0 (init cfg) in
     let* puml := render cfg diagram st in
     Ok (diagram, puml))
  with
  | Raise e => (fs, Raise e)
  | Ok (diagram, puml) =>
      let base := Py.sub_non_filename_underscore
                    (match filename with
                     | Some f => Py.or_str f (Py.or_str (EA.d_Name diagram) "diagram")
                     | None => Py.or_str (EA.d_Name diagram) "diagram"
                     end) in
      let '(fs1, made) := OS.makedirs outdir fs in
      match made with
      | Raise e => (fs1, Raise e)
      | Ok _ =>
          let path := OS.path_join fs outdir (base +:+ ".puml") in
          let '(fs2, written) := OS.write_text path puml fs1 in
          (fs2, let* _ := written in Ok path)
      end
  end.

(** ** Notions used in the statements *)

(** The package entry [gather] records for an element of type Package. *)
Definition pkg_of (el : El) : Pkg :=
  {| pkg_guid := el_guid el; pkg_name := el_name el; pkg_alias := el_alias el;
     pkg_color := el_bg_hex el; pkg_rect := el_rect el |}.

(** A diagram with other links. *)
Definition with_links (d : EA.Diagram) (links : list EA.DiagramLink) : EA.Diagram :=
  {| EA.DiagramID := EA.DiagramID d; EA.d_Name := EA.d_Name d;
     EA.d_Type := EA.d_Type d; EA.DiagramObjects := EA.DiagramObjects d;
     EA.DiagramLinks := links |}.

(** A diagram with another type tag. *)
Definition with_type (d : EA.Diagram) (t : string) : EA.Diagram :=
  {| EA.DiagramID := EA.DiagramID d; EA.d_Name := EA.d_Name d;
     EA.d_Type := t; EA.DiagramObjects := EA.DiagramObjects d;
     EA.DiagramLinks := EA.DiagramLinks d |}.

(** A repository with another selected diagram. *)
Definition with_selected (repo : EA.Repository) (d : EA.Diagram) : EA.Repository :=
  {| EA.GetElementByID := EA.GetElementByID repo;
     EA.GetDiagramByID := EA.GetDiagramByID repo;
     EA.GetConnectorByID := EA.GetConnectorByID repo;
     EA.GetTreeSelectedItem := (8%Z, d);
     EA.GetCurrentDiagram := Some d |}.

(** One endpoint of the link resolves to no shape of the state: neither
    its instance identity nor, through the element index, the model
    element it names. *)
Definition unresolved (repo : EA.Repository) (st : State) (dLnk : EA.DiagramLink) : bool :=
  let dConn := EA.GetConnectorByID repo (EA.dl_ConnectorID dLnk) in
  falsy (resolve_endpoint_uid st dLnk dConn source)
  || falsy (resolve_endpoint_uid st dLnk dConn target).

(** What [gather] maintains of the shapes it has collected: the keys of
    the two dictionaries are the GUIDs of their entries, and an element of
    type Package has its package entry. *)
Record collected (st : State) : Prop := {
  elements_nodup : NoDup (Py.keys (elements st));
  packages_nodup : NoDup (Py.keys (packages st));
  elements_guid : forall k el, (k, el) ∈ elements st -> el_guid el = k;
  packages_guid : forall k p, (k, p) ∈ packages st -> pkg_guid p = k;
  packages_of : forall k el,
    (k, el) ∈ elements st -> el_type el = "Package" -> (k, pkg_of el) ∈ packages st;
}.

(** The sides of a rectangle are below 2^53, as those of every rectangle
    with 32-bit coordinates are: its area is below 2^106 and converts to a
    double without overflow, with an error smaller than either side. *)
Definition in_double_range (r : Rect) : Prop := w r < 2 ^ 53 /\ h r < 2 ^ 53.

(** No shape of the diagram is a nested diagram. *)
Definition flat (repo : EA.Repository) (d : EA.Diagram) : Prop :=
  Forall (fun o => EA.Type_ (EA.GetElementByID repo (EA.do_ElementID o)) <> "UMLDiagram")
    (EA.DiagramObjects d).

(** The order of the package blocks. *)
Definition pkg_order : Pkg -> Pkg -> Prop := Py.key_order pkg_key.

End EAPlantUMLExporter.

(* ===================================================================== *)
(** * The package ea2puml/                                                 *)
(* ===================================================================== *)

(** ** ea2puml/config.py *)

Module config.

Record Config : Type := {
  outdir : string;
  filename : option string;
  include_tags : list string;
  no_colors : bool;
  element_stereo : option string;
  edge_labels : option string;
  direction : option string;
  explore : bool;
  skin : option string;
  autolayout : option string;
  alias_mode : option string;
  interface_style : option string;
}.

End config.

(** Truth value of an optional string: present and non-empty. *)
Definition truthy_opt (o : option string) : bool :=
  match o with
  | Some s => Py.truthy s
  | None => false
  end.

(** ** ea2puml/models.py *)

Module models.

Record Geometry : Type := { left : Z; right : Z; top : Z; bottom : Z }.

Record Element : Type := {
  e_id : Z;
  e_guid : string;
  e_name : string;
  e_type : string;
  e_stereotype : option string;
  e_color : option string;
  e_tags : list (string * string);
  e_geometry : option Geometry;
  e_alias : option string;
}.

Record Note : Type := {
  n_id : Z;
  n_text : string;
  n_geometry : option Geometry;
  n_tags : list (string * string);
}.

Record ConnectorEnd : Type := {
  element_id : Z;
  role : option string;
  label : option string;
}.

Record Connector : Type := {
  c_id : Z;
  c_type : string;
  c_stereotype : option string;
  c_color : option string;
  c_source : ConnectorEnd;
  c_target : ConnectorEnd;
  c_labels : list (string * string);
  c_geometry : option Geometry;
}.

Record Diagram : Type := {
  d_id : Z;
  d_name : string;
  d_type : string;
  d_elements : list Element;
  d_connectors : list Connector;
  d_notes : list Note;
  d_packages : gmap Z (list Z);
  d_direction : option string;
}.

End models.

(** ** ea2puml/renderer.py *)

Module PlantUMLWriter.

Record t : Type := {
  buf : list string;
  skin : option string;
  autolayout : option string;
  started : bool;
  ended : bool;
}.

Definition init (skin autolayout : option string) : t :=
  {| buf := []; skin := skin; autolayout := autolayout;
     started := false; ended := false |}.

Definition with_buf (self : t) (b : list string) : t :=
  {| buf := b; skin := skin self; autolayout := autolayout self;
     started := started self; ended := ended self |}.

(** [start(title)] *)
Definition start (self : t) (title : string) : t :=
  if started self then self
  else
    let b := buf self ++ ["@startuml"] in
    let b := match skin self with
             | Some k => if Py.truthy k then b ++ [k] else b
             | None => b
             end in
    let b := match autolayout self with
             | Some a => if Py.truthy a then b ++ [a] else b
             | None => b
             end in
    let b := if Py.truthy title
             then b ++ ["title " +:+ Py.dquote +:+ utils.puml_escape_inline title +:+ Py.dquote]
             else b in
    {| buf := b; skin := skin self; autolayout := autolayout self;
       started := true; ended := ended self |}.

(** [writeln(line)] *)
Definition writeln (self : t) (line : string) : t :=
  with_buf self (buf self ++ [line]).

(** [end()] *)
Definition end_ (self : t) : t :=
  if ended self then self
  else {| buf := buf self ++ ["@enduml"]; skin := skin self;
          autolayout := autolayout self; started := started self; ended := true |}.

Definition endswith_newline (s : string) : bool :=
  match rev (Py.chars s) with
  | c :: _ => (Py.code c =? 10)%N
  | [] => false
  end.

(** [text()] *)
Definition text (self : t) : string :=
  Py.join Py.newline (buf self) +:+
  match rev (buf self) with
  | last :: _ => if negb (endswith_newline last) then Py.newline else ""
  | [] => ""
  end.

(** [save(outdir, filename)]: the directory is made first, and stays when
    the writing fails. *)
Definition save (self : t) (outdir filename : string) (fs : OS.FS)
  : OS.FS * result string :=
  let '(fs1, made) := OS.makedirs outdir fs in
  match made with
  | Raise e => (fs1, Raise e)
  | Ok _ =>
      let path := OS.truediv fs outdir (filename +:+ ".puml") in
      let '(fs2, written) := OS.write_text path (text self) fs1 in
      (fs2, let* _ := written in Ok path)
  end.

End PlantUMLWriter.

(** ** ea2puml/handlers/ *)

Module handlers.

Import models config.

(** [_index(diagram).get(id)]: the dictionary comprehension keeps, for an
    id that occurs more than once, the last element carrying it. *)
Definition index_get (diagram : Diagram) (id : Z) : option Element :=
  last (filter (fun e => e_id e = id) (d_elements diagram)).

Definition quoted (s : string) : string :=
  Py.dquote +:+ utils.puml_escape_inline s +:+ Py.dquote.

(** [_ref(el, alias_mode)] *)
Definition _ref (el : Element) (alias_mode : option string) : string :=
  if bool_decide (alias_mode = Some "name") then quoted (e_name el)
  else match e_alias el with
       | Some a => if Py.truthy a then a else quoted (e_name el)
       | None => quoted (e_name el)
       end.

Definition policy_in (policy : option string) (l : list string) : bool :=
  match policy with
  | Some p => existsb (String.eqb p) l
  | None => false
  end.

Definition as_alias (cfg : Config) (el : Element) : string :=
  match e_alias el with
  | Some a =>
      if Py.truthy a && negb (bool_decide (alias_mode cfg = Some "name"))
      then " as " +:+ a else ""
  | None => ""
  end.

Definition is_actor (el : Element) : bool :=
  String.eqb (Py.lower (default "" (e_stereotype el))) "actor"
  || String.eqb (Py.lower (e_type el)) "actor".

Module component.

Definition element_line (cfg : Config) (el : Element) : string :=
  let stereo := match e_stereotype el with
                | Some st =>
                    if Py.truthy st && truthy_opt (element_stereo cfg)
                    then " <<" +:+ st +:+ ">>" else ""
                | None => ""
                end in
  let color := "" in
  "component " +:+ quoted (e_name el) +:+ stereo +:+ as_alias cfg el +:+ color.

(** The label policy of the component handler. *)
Definition label_parts (cfg : Config) (c : Connector) : list string :=
  (if policy_in (edge_labels cfg) ["name"; "both"] then
     match Py.get (c_labels c) "name" with
     | Some nm => if Py.truthy nm then [nm] else []
     | None => []
     end
   else []) ++
  (if policy_in (edge_labels cfg) ["stereotype"; "both"]
      && truthy_opt (c_stereotype c)
   then ["<<" +:+ default "" (c_stereotype c) +:+ ">>"] else []).

Definition connector_label (cfg : Config) (c : Connector) : string :=
  match label_parts cfg c with
  | [] => ""
  | parts => " : " +:+ Py.join " / " parts
  end.

(** The line the connector loop writes for one connector, if any. *)
Definition connector_line (cfg : Config) (diagram : Diagram) (c : Connector)
  : option string :=
  match index_get diagram (element_id (c_source c)),
        index_get diagram (element_id (c_target c)) with
  | Some src_el, Some dst_el =>
      Some (_ref src_el (alias_mode cfg) +:+ " --> " +:+ _ref dst_el (alias_mode cfg)
            +:+ connector_label cfg c)
  | _, _ => None
  end.

Definition note_line (n : Note) : string :=
  "note " +:+ Py.dquote +:+ n_text n +:+ Py.dquote +:+ " as N" +:+ Py.str_of_int (n_id n).

(** [ComponentDiagramHandler.render(diagram, out, cfg)] *)
Definition render (diagram : Diagram) (out : PlantUMLWriter.t) (cfg : Config)
  : PlantUMLWriter.t :=
  PlantUMLWriter.with_buf out
    (PlantUMLWriter.buf out ++
     (if truthy_opt (direction cfg) then [default "" (direction cfg)] else []) ++
     map (element_line cfg) (d_elements diagram) ++
     omap (connector_line cfg diagram) (d_connectors diagram) ++
     map note_line (d_notes diagram)).

End component.

Module sequence.

Definition participant_line (cfg : Config) (el : Element) : string :=
  let name := utils.puml_escape_inline (e_name el) in
  let kw := if is_actor el then "actor " else "participant " in
  if bool_decide (alias_mode cfg = Some "name")
  then kw +:+ Py.dquote +:+ name +:+ Py.dquote
  else kw +:+ Py.dquote +:+ name +:+ Py.dquote +:+ " as " +:+
       match e_alias el with Some a => a | None => "None" end.

Definition message_line (cfg : Config) (diagram : Diagram) (c : Connector)
  : option string :=
  match index_get diagram (element_id (c_source c)),
        index_get diagram (element_id (c_target c)) with
  | Some src_el, Some dst_el =>
      let label := default "" (Py.get (c_labels c) "name") in
      Some (_ref src_el (alias_mode cfg) +:+ " -> " +:+ _ref dst_el (alias_mode cfg)
            +:+ (if Py.truthy label then " : " +:+ label else ""))
  | _, _ => None
  end.

(** [SequenceDiagramHandler.render(diagram, out, cfg)] *)
Definition render (diagram : Diagram) (out : PlantUMLWriter.t) (cfg : Config)
  : PlantUMLWriter.t :=
  PlantUMLWriter.with_buf out
    (PlantUMLWriter.buf out ++
     map (participant_line cfg) (d_elements diagram) ++ [""] ++
     omap (message_line cfg diagram) (d_connectors diagram) ++ [""]).

End sequence.

Module usecase.

Definition element_line (cfg : Config) (el : Element) : string :=
  (if is_actor el then "actor " else "usecase ") +:+ quoted (e_name el) +:+ as_alias cfg el.

Definition connector_line (cfg : Config) (diagram : Diagram) (c : Connector)
  : option string :=
  match index_get diagram (element_id (c_source c)),
        index_get diagram (element_id (c_target c)) with
  | Some src_el, Some dst_el =>
      let label := default "" (Py.get (c_labels c) "name") in
      Some (_ref src_el (alias_mode cfg) +:+ " --> " +:+ _ref dst_el (alias_mode cfg)
            +:+ (if Py.truthy label then " : " +:+ label else ""))
  | _, _ => None
  end.

(** [UseCaseDiagramHandler.render(diagram, out, cfg)] *)
Definition render (diagram : Diagram) (out : PlantUMLWriter.t) (cfg : Config)
  : PlantUMLWriter.t :=
  PlantUMLWriter.with_buf out
    (PlantUMLWriter.buf out ++
     map (element_line cfg) (d_elements diagram) ++
     omap (connector_line cfg diagram) (d_connectors diagram)).

End usecase.

End handlers.

(** ** ea2puml/handler_registry.py *)

Module handler_registry.

(** The handler classes. *)
Inductive Handler : Type :=
  | ComponentDiagramHandler
  | SequenceDiagramHandler
  | UseCaseDiagramHandler.

(** [Handler.render(diagram, out, cfg)] *)
Definition render (hd : Handler) :=
  match hd with
  | ComponentDiagramHandler => handlers.component.render
  | SequenceDiagramHandler => handlers.sequence.render
  | UseCaseDiagramHandler => handlers.usecase.render
  end.

(** [register(ea_diagram_type)(cls)] *)
Definition register (ea_diagram_type : string) (cls : Handler)
    (registry : gmap string Handler) : gmap string Handler :=
  <[Py.lower (Py.strip ea_diagram_type) := cls]> registry.

(** [_REGISTRY] once [main] has imported the three handler modules. *)
Definition _REGISTRY : gmap string Handler :=
  register "Use Case" UseCaseDiagramHandler
    (register "Sequence" SequenceDiagramHandler
       (register "Component" ComponentDiagramHandler ∅)).

Definition no_handler (diagram_type : string) : PyError :=
  KeyError ("No handler registered for diagram type: " +:+ Py.repr diagram_type).

(** [resolve(diagram_type)] *)
Definition resolve (diagram_type : string) : result Handler :=
  let key := Py.lower (Py.strip (Py.or_str diagram_type "")) in
  match _REGISTRY !! key with
  | Some cls => Ok cls
  | None => Raise (no_handler diagram_type)
  end.

End handler_registry.

(** ** ea2puml/ea_adapter.py *)

Module EAAdapter.

Import models config.

(** [_parse_geometry(d_obj)]: the automation interface resolves attribute
    names without regard to case, so [left] and [Left] read the same
    number. *)
Definition _parse_geometry (d_obj : EA.DiagramObject) : Geometry :=
  {| left := EA.Left d_obj; right := EA.Right d_obj;
     top := EA.Top d_obj; bottom := EA.Bottom d_obj |}.

(** [_collect_tags(el)] *)
Definition _collect_tags (el : EA.Element) : list (string * string) :=
  match EA.TaggedValues el with
  | None => []
  | Some tvs =>
      foldl (fun tags tv =>
               let val := if truthy_opt (EA.tv_Value tv)
                          then EA.tv_Value tv else EA.tv_Notes tv in
               if Py.truthy (EA.tv_Name tv)
               then Py.set tags (EA.tv_Name tv) (default "" val)
               else tags)
            [] tvs
  end.

(** The loop over [dia.DiagramObjects] that builds the elements. *)
Fixpoint collect_elements (env : Env) (cfg : Config) (repo : EA.Repository)
    (objs : list EA.DiagramObject) (factory : utils.AliasFactory.t) (draws : nat)
  : list Element :=
  match objs with
  | [] => []
  | d_obj :: objs' =>
      let el := EA.GetElementByID repo (EA.do_ElementID d_obj) in
      let inst_guid := EA.InstanceGUID d_obj in
      let '(alias, factory', draws') :=
        utils.AliasFactory.make env factory draws inst_guid (Py.or_str (EA.Name el) "") in
      {| e_id := EA.ElementID el;
         e_guid := inst_guid;
         e_name := Py.or_str (EA.Name el) "";
         e_type := Py.or_str (EA.Type_ el) "";
         e_stereotype := if Py.truthy (EA.Stereotype el) then Some (EA.Stereotype el) else None;
         e_color := None;
         e_tags := _collect_tags el;
         e_geometry := Some (_parse_geometry d_obj);
         e_alias := Some (if negb (bool_decide (alias_mode cfg = Some "name"))
                          then alias else "") |}
      :: collect_elements env cfg repo objs' factory' draws'
  end.

(** The note of one diagram object, for the objects that are notes. *)
Definition note_of (repo : EA.Repository) (d_obj : EA.DiagramObject) : option Note :=
  let el := EA.GetElementByID repo (EA.do_ElementID d_obj) in
  if existsb (String.eqb (Py.lower (Py.or_str (EA.Type_ el) ""))) ["note"; "text"]
  then Some {| n_id := EA.ElementID el;
               n_text := Py.or_str (EA.Notes el) (Py.or_str (EA.Name el) "");
               n_geometry := Some (_parse_geometry d_obj);
               n_tags := _collect_tags el |}
  else None.

Definition connector_of (repo : EA.Repository) (d_link : EA.DiagramLink) : Connector :=
  let conn := EA.GetConnectorByID repo (EA.dl_ConnectorID d_link) in
  {| c_id := EA.ConnectorID conn;
     c_type := Py.or_str (EA.c_Type conn) "";
     c_stereotype := if Py.truthy (EA.c_Stereotype conn)
                     then Some (EA.c_Stereotype conn) else None;
     c_color := None;
     c_source := {| element_id := EA.ClientID conn; role := None; label := None |};
     c_target := {| element_id := EA.SupplierID conn; role := None; label := None |};
     c_labels := [("name", Py.or_str (EA.c_Name conn) "")];
     c_geometry := None |}.

(** [EAAdapter(cfg).get_selected_diagram()]; [app] is the outcome of
    [_ensure_repo]. *)
Definition get_selected_diagram (env : Env) (cfg : Config) (app : result EA.Repository)
  : result Diagram :=
  let* repo := app in
  match EA.GetCurrentDiagram repo with
  | None => Raise (RuntimeError "No current diagram selected in EA.")
  | Some dia =>
      Ok {| d_id := EA.DiagramID dia;
            d_name := EA.d_Name dia;
            d_type := EA.d_Type dia;
            d_elements :=
              collect_elements env cfg repo (EA.DiagramObjects dia)
                (utils.AliasFactory.init
                   (match alias_mode cfg with
                    | Some m => Py.or_str m "human"
                    | None => "human"
                    end)) 0;
            d_connectors := map (connector_of repo) (EA.DiagramLinks dia);
            d_notes := omap (note_of repo) (EA.DiagramObjects dia);
            d_packages := ∅;
            d_direction := None |}
  end.

End EAAdapter.

(** ** ea2puml/main.py *)

Module main.

Import models config.

(** [_sanitize_filename(name)] *)
Definition _sanitize_filename (name : string) : string :=
  Py.or_str (Py.sub_non_filename_underscore (Py.strip name)) "diagram".

Definition with_direction (diagram : Diagram) (d : option string) : Diagram :=
  {| d_id := d_id diagram; d_name := d_name diagram; d_type := d_type diagram;
     d_elements := d_elements diagram; d_connectors := d_connectors diagram;
     d_notes := d_notes diagram; d_packages := d_packages diagram;
     d_direction := d |}.

(** [run(cfg)]: returns the file system after the call and the path
    written or the error raised. *)
Definition run (env : Env) (cfg : Config) (app : result EA.Repository) (fs : OS.FS)
  : OS.FS * result string :=
  match
    (let* diagram := EAAdapter.get_selected_diagram env cfg app in
     let diagram := if truthy_opt (direction cfg)
                    then with_direction diagram (direction cfg) else diagram in
     let* Handler := handler_registry.resolve (d_type diagram) in
     let out := PlantUMLWriter.init (skin cfg) (autolayout cfg) in
     let out := PlantUMLWriter.start out (d_name diagram) in
     let out := handler_registry.render Handler diagram out cfg in
     let out := PlantUMLWriter.end_ out in
     Ok (diagram, out))
  with
  | Raise e => (fs, Raise e)
  | Ok (diagram, out) =>
      let fname := match filename cfg with
                   | Some f => Py.or_str f (_sanitize_filename (d_name diagram))
                   | None => _sanitize_filename (d_name diagram)
                   end in
      PlantUMLWriter.save out (outdir cfg) fname fs
  end.

End main.

(* ===================================================================== *)
(** * Notions used in the statements about the package                     *)
(* ===================================================================== *)

(** A diagram of the package with other connectors. *)
Definition with_connectors (d : models.Diagram) (cs : list models.Connector)
  : models.Diagram :=
  {| models.d_id := models.d_id d; models.d_name := models.d_name d;
     models.d_type := models.d_type d; models.d_elements := models.d_elements d;
     models.d_connectors := cs; models.d_notes := models.d_notes d;
     models.d_packages := models.d_packages d;
     models.d_direction := models.d_direction d |}.

(** The GUIDs from which [sanitize_alias] takes the alias itself: those
    with an alphanumeric character. *)
Definition guid_stable (guid : string) : Prop :=
  Py.truthy (Py.sub_non_alnum_empty guid) = true.

(** Every shape of the diagram has such a GUID. *)
Definition diagram_stable (d : EA.Diagram) : Prop :=
  Forall (fun o => guid_stable (EA.InstanceGUID o)) (EA.DiagramObjects d).

(** The label the specification describes: the parts the policy selects,
    joined with [" / "] after [" : "], and nothing at all for a connector
    flagged hidden-labels. *)
Definition spec_label (policy : string) (hidden : bool) (name stereotype : string)
  : string :=
  if hidden then ""
  else
    match
      ((if existsb (String.eqb policy) ["name"; "both"] && Py.truthy name
        then [name] else []) ++
       (if existsb (String.eqb policy) ["stereotype"; "both"] && Py.truthy stereotype
        then ["<<" +:+ stereotype +:+ ">>"] else []))%list
    with
    | [] => ""
    | parts => " : " +:+ Py.join " / " parts
    end.

(** The label by cases: which of the two parts are shown, and what
    separates them. *)
Definition label_of (sep : string) (show_name show_stereotype : bool)
    (name stereotype : string) : string :=
  match show_name && Py.truthy name, show_stereotype && Py.truthy stereotype with
  | true, true => " : " +:+ name +:+ sep +:+ "<<" +:+ stereotype +:+ ">>"
  | true, false => " : " +:+ name
  | false, true => " : " +:+ "<<" +:+ stereotype +:+ ">>"
  | false, false => ""
  end.

(* ===================================================================== *)
(** * Example data                                                         *)
(* ===================================================================== *)

Module Examples.

Local Open Scope Z_scope.

(** A stand-in for the keyed hash of a bytes object: the bytes read as a
    number. *)
Definition bytes_value (bs : list ascii) : Z :=
  foldl (fun acc c => acc * 256 + Z.of_N (Py.code c)) 0 bs.

Definition env_a : Env :=
  {| hash_str := fun s => bytes_value (Py.chars s);
     hash_bytes := bytes_value;
     urandom4 := fun _ => ["001"; "002"; "003"; "004"]%char;
     recursion_limit := 1000 |}.

(** A second process: the operating system hands out other bytes. *)
Definition env_b : Env :=
  {| hash_str := fun s => bytes_value (Py.chars s);
     hash_bytes := bytes_value;
     urandom4 := fun _ => ["005"; "006"; "007"; "008"]%char;
     recursion_limit := 1000 |}.

(** The defaults of the command line. *)
Definition cfg_human : EAPlantUMLExporter.Config :=
  {| EAPlantUMLExporter.include_tags := false;
     EAPlantUMLExporter.include_colors := true;
     EAPlantUMLExporter.element_stereo := "off";
     EAPlantUMLExporter.edge_labels := "both";
     EAPlantUMLExporter.direction := None;
     EAPlantUMLExporter.skin := false;
     EAPlantUMLExporter.autolayout := false;
     EAPlantUMLExporter.explore := false;
     EAPlantUMLExporter.alias_mode := "human";
     EAPlantUMLExporter.interface_style := "lollipop" |}.

Definition cfg_uuid : EAPlantUMLExporter.Config :=
  {| EAPlantUMLExporter.include_tags := false;
     EAPlantUMLExporter.include_colors := true;
     EAPlantUMLExporter.element_stereo := "off";
     EAPlantUMLExporter.edge_labels := "both";
     EAPlantUMLExporter.direction := None;
     EAPlantUMLExporter.skin := false;
     EAPlantUMLExporter.autolayout := false;
     EAPlantUMLExporter.explore := false;
     EAPlantUMLExporter.alias_mode := "uuid";
     EAPlantUMLExporter.interface_style := "lollipop" |}.

Definition element (id : Z) (name type : string) : EA.Element :=
  {| EA.ElementID := id; EA.Name := name; EA.Type_ := type;
     EA.Stereotype := ""; EA.Notes := ""; EA.MiscData0 := 0;
     EA.TaggedValues := None |}.

(** A shape placed at [left], [top] (downwards negative, as Enterprise
    Architect reports it) with the given width and height. *)
Definition placed (id : Z) (guid : string) (left top width height : Z)
  : EA.DiagramObject :=
  {| EA.do_ElementID := id; EA.InstanceGUID := guid;
     EA.Left := left; EA.Right := left + width;
     EA.Top := - top; EA.Bottom := - (top + height);
     EA.BackgroundColor := None; EA.ShowTags := None |}.

Definition link (id : Z) (src tgt : string) (hidden_labels : bool) : EA.DiagramLink :=
  {| EA.dl_ConnectorID := id; EA.IsHidden := false;
     EA.SourceInstanceUID := src; EA.TargetInstanceUID := tgt;
     EA.LineColor := None; EA.LineWidth := None;
     EA.HiddenLabels := Some hidden_labels |}.

(** Connector 7 runs from the class to the first package; connector 8
    from the class to model element 99, which is on no diagram. *)
Definition connector (id : Z) : EA.Connector :=
  {| EA.ConnectorID := id; EA.c_Name := "uses"; EA.c_Type := "Dependency";
     EA.c_Stereotype := "call"; EA.Direction := "Source -> Destination";
     EA.ClientID := 3; EA.SupplierID := if id =? 7 then 1 else 99 |}.

Definition good_link : EA.DiagramLink := link 7 "{C}" "" false.
Definition hidden_label_link : EA.DiagramLink := link 7 "{C}" "" true.
Definition dangling_link : EA.DiagramLink := link 8 "{C}" "{gone}" false.

(** Two packages that overlap, the second one lower on the canvas, and a
    class that lies in both. *)
Definition overlapping (links : list EA.DiagramLink) : EA.Diagram :=
  {| EA.DiagramID := 1; EA.d_Name := "Overlap"; EA.d_Type := "Logical";
     EA.DiagramObjects := [placed 2 "{P2}" 50 50 100 100;
                           placed 1 "{P1}" 0 0 100 100;
                           placed 3 "{C}" 60 60 20 20];
     EA.DiagramLinks := links |}.

(** A diagram whose only shape carries no instance GUID. *)
Definition anonymous : EA.Diagram :=
  {| EA.DiagramID := 2; EA.d_Name := "Anonymous"; EA.d_Type := "Logical";
     EA.DiagramObjects := [placed 3 "" 60 60 20 20];
     EA.DiagramLinks := [] |}.

Definition repository (selected : EA.Diagram) : EA.Repository :=
  {| EA.GetElementByID := fun id =>
       if id =? 1 then element 1 "P1" "Package"
       else if id =? 2 then element 2 "P2" "Package"
       else element 3 "C" "Class";
     EA.GetDiagramByID := fun _ => selected;
     EA.GetConnectorByID := connector;
     EA.GetTreeSelectedItem := (8, selected);
     EA.GetCurrentDiagram := Some selected |}.

(** The state [export] renders for the overlapping packages with the
    given links. *)
Definition gathered_with (links : list EA.DiagramLink) : EAPlantUMLExporter.State :=
  match EAPlantUMLExporter.gather env_a cfg_human (repository (overlapping []))
          (recursion_limit env_a) (overlapping links) 0 0
          (EAPlantUMLExporter.init cfg_human)
  with
  | Ok st => st
  | Raise _ => EAPlantUMLExporter.init cfg_human
  end.

Definition gathered : EAPlantUMLExporter.State := gathered_with [].

(** An empty disk on which every request succeeds. *)
Definition empty_fs : OS.FS :=
  {| OS.dirs := ∅; OS.files := ∅;
     OS.mkdir_answer := fun _ => (∅, None);
     OS.open_answer := fun _ _ => None;
     OS.join_answer := fun a b => b;
     OS.truediv_answer := fun a b => a +:+ "\" +:+ b |}.

Definition quoted (s : string) : string := Py.dquote +:+ s +:+ Py.dquote.

(** The configuration of the package with every option left out. *)
Definition pkg_cfg : config.Config :=
  {| config.outdir := "output"; config.filename := None;
     config.include_tags := []; config.no_colors := false;
     config.element_stereo := None; config.edge_labels := Some "both";
     config.direction := None; config.explore := false;
     config.skin := None; config.autolayout := None;
     config.alias_mode := None; config.interface_style := None |}.

Definition pkg_element (id : Z) (name : string) : models.Element :=
  {| models.e_id := id; models.e_guid := name; models.e_name := name;
     models.e_type := "Component"; models.e_stereotype := None;
     models.e_color := None; models.e_tags := []; models.e_geometry := None;
     models.e_alias := Some name |}.

Definition pkg_connector (id src tgt : Z) : models.Connector :=
  {| models.c_id := id; models.c_type := "Dependency";
     models.c_stereotype := Some "call"; models.c_color := None;
     models.c_source := {| models.element_id := src; models.role := None;
                           models.label := None |};
     models.c_target := {| models.element_id := tgt; models.role := None;
                           models.label := None |};
     models.c_labels := [("name", "uses")]; models.c_geometry := None |}.

Definition pkg_diagram (cs : list models.Connector) : models.Diagram :=
  {| models.d_id := 1; models.d_name := "Parts"; models.d_type := "Component";
     models.d_elements := [pkg_element 1 "A"; pkg_element 2 "B"];
     models.d_connectors := cs; models.d_notes := [];
     models.d_packages := ∅; models.d_direction := None |}.

(** What the adapter of the package makes of the overlapping packages. *)
Definition adapted : models.Diagram :=
  match EAAdapter.get_selected_diagram env_a pkg_cfg
          (Ok (repository (overlapping [])))
  with
  | Ok d => d
  | Raise _ => pkg_diagram []
  end.

End Examples.

(* ===================================================================== *)
(** * Further notions used in the statements                               *)
(* ===================================================================== *)

(** A rectangle moved by an offset, as [rect] moves the shapes of a nested
    diagram by the corner of the shape that holds it. *)
Definition shift (dx dy : Z) (r : EAPlantUMLExporter.Rect) : EAPlantUMLExporter.Rect :=
  {| EAPlantUMLExporter.x := (EAPlantUMLExporter.x r + dx)%Z;
     EAPlantUMLExporter.y := (EAPlantUMLExporter.y r + dy)%Z;
     EAPlantUMLExporter.w := EAPlantUMLExporter.w r;
     EAPlantUMLExporter.h := EAPlantUMLExporter.h r |}.

(** The first rectangle lies within the closed bounds of the second. *)
Definition within (r p : EAPlantUMLExporter.Rect) : Prop :=
  (EAPlantUMLExporter.x p <= EAPlantUMLExporter.x r /\
   EAPlantUMLExporter.x r + EAPlantUMLExporter.w r
     <= EAPlantUMLExporter.x p + EAPlantUMLExporter.w p /\
   EAPlantUMLExporter.y p <= EAPlantUMLExporter.y r /\
   EAPlantUMLExporter.y r + EAPlantUMLExporter.h r
     <= EAPlantUMLExporter.y p + EAPlantUMLExporter.h p)%Z.

(** The coordinates of a shape as the automation interface of Enterprise
    Architect hands them out: [Left], [Right], [Top] and [Bottom] are
    32-bit integers ([long]). *)
Definition long (n : Z) : Prop := (- 2 ^ 31 <= n < 2 ^ 31)%Z.

Definition long_coordinates (o : EA.DiagramObject) : Prop :=
  long (EA.Left o) /\ long (EA.Right o) /\ long (EA.Top o) /\ long (EA.Bottom o).

(** The text of a diagram rendered with the sequence strategy: the
    header, the participants and messages, the footer. *)
Definition sequence_text (cfg : EAPlantUMLExporter.Config) (d : EA.Diagram)
    (st : EAPlantUMLExporter.State) : string :=
  Py.join Py.newline
    [EAPlantUMLExporter.render_header cfg d;
     EAPlantUMLExporter.render_sequence cfg st;
     EAPlantUMLExporter.render_footer].

(** The text of a diagram rendered with the structural strategy: the
    header, the package blocks and leftovers, the connectors, the footer. *)
Definition structural_text (cfg : EAPlantUMLExporter.Config) (d : EA.Diagram)
    (st : EAPlantUMLExporter.State) (grouped : string) : string :=
  Py.join Py.newline
    [EAPlantUMLExporter.render_header cfg d;
     grouped;
     EAPlantUMLExporter.render_connectors cfg st;
     EAPlantUMLExporter.render_footer].

(** The name under which [export] writes the diagram. *)
Definition export_base (filename : option string) (d : EA.Diagram) : string :=
  Py.sub_non_filename_underscore
    (match filename with
     | Some f => Py.or_str f (Py.or_str (EA.d_Name d) "diagram")
     | None => Py.or_str (EA.d_Name d) "diagram"
     end).

(** The operating system grants the two requests of a run: the directory
    is there or is made, and the file is written. *)
Definition granted (fs : OS.FS) (outdir path text : string) : Prop :=
  snd (OS.mkdir_answer fs outdir) = None /\ OS.open_answer fs path text = None.

(** What [puml_escape_inline] makes of one character: a backslash before
    a backslash and before a double quote. *)
Definition escape_char (c : ascii) : list ascii :=
  if (Py.code c =? 92)%N || (Py.code c =? 34)%N then ["\"%char; c] else [c].

(** A token PlantUML reads as one identifier: not empty, made of
    [[A-Za-z0-9_]] only, and not beginning with a decimal digit. *)
Definition identifier (s : string) : Prop :=
  match Py.chars s with
  | [] => False
  | c :: _ =>
      Py.in_range 48 57 c = false /\
      Forall (fun c => Py.is_word c = true) (Py.chars s)
  end.

(** A decimal digit. *)
Definition digit (c : ascii) : Prop := Py.in_range 48 57 c = true.

(** The counts of an allocator are those of calls made: none is negative. *)
Definition counts_nonneg (self : utils.AliasFactory.t) : Prop :=
  forall b n, utils.AliasFactory.counts self !! b = Some n -> (0 <= n)%Z.

(** The test a shape passes to be declared in the block of a package: it
    is not the package itself, no package, and a geometric member. *)
Definition declared_in (pkg : EAPlantUMLExporter.Pkg)
    (ge : string * EAPlantUMLExporter.El) : bool :=
  negb (String.eqb (fst ge) (EAPlantUMLExporter.pkg_guid pkg)) &&
  negb (String.eqb (EAPlantUMLExporter.el_type (snd ge)) "Package") &&
  match EAPlantUMLExporter.inside (EAPlantUMLExporter.el_rect (snd ge))
          (EAPlantUMLExporter.pkg_rect pkg) with
  | Ok true => true
  | _ => false
  end.

(** A shape that is no package and is declared in none of the blocks. *)
Definition undeclared
    (bs : list (EAPlantUMLExporter.Pkg * list (string * EAPlantUMLExporter.El)))
    (ge : string * EAPlantUMLExporter.El) : bool :=
  negb (String.eqb (EAPlantUMLExporter.el_type (snd ge)) "Package") &&
  forallb (fun b => negb (declared_in (fst b) ge)) bs.

(** What [gather] maintains of the endpoints: the element index and the
    two ends of every connector name shapes of [elements]. *)
Record resolved (st : EAPlantUMLExporter.State) : Prop := {
  ids_placed : forall id g,
    EAPlantUMLExporter.elemid_to_instuid st !! id = Some g ->
    g ∈ Py.keys (EAPlantUMLExporter.elements st);
  ends_placed : forall k c,
    (k, c) ∈ EAPlantUMLExporter.connectors st ->
    EAPlantUMLExporter.source_uid c ∈ Py.keys (EAPlantUMLExporter.elements st) /\
    EAPlantUMLExporter.target_uid c ∈ Py.keys (EAPlantUMLExporter.elements st);
}.

(** A dependency drawn in red, as [gather] records it. *)
Definition red_dependency : EAPlantUMLExporter.Conn :=
  {| EAPlantUMLExporter.conn_id := "7";
     EAPlantUMLExporter.conn_name := "uses";
     EAPlantUMLExporter.conn_type := "Dependency";
     EAPlantUMLExporter.conn_stereotype := "call";
     EAPlantUMLExporter.conn_direction := "Source -> Destination";
     EAPlantUMLExporter.source_uid := "{C}";
     EAPlantUMLExporter.target_uid := "{P1}";
     EAPlantUMLExporter.line_hex := Some "#FF0000";
     EAPlantUMLExporter.line_width := 1;
     EAPlantUMLExporter.hidden_labels := false;
     EAPlantUMLExporter.conn_raw := Examples.connector 7;
     EAPlantUMLExporter.conn_dlnk := Examples.good_link |}.

(** A text that opens with the start marker and closes with the end
    marker and a line feed. *)
Definition framed (text : string) : Prop :=
  exists middle, text = "@startuml" +:+ middle +:+ "@enduml" +:+ Py.newline.

(** A file name without directory part: not empty and made of
    [[A-Za-z0-9._-]] only, so free of path separators. *)
Definition plain_name (s : string) : Prop :=
  s <> "" /\ Forall (fun c => Py.is_filename_char c = true) (Py.chars s).

(** ** ea2puml/cli.py *)

Module cli.

(** [s.split(sep)] for a one-character separator, on the characters: the
    pieces between the separators, empty ones included; there is always
    at least one piece. *)
Fixpoint split_chars (sep : ascii) (l : list ascii) : list (list ascii) :=
  match l with
  | [] => [[]]
  | c :: l' =>
      if Ascii.eqb c sep then [] :: split_chars sep l'
      else match split_chars sep l' with
           | piece :: pieces => (c :: piece) :: pieces
           | [] => [[c]]
           end
  end.

Definition split (sep : ascii) (s : string) : list string :=
  map Py.str (split_chars sep (Py.chars s)).

(** [_csv_or_multi(values)] *)
Definition _csv_or_multi (values : list string) : list string :=
  flat_map
    (fun v =>
       if Py.contains "," v
       then filter (fun x => Py.truthy x = true) (map Py.strip (split "," v))
       else let s := Py.strip v in if Py.truthy s then [s] else [])
    values.

End cli.

(** What [gather] maintains of the aliases in uuid and in human mode: the
    counts of the allocator are those of calls made, and the alias of
    every shape is an identifier. *)
Definition aliased (st : EAPlantUMLExporter.State) : Prop :=
  counts_nonneg (EAPlantUMLExporter.alias_factory st) /\
  (utils.AliasFactory.mode (EAPlantUMLExporter.alias_factory st) = "uuid" \/
   utils.AliasFactory.mode (EAPlantUMLExporter.alias_factory st) = "human") /\
  forall k el, (k, el) ∈ EAPlantUMLExporter.elements st ->
    identifier (EAPlantUMLExporter.el_alias el).

(** The calls of the alias allocator for the shapes of a diagram: the
    instance GUID and the display name of each. *)
Definition alias_calls (repo : EA.Repository) (objs : list EA.DiagramObject)
  : list (string * string) :=
  map (fun o => (EA.InstanceGUID o,
                 Py.or_str (EA.Name (EA.GetElementByID repo (EA.do_ElementID o))) ""))
    objs.

(** The alias mode the package runs in. *)
Definition package_mode (cfg : config.Config) : string :=
  match config.alias_mode cfg with
  | Some m => Py.or_str m "human"
  | None => "human"
  end.

(** ** Hexadecimal notation *)

(** The numeral [d] with the digit [x] put before it. *)
Definition hex_cons (x : N) (d : Hexadecimal.uint) : Hexadecimal.uint :=
  match x with
  | 0 => Hexadecimal.D0 d | 1 => Hexadecimal.D1 d | 2 => Hexadecimal.D2 d
  | 3 => Hexadecimal.D3 d | 4 => Hexadecimal.D4 d | 5 => Hexadecimal.D5 d
  | 6 => Hexadecimal.D6 d | 7 => Hexadecimal.D7 d | 8 => Hexadecimal.D8 d
  | 9 => Hexadecimal.D9 d | 10 => Hexadecimal.Da d | 11 => Hexadecimal.Db d
  | 12 => Hexadecimal.Dc d | 13 => Hexadecimal.Dd d | 14 => Hexadecimal.De d
  | _ => Hexadecimal.Df d
  end%N.

(** The upper-case hexadecimal digit of a number below 16. *)
Definition HEX (x : N) : ascii :=
  if (x <? 10)%N then ascii_of_N (48 + x) else ascii_of_N (55 + x).

(** A colour channel, 0 to 255, as PlantUML writes it: two upper-case
    hexadecimal digits. *)
Definition hex2 (x : Z) : string :=
  String (HEX (Z.to_N (x / 16))) (String (HEX (Z.to_N (x mod 16))) "").

(** ** Nested diagrams *)

(** The first nested diagram among the shapes of the diagram is the
    diagram itself. *)
Definition self_nested (repo : EA.Repository) (d : EA.Diagram) : Prop :=
  exists before o after,
    EA.DiagramObjects d = before ++ o :: after /\
    Forall (fun o' => EA.Type_ (EA.GetElementByID repo (EA.do_ElementID o')) <> "UMLDiagram")
      before /\
    EA.Type_ (EA.GetElementByID repo (EA.do_ElementID o)) = "UMLDiagram" /\
    EA.GetDiagramByID repo (EA.MiscData0 (EA.GetElementByID repo (EA.do_ElementID o))) = d.

(** A diagram whose only shape shows the diagram itself, and its
    repository. *)
Definition looped : EA.Diagram :=
  {| EA.DiagramID := 5; EA.d_Name := "Loop"; EA.d_Type := "Logical";
     EA.DiagramObjects := [Examples.placed 9 "{D}" 0 0 10 10];
     EA.DiagramLinks := [] |}.

Definition looped_repository : EA.Repository :=
  {| EA.GetElementByID := fun _ => Examples.element 9 "Sub" "UMLDiagram";
     EA.GetDiagramByID := fun _ => looped;
     EA.GetConnectorByID := Examples.connector;
     EA.GetTreeSelectedItem := (8%Z, looped);
     EA.GetCurrentDiagram := Some looped |}.

(** The first shape of the diagram that shows the model element [id]. *)
Definition first_shape_of (d : EA.Diagram) (id : Z) : option string :=
  EA.InstanceGUID <$> head (filter (fun o => EA.do_ElementID o = id) (EA.DiagramObjects d)).

(** The sixteen cases of a hexadecimal digit. *)
Ltac digit_cases x H :=
  assert (x = 0 \/ x = 1 \/ x = 2 \/ x = 3 \/ x = 4 \/ x = 5 \/ x = 6 \/ x = 7 \/
          x = 8 \/ x = 9 \/ x = 10 \/ x = 11 \/ x = 12 \/ x = 13 \/ x = 14 \/ x = 15)%N
    as H by lia;
  repeat (destruct H as [H|H]; [subst x|]); [..|subst x].

(* ===================================================================== *)
(** * Facts about the built-ins                                            *)
(* ===================================================================== *)

Section DictFacts.
Context {V : Type}.
Implicit Types (d : list (string * V)) (k : string) (v : V).

Lemma get_Some_elem d k v : Py.get d k = Some v -> (k, v) ∈ d.
Proof.
  induction d as [|[k' v'] d IH]; [done|]. simpl.
  destruct (String.eqb_spec k' k) as [->|Hne].
  - intros [= ->]. left.
  - intros H. right. auto.
Qed.

Lemma get_None_keys d k : Py.get d k = None <-> k ∉ Py.keys d.
Proof.
  induction d as [|[k' v'] d IH]; simpl.
  - split; [intros _; apply not_elem_of_nil|done].
  - destruct (String.eqb_spec k' k) as [->|Hne].
    + split; [done|]. intros H. exfalso. apply H. left.
    + rewrite IH. unfold Py.keys. simpl. rewrite not_elem_of_cons.
      split; [intros H; split; [congruence|done]|by intros [_ H]].
Qed.

Lemma elem_keys d k v : (k, v) ∈ d -> k ∈ Py.keys d.
Proof. intros H. unfold Py.keys. apply (list_elem_of_fmap_2 fst) in H. done. Qed.

Lemma elem_get d k v : NoDup (Py.keys d) -> (k, v) ∈ d -> Py.get d k = Some v.
Proof.
  induction d as [|[k' v'] d IH]; intros Hnd Hin.
  - by apply elem_of_nil in Hin.
  - unfold Py.keys in Hnd. simpl in Hnd. apply NoDup_cons in Hnd as [Hk Hnd].
    simpl. apply elem_of_cons in Hin as [[= <- <-]|Hin].
    + by rewrite String.eqb_refl.
    + destruct (String.eqb_spec k' k) as [->|Hne]; [|auto].
      exfalso. apply Hk. by apply elem_keys in Hin.
Qed.

Lemma keys_set d k v :
  Py.keys (Py.set d k v) = if Py.contains_key d k then Py.keys d else Py.keys d ++ [k].
Proof.
  unfold Py.contains_key.
  induction d as [|[k' v'] d IH]; [done|]. simpl.
  destruct (String.eqb_spec k' k) as [->|Hne]; [done|].
  unfold Py.keys in *. simpl. rewrite IH. by destruct (Py.get d k).
Qed.

Lemma NoDup_keys_set d k v : NoDup (Py.keys d) -> NoDup (Py.keys (Py.set d k v)).
Proof.
  intros Hnd. rewrite keys_set. unfold Py.contains_key.
  destruct (Py.get d k) eqn:E; [done|].
  apply NoDup_app. split_and!; [done| |apply NoDup_singleton].
  intros x Hx Hx'. apply list_elem_of_singleton in Hx' as ->.
  by apply get_None_keys in E.
Qed.

Lemma elem_set d k v k' v' :
  NoDup (Py.keys d) ->
  (k', v') ∈ Py.set d k v <-> (k' = k /\ v' = v) \/ (k' <> k /\ (k', v') ∈ d).
Proof.
  induction d as [|[k0 v0] d IH]; simpl; intros Hnd.
  - rewrite list_elem_of_singleton. split.
    + intros [= -> ->]. by left.
    + intros [[-> ->]|[_ H]]; [done|]. by apply elem_of_nil in H.
  - unfold Py.keys in Hnd. simpl in Hnd. apply NoDup_cons in Hnd as [Hk Hnd].
    destruct (String.eqb_spec k0 k) as [->|Hne].
    + rewrite !elem_of_cons. split.
      * intros [[= -> ->]|H]; [by left|].
        right. split; [|by right]. intros ->. apply Hk. by apply elem_keys in H.
      * intros [[-> ->]|[Hne [[= -> ->]|H]]]; [by left|done|by right].
    + rewrite !elem_of_cons, IH by done. split.
      * intros [[= -> ->]|[[-> ->]|[? ?]]]; [right; split; [done|by left]|by left|].
        right. split; [done|by right].
      * intros [[-> ->]|[Hk' [[= -> ->]|H]]]; [right; by left|by left|].
        right. right. done.
Qed.

Lemma get_set d k v k' :
  Py.get (Py.set d k v) k' = if String.eqb k k' then Some v else Py.get d k'.
Proof.
  induction d as [|[k0 v0] d IH]; simpl.
  - done.
  - destruct (String.eqb_spec k0 k) as [->|Hne]; simpl.
    + destruct (String.eqb_spec k k'); done.
    + rewrite IH. destruct (String.eqb_spec k0 k') as [->|]; [|done].
      destruct (String.eqb_spec k k'); [congruence|done].
Qed.
End DictFacts.

Section SortFacts.
Context {A : Type} (key : A -> Z * Z).

Lemma key_le_total a b : Py.key_le a b = false -> Py.key_le b a = true.
Proof.
  unfold Py.key_le. destruct a as [a1 a2], b as [b1 b2]. simpl.
  rewrite orb_false_iff, andb_false_iff, orb_true_iff, andb_true_iff.
  rewrite !Z.ltb_ge, !Z.ltb_lt, !Z.eqb_eq, !Z.eqb_neq, !Z.leb_le, Z.leb_gt. lia.
Qed.

Lemma insert_sorted_perm x l : Permutation (Py.insert_sorted key x l) (x :: l).
Proof.
  induction l as [|y l IH]; simpl; [done|].
  destruct (Py.key_le (key x) (key y)); [done|].
  rewrite IH. apply perm_swap.
Qed.

Lemma sorted_perm l : Permutation (Py.sorted key l) l.
Proof.
  induction l as [|x l IH]; simpl; [done|].
  unfold Py.sorted in *. simpl. rewrite insert_sorted_perm. by constructor.
Qed.

Lemma insert_sorted_Sorted x l :
  Sorted (Py.key_order key) l -> Sorted (Py.key_order key) (Py.insert_sorted key x l).
Proof.
  induction 1 as [|y l Hs IH Hhd]; simpl.
  - repeat constructor.
  - destruct (Py.key_le (key x) (key y)) eqn:E.
    + constructor; [by constructor|]. by constructor.
    + constructor; [done|].
      destruct l as [|z l]; simpl.
      * constructor. by apply key_le_total.
      * inversion Hhd; subst.
        destruct (Py.key_le (key x) (key z)); constructor; [by apply key_le_total|done].
Qed.

Lemma sorted_Sorted l : Sorted (Py.key_order key) (Py.sorted key l).
Proof.
  induction l as [|x l IH]; [constructor|].
  unfold Py.sorted in *. simpl. by apply insert_sorted_Sorted.
Qed.
End SortFacts.

Section FloatFacts.
Local Open Scope Z_scope.

Lemma float_of_int_exact n : n < 2 ^ 53 -> Py.float_of_int n = Ok n.
Proof.
  intros Hn. unfold Py.float_of_int.
  destruct (Z.leb_spec (Z.log2 n - 52) 0) as [|He]; [done|].
  exfalso.
  destruct (Z.le_gt_cases n 0) as [H0|H0].
  - rewrite Z.log2_nonpos in He by done. lia.
  - assert (Z.log2 n < 53) by (apply Z.log2_lt_pow2; lia). lia.
Qed.

Lemma float_of_int_near n :
  0 < n -> n < 2 ^ 106 ->
  exists v, Py.float_of_int n = Ok v /\ (n - v) * 2 ^ 53 <= n.
Proof.
  intros H0 Hn. unfold Py.float_of_int.
  set (e := Z.log2 n - 52).
  destruct (Z.leb_spec e 0) as [|He]; [exists n; split; [done|nia]|].
  assert (Z.log2 n < 106) as Hlog by (apply Z.log2_lt_pow2; lia).
  destruct (Z.log2_spec n H0) as [Hlo Hhi].
  rewrite Z.shiftr_div_pow2, !Z.shiftl_mul_pow2 by lia.
  rewrite !Z.mul_1_l.
  set (q := n / 2 ^ e).
  assert (0 < 2 ^ e) as Hpe by (apply Z.pow_pos_nonneg; lia).
  assert (2 ^ e = 2 * 2 ^ (e - 1)) as Hhalf.
  { rewrite <- Z.pow_succ_r by lia. f_equal. lia. }
  assert (2 ^ Z.log2 n = 2 ^ (e - 1) * 2 ^ 53) as Hsplit.
  { rewrite <- Z.pow_add_r by lia. f_equal. lia. }
  assert (2 ^ Z.succ (Z.log2 n) = 2 ^ e * 2 ^ 53) as Hsplit'.
  { rewrite <- Z.pow_add_r by lia. f_equal. lia. }
  assert (2 ^ e <= 2 ^ 53) as He53 by (apply Z.pow_le_mono_r; lia).
  pose proof (Z.div_mod n (2 ^ e) ltac:(lia)) as Hdm.
  pose proof (Z.mod_pos_bound n (2 ^ e) Hpe) as Hmod.
  fold q in Hdm.
  assert (q < 2 ^ 53) as Hq.
  { apply Z.div_lt_upper_bound; lia. }
  assert (2 ^ 106 < 2 ^ 1024) as Hbig by (apply Z.pow_lt_mono_r; lia).
  assert (2 ^ 53 * 2 ^ 53 = 2 ^ 106) as H106 by (rewrite <- Z.pow_add_r by lia; done).
  match goal with |- context [if ?b then q + 1 else q] => destruct b eqn:Hb end.
  - assert ((q + 1) * 2 ^ e <= 2 ^ 106) by nia.
    destruct (Z.leb_spec (2 ^ 1024) ((q + 1) * 2 ^ e)); [lia|].
    eexists; split; [done|]. nia.
  - assert (q * 2 ^ e <= 2 ^ 106) by nia.
    destruct (Z.leb_spec (2 ^ 1024) (q * 2 ^ e)); [lia|].
    eexists; split; [done|].
    apply orb_false_iff in Hb as [Hb1 Hb2].
    apply Z.ltb_ge in Hb1.
    nia.
Qed.

End FloatFacts.

(* ===================================================================== *)
(** * The geometry kernel                                                  *)
(* ===================================================================== *)

Section GeometryFacts.
Import EAPlantUMLExporter.
Local Open Scope Z_scope.

Lemma center_inside_iff (inner outer : Rect) :
  center_inside inner outer = true <->
  x outer <= x inner + w inner / 2 <= x outer + w outer /\
  y outer <= y inner + h inner / 2 <= y outer + h outer.
Proof.
  unfold center_inside, center.
  rewrite !andb_true_iff, !Z.leb_le. lia.
Qed.

Lemma overlap_area_nonneg a b : 0 <= overlap_area a b.
Proof.
  unfold overlap_area.
  destruct (_ || _) eqn:E; [lia|].
  apply orb_false_iff in E as [E1 E2].
  apply Z.leb_gt in E1, E2. nia.
Qed.

Lemma area_nonneg r : 0 <= area r.
Proof. unfold area. nia. Qed.

(* half or more of a positive area overlapped: the centre is inside *)
Lemma half_overlap_center (s c : Rect) :
  0 < area s -> area s <= 2 * overlap_area s c -> center_inside s c = true.
Proof.
  intros Ha Ho. apply center_inside_iff.
  unfold area, overlap_area in *.
  destruct (_ || _) eqn:E; [lia|].
  apply orb_false_iff in E as [E1 E2].
  apply Z.leb_gt in E1, E2.
  assert (0 < w s) by nia. assert (0 < h s) by nia.
  rewrite !Z.max_r in Ha, Ho by lia.
  set (x1 := Z.max (x s) (x c)) in *.
  set (x2 := Z.min (x s + w s) (x c + w c)) in *.
  set (y1 := Z.max (y s) (y c)) in *.
  set (y2 := Z.min (y s + h s) (y c + h c)) in *.
  assert (x s <= x1 /\ x c <= x1) by (unfold x1; lia).
  assert (x2 <= x s + w s /\ x2 <= x c + w c) by (unfold x2; lia).
  assert (y s <= y1 /\ y c <= y1) by (unfold y1; lia).
  assert (y2 <= y s + h s /\ y2 <= y c + h c) by (unfold y2; lia).
  assert (w s <= 2 * (x2 - x1)) by nia.
  assert (h s <= 2 * (y2 - y1)) by nia.
  clearbody x1 x2 y1 y2.
  Z.to_euclidean_division_equations. lia.
Qed.

Lemma off_center_overlap (s c : Rect) :
  0 < area s -> center_inside s c = false ->
  2 * overlap_area s c <= area s - w s \/ 2 * overlap_area s c <= area s - h s.
Proof.
  intros Ha Hc.
  assert (0 < w s /\ 0 < h s) as [Hw Hh] by (unfold area in Ha; nia).
  assert (~ (x c <= x s + w s / 2 <= x c + w c /\ y c <= y s + h s / 2 <= y c + h c)) as Hn.
  { rewrite <- center_inside_iff. congruence. }
  unfold area, overlap_area in *.
  rewrite !Z.max_r in * by lia.
  destruct (_ || _) eqn:E; [nia|].
  apply orb_false_iff in E as [E1 E2].
  apply Z.leb_gt in E1, E2.
  set (x1 := Z.max (x s) (x c)) in *.
  set (x2 := Z.min (x s + w s) (x c + w c)) in *.
  set (y1 := Z.max (y s) (y c)) in *.
  set (y2 := Z.min (y s + h s) (y c + h c)) in *.
  assert (x s <= x1 /\ x c <= x1) by (unfold x1; lia).
  assert (x2 <= x s + w s /\ x2 <= x c + w c) by (unfold x2; lia).
  assert (y s <= y1 /\ y c <= y1) by (unfold y1; lia).
  assert (y2 <= y s + h s /\ y2 <= y c + h c) by (unfold y2; lia).
  clearbody x1 x2 y1 y2.
  assert (2 * (x2 - x1) <= w s - 1 \/ 2 * (y2 - y1) <= h s - 1) as [Hx|Hy].
  { Z.to_euclidean_division_equations. lia. }
  - right. nia.
  - left. nia.
Qed.

End GeometryFacts.

(* ===================================================================== *)
(** * The alias allocator                                                  *)
(* ===================================================================== *)

Section AliasFacts.
Import utils.

Lemma str_chars s : Py.str (Py.chars s) = s.
Proof. apply string_of_list_ascii_of_string. Qed.

Lemma chars_str l : Py.chars (Py.str l) = l.
Proof. apply list_ascii_of_string_of_list_ascii. Qed.

Lemma truthy_str l : Py.truthy (Py.str l) = true <-> l <> [].
Proof. destruct l; simpl; split; intros; congruence. Qed.

Lemma slugify_name_truthy name : Py.truthy (slugify_name name) = true.
Proof.
  unfold slugify_name.
  set (s0 := Py.sub_non_word_underscore _).
  set (s := match s0 with EmptyString => _ | _ => _ end).
  assert (Py.truthy s = true) as Hs.
  { subst s. destruct s0 as [|c r]; [done|]. by destruct (Py.isdigit c). }
  destruct (40 <? Py.len s)%nat eqn:E; [|done].
  unfold Py.slice_to. apply truthy_str.
  destruct s as [|c r]; [done|]. simpl. done.
Qed.

Lemma or_str_truthy a b : Py.truthy a = true -> Py.or_str a b = a.
Proof. unfold Py.or_str. by intros ->. Qed.

Lemma or_str_empty s : Py.or_str s "" = s.
Proof. by destruct s. Qed.

Lemma make_all_human_lookup env self draws calls i guid name :
  AliasFactory.mode self = "human" ->
  calls !! i = Some (guid, name) ->
  let base := slugify_name name in
  let n := (default 0 (AliasFactory.counts self !! base)
            + Z.of_nat (length (filter (same_base base) (take i calls))))%Z in
  AliasFactory.make_all env self draws calls !! i =
    Some (if (n =? 0)%Z then base else base +:+ "_" +:+ Py.str_of_int (n + 1)).
Proof.
  intros Hm. revert i self draws Hm.
  induction calls as [|[g nm] calls IH]; intros i self draws Hm Hi; [done|].
  cbn [AliasFactory.make_all]. unfold AliasFactory.make. rewrite Hm. cbn [String.eqb Ascii.eqb Bool.eqb].
  rewrite (or_str_truthy _ _ (slugify_name_truthy nm)).
  destruct i as [|i]; simpl in Hi.
  - injection Hi as -> ->. cbn. by rewrite Z.add_0_r.
  - cbn [lookup list_lookup]. 
    cbn zeta in IH. rewrite (IH i _ draws) by done. clear IH.
    cbn [AliasFactory.counts]. rewrite firstn_cons, filter_cons.
    destruct (decide (same_base (slugify_name name) (g, nm))) as [Heq|Hne].
    + unfold same_base in Heq. simpl in Heq. rewrite Heq, lookup_insert_eq.
      cbn [default length]. rewrite Nat2Z.inj_succ.
      set (c := default 0%Z _). set (k := Z.of_nat _).
      unfold id. by replace (c + 1 + k)%Z with (c + Z.succ k)%Z by lia.
    + unfold same_base in Hne. simpl in Hne. by rewrite lookup_insert_ne.
Qed.

End AliasFacts.

(* ===================================================================== *)
(** * Gathering                                                            *)
(* ===================================================================== *)

Section GatherFacts.
Import EAPlantUMLExporter.

Variable env : Env.
Variable cfg : Config.
Variable repo : EA.Repository.

Lemma init_collected : collected (init cfg).
Proof.
  split; simpl; try apply NoDup_nil_2; intros ? ? H; by apply elem_of_nil in H.
Qed.

Lemma collect_el dObj cx cy st :
  el_guid (collect env cfg repo dObj cx cy st).2 = EA.InstanceGUID dObj.
Proof.
  unfold collect. by destruct (utils.AliasFactory.make _ _ _ _ _) as [[? ?] ?].
Qed.

Lemma collect_elements dObj cx cy st :
  elements (collect env cfg repo dObj cx cy st).1 =
  Py.set (elements st) (EA.InstanceGUID dObj) (collect env cfg repo dObj cx cy st).2.
Proof.
  unfold collect. by destruct (utils.AliasFactory.make _ _ _ _ _) as [[? ?] ?].
Qed.

Lemma collect_packages dObj cx cy st :
  let el := (collect env cfg repo dObj cx cy st).2 in
  packages (collect env cfg repo dObj cx cy st).1 =
  if String.eqb (el_type el) "Package"
  then Py.set (packages st) (EA.InstanceGUID dObj) (pkg_of el)
  else packages st.
Proof.
  unfold collect. by destruct (utils.AliasFactory.make _ _ _ _ _) as [[? ?] ?].
Qed.

Lemma collect_collected dObj cx cy st :
  collected st -> collected (collect env cfg repo dObj cx cy st).1.
Proof.
  intros [He Hp Heg Hpg Hpo].
  pose proof (collect_el dObj cx cy st) as Hg.
  pose proof (collect_elements dObj cx cy st) as Hels.
  pose proof (collect_packages dObj cx cy st) as Hpk. cbn zeta in Hpk.
  destruct (collect env cfg repo dObj cx cy st) as [st' el]. simpl in *.
  split.
  - rewrite Hels. by apply NoDup_keys_set.
  - rewrite Hpk. destruct (String.eqb _ _); [by apply NoDup_keys_set|done].
  - intros k e. rewrite Hels, elem_set by done.
    intros [[-> ->]|[_ H]]; [done|eauto].
  - intros k p. rewrite Hpk. destruct (String.eqb _ _); [|eauto].
    rewrite elem_set by done. intros [[-> ->]|[_ H]]; [done|eauto].
  - intros k e. rewrite Hels, elem_set by done.
    rewrite Hpk. intros [[-> ->]|[Hne H]] Ht.
    + apply String.eqb_eq in Ht as Ht'. rewrite Ht'.
      apply elem_set; [done|]. by left.
    + destruct (String.eqb _ _); [|eauto].
      apply elem_set; [done|]. right. eauto.
Qed.

Lemma first_pass_collected gather_sub objs cx cy st st' :
  (forall d x y s s', collected s -> gather_sub d x y s = Ok s' -> collected s') ->
  collected st ->
  first_pass env cfg repo gather_sub objs cx cy st = Ok st' ->
  collected st'.
Proof.
  intros Hsub. revert st.
  induction objs as [|dObj objs IH]; intros st Hst; simpl.
  - by intros [= <-].
  - pose proof (collect_collected dObj cx cy st Hst) as Hc.
    destruct (collect env cfg repo dObj cx cy st) as [st1 el]. simpl in Hc.
    destruct (String.eqb (el_type el) "UMLDiagram").
    + destruct (gather_sub _ _ _ st1) as [st2|e] eqn:E; simpl; [|done].
      apply IH. eauto.
    + simpl. by apply IH.
Qed.

Lemma second_pass_frame pkgs st st' :
  second_pass pkgs st = Ok st' ->
  elements st' = elements st /\ packages st' = packages st /\
  connectors st' = connectors st /\ elemid_to_instuid st' = elemid_to_instuid st.
Proof.
  revert st. induction pkgs as [|[k p] pkgs IH]; intros st; simpl.
  - by intros [= <-].
  - destruct (members_of _ _ _) as [ms|e]; simpl; [|done].
    intros H. apply IH in H. simpl in H. done.
Qed.

Lemma second_pass_other pkgs st st' k :
  second_pass pkgs st = Ok st' -> k ∉ Py.keys pkgs ->
  members_in_pkg st' !! k = members_in_pkg st !! k.
Proof.
  revert st. induction pkgs as [|[k0 p] pkgs IH]; intros st; simpl.
  - by intros [= <-].
  - destruct (members_of _ _ _) as [ms|e]; simpl; [|done].
    intros H Hk. unfold Py.keys in Hk. simpl in Hk. apply not_elem_of_cons in Hk as [Hne Hk].
    rewrite (IH _ H Hk). simpl. by rewrite lookup_insert_ne.
Qed.

Lemma second_pass_members pkgs st st' :
  NoDup (Py.keys pkgs) ->
  second_pass pkgs st = Ok st' ->
  forall k p, (k, p) ∈ pkgs ->
    exists ms, members_of k (pkg_rect p) (elements st) = Ok ms
               /\ members_in_pkg st' !! k = Some ms.
Proof.
  revert st. induction pkgs as [|[k0 p0] pkgs IH]; intros st Hnd; simpl.
  - intros _ k p H. by apply elem_of_nil in H.
  - unfold Py.keys in Hnd. simpl in Hnd. apply NoDup_cons in Hnd as [Hk0 Hnd].
    destruct (members_of k0 _ _) as [ms|e] eqn:E; simpl; [|done].
    intros H k p Hin. apply elem_of_cons in Hin as [[= -> ->]|Hin].
    + exists ms. split; [done|].
      rewrite (second_pass_other _ _ _ _ H Hk0). simpl. apply lookup_insert_eq.
    + apply (IH _ Hnd H k p Hin).
Qed.

Lemma add_link_frame dLnk st :
  elements (add_link cfg repo dLnk st) = elements st /\
  packages (add_link cfg repo dLnk st) = packages st /\
  members_in_pkg (add_link cfg repo dLnk st) = members_in_pkg st /\
  elemid_to_instuid (add_link cfg repo dLnk st) = elemid_to_instuid st.
Proof.
  unfold add_link. destruct (EA.IsHidden dLnk); [done|].
  by destruct (_ || _).
Qed.

Lemma add_links_frame links st :
  elements (add_links cfg repo links st) = elements st /\
  packages (add_links cfg repo links st) = packages st /\
  members_in_pkg (add_links cfg repo links st) = members_in_pkg st /\
  elemid_to_instuid (add_links cfg repo links st) = elemid_to_instuid st.
Proof.
  unfold add_links. revert st.
  induction links as [|l links IH]; intros st; [done|]. simpl.
  destruct (IH (add_link cfg repo l st)) as (-> & -> & -> & ->).
  apply add_link_frame.
Qed.

Lemma collected_ext st st' :
  elements st' = elements st -> packages st' = packages st ->
  collected st -> collected st'.
Proof. intros He Hp [? ? ? ? ?]. split; rewrite ?He, ?Hp; done. Qed.

(** The shape of one call of [gather]: the shapes collected, the
    memberships computed from them, the links added. *)
Lemma gather_inv depth diagram cx cy st0 st :
  gather env cfg repo depth diagram cx cy st0 = Ok st ->
  exists depth' st1 st2,
    depth = S depth' /\
    first_pass env cfg repo (gather env cfg repo depth') (EA.DiagramObjects diagram)
      cx cy st0 = Ok st1 /\
    second_pass (packages st1) st1 = Ok st2 /\
    st = add_links cfg repo (EA.DiagramLinks diagram) st2.
Proof.
  destruct depth as [|depth']; simpl; [done|].
  destruct (first_pass _ _ _ _ _ _ _ _) as [st1|] eqn:E1; simpl; [|done].
  destruct (second_pass _ _) as [st2|] eqn:E2; simpl; [|done].
  intros [= <-]. by exists depth', st1, st2.
Qed.

Lemma gather_collected depth diagram cx cy st0 st :
  collected st0 ->
  gather env cfg repo depth diagram cx cy st0 = Ok st ->
  collected st.
Proof.
  revert diagram cx cy st0 st.
  induction depth as [|depth IH]; intros diagram cx cy st0 st H0 Hg; [done|].
  apply gather_inv in Hg as (d' & st1 & st2 & [= <-] & H1 & H2 & ->).
  apply first_pass_collected in H1; [|eauto|done].
  apply second_pass_frame in H2 as (He & Hp & _).
  destruct (add_links_frame (EA.DiagramLinks diagram) st2) as (He' & Hp' & _).
  eapply collected_ext; [| |exact H1]; congruence.
Qed.

Lemma gather_members depth diagram cx cy st0 st :
  collected st0 ->
  gather env cfg repo depth diagram cx cy st0 = Ok st ->
  forall k p, (k, p) ∈ packages st ->
    exists ms, members_of k (pkg_rect p) (elements st) = Ok ms
               /\ members_in_pkg st !! k = Some ms.
Proof.
  intros H0 Hg.
  apply gather_inv in Hg as (d' & st1 & st2 & -> & H1 & H2 & ->).
  apply first_pass_collected in H1; [|intros; eapply gather_collected; eauto|done].
  destruct (add_links_frame (EA.DiagramLinks diagram) st2) as (-> & -> & -> & _).
  pose proof (second_pass_frame _ _ _ H2) as (-> & -> & _).
  apply second_pass_members; [apply H1|done].
Qed.

End GatherFacts.

(* ===================================================================== *)
(** * Grouping and the package blocks                                      *)
(* ===================================================================== *)

Section GroupingFacts.
Import EAPlantUMLExporter.

Lemma members_of_spec k preg els ms :
  members_of k preg els = Ok ms ->
  forall g, g ∈ ms <->
    exists el, (g, el) ∈ els /\ g <> k /\ inside (el_rect el) preg = Ok true.
Proof.
  revert ms. induction els as [|[g0 el0] els IH]; intros ms; simpl.
  - intros [= <-] g. split; [intros H; by apply elem_of_nil in H|].
    intros (el & H & _). by apply elem_of_nil in H.
  - destruct (String.eqb_spec g0 k) as [->|Hne].
    + intros H g. rewrite (IH _ H g). split.
      * intros (el & Hin & Hg & Hi). exists el. split; [by right|done].
      * intros (el & Hin & Hg & Hi). exists el. split; [|done].
        apply elem_of_cons in Hin as [[= -> ->]|Hin]; done.
    + destruct (inside (el_rect el0) preg) as [b|] eqn:Ei; simpl; [|done].
      destruct (members_of k preg els) as [rest|]; simpl; [|done].
      intros [= <-] g. specialize (IH _ eq_refl g).
      destruct b.
      * rewrite elem_of_cons, IH. split.
        -- intros [->|(el & Hin & Hg & Hi)]; [exists el0; split; [left|done]|].
           exists el. split; [by right|done].
        -- intros (el & Hin & Hg & Hi).
           apply elem_of_cons in Hin as [[= -> ->]|Hin]; [by left|right; eauto].
      * rewrite IH. split.
        -- intros (el & Hin & Hg & Hi). exists el. split; [by right|done].
        -- intros (el & Hin & Hg & Hi).
           apply elem_of_cons in Hin as [[= -> ->]|Hin]; [congruence|eauto].
Qed.

Lemma members_of_keys k preg els ms :
  members_of k preg els = Ok ms -> forall g, g ∈ ms -> g ∈ Py.keys els.
Proof.
  intros H g Hg. apply (members_of_spec _ _ _ _ H) in Hg as (el & Hin & _).
  by apply elem_keys in Hin.
Qed.

Lemma block_members_spec st guids ms :
  block_members st guids = Ok ms ->
  forall g el, (g, el) ∈ ms <->
    g ∈ guids /\ Py.get (elements st) g = Some el /\ el_type el <> "Package".
Proof.
  revert ms. induction guids as [|g0 guids IH]; intros ms; simpl.
  - intros [= <-] g el. split; [intros H; by apply elem_of_nil in H|].
    intros (H & _). by apply elem_of_nil in H.
  - destruct (Py.get (elements st) g0) as [el0|] eqn:E0; [|done].
    destruct (block_members st guids) as [rest|]; simpl; [|done].
    intros [= <-] g el. specialize (IH _ eq_refl g el).
    destruct (String.eqb_spec (el_type el0) "Package") as [Ht|Ht].
    + rewrite IH, elem_of_cons. split; [intros (Hg & He & Hn); by split_and!; [right|..]|].
      intros ([->|Hg] & He & Hn); [congruence|done].
    + rewrite !elem_of_cons, IH. split.
      * intros [[= -> ->]|(Hg & He & Hn)]; [by split_and!; [left|..]|].
        split_and!; [by right|done..].
      * intros ([->|Hg] & He & Hn); [left; congruence|right; done].
Qed.

Lemma block_members_ok st guids :
  (forall g, g ∈ guids -> g ∈ Py.keys (elements st)) ->
  exists ms, block_members st guids = Ok ms.
Proof.
  induction guids as [|g0 guids IH]; intros Hk; simpl; [eauto|].
  destruct (Py.get (elements st) g0) as [el0|] eqn:E0.
  - destruct IH as [rest ->]; [intros; apply Hk; by right|]. simpl. eauto.
  - apply get_None_keys in E0. exfalso. apply E0, Hk. left.
Qed.

Lemma blocks_of_spec st pkgs bs :
  blocks_of st pkgs = Ok bs ->
  map fst bs = pkgs /\
  forall pkg ms, (pkg, ms) ∈ bs ->
    block_members st (default [] (members_in_pkg st !! pkg_guid pkg)) = Ok ms.
Proof.
  revert bs. induction pkgs as [|pkg0 pkgs IH]; intros bs; simpl.
  - intros [= <-]. split; [done|]. intros ? ? H. by apply elem_of_nil in H.
  - destruct (block_members st _) as [ms0|] eqn:E0; simpl; [|done].
    destruct (blocks_of st pkgs) as [rest|]; simpl; [|done].
    intros [= <-]. destruct (IH _ eq_refl) as [Hm Hb]. split.
    + simpl. by rewrite Hm.
    + intros pkg ms Hin. apply elem_of_cons in Hin as [[= -> ->]|Hin]; eauto.
Qed.

Lemma blocks_of_ok st pkgs :
  (forall pkg, pkg ∈ pkgs ->
     forall g, g ∈ default [] (members_in_pkg st !! pkg_guid pkg) ->
       g ∈ Py.keys (elements st)) ->
  exists bs, blocks_of st pkgs = Ok bs.
Proof.
  induction pkgs as [|pkg0 pkgs IH]; intros Hk; simpl; [eauto|].
  destruct (block_members_ok st (default [] (members_in_pkg st !! pkg_guid pkg0)))
    as [ms0 ->]; [apply Hk; left|]. simpl.
  destruct IH as [rest ->]; [intros; eapply Hk; [by right|done]|]. simpl. eauto.
Qed.

Lemma sorted_pkgs_perm st : Permutation (sorted_pkgs st) (Py.values (packages st)).
Proof. apply sorted_perm. Qed.

Lemma sorted_pkgs_sorted st : Sorted pkg_order (sorted_pkgs st).
Proof. apply sorted_Sorted. Qed.

Lemma sorted_pkgs_elem st pkg :
  pkg ∈ sorted_pkgs st <-> exists k, (k, pkg) ∈ packages st.
Proof.
  rewrite (sorted_pkgs_perm st). unfold Py.values.
  rewrite list_elem_of_fmap. split.
  - intros ([k p] & -> & H). by exists k.
  - intros [k H]. by exists (k, pkg).
Qed.

Lemma emitted_spec bs g :
  existsb (String.eqb g) (emitted bs) = true <->
  exists pkg ms el, (pkg, ms) ∈ bs /\ (g, el) ∈ ms.
Proof.
  rewrite existsb_exists. unfold emitted, Py.keys. split.
  - intros (g' & Hin & Heq). apply String.eqb_eq in Heq as <-.
    apply in_flat_map in Hin as ([pkg ms] & Hb & Hin). simpl in Hin.
    apply in_map_iff in Hin as ([g' el] & Hg & Hel). simpl in Hg. subst g'.
    exists pkg, ms, el. by rewrite !list_elem_of_In.
  - intros (pkg & ms & el & Hb & Hel). exists g. split; [|apply String.eqb_refl].
    apply in_flat_map. exists (pkg, ms). split; [by apply list_elem_of_In|].
    simpl. apply in_map_iff. exists (g, el). split; [done|by apply list_elem_of_In].
Qed.

Lemma leftovers_spec st bs g el :
  (g, el) ∈ leftovers st bs <->
  (g, el) ∈ elements st /\ el_type el <> "Package"
  /\ existsb (String.eqb g) (emitted bs) = false.
Proof.
  unfold leftovers. rewrite list_elem_of_filter. simpl.
  rewrite negb_true_iff, orb_false_iff, String.eqb_neq. tauto.
Qed.

End GroupingFacts.

Section GroupingTheorems.
Import EAPlantUMLExporter.

Variable env : Env.
Variable cfg : Config.
Variable repo : EA.Repository.

(** After a successful [gather] the package loop raises no [KeyError]. *)
Lemma gather_blocks_ok depth diagram cx cy st :
  gather env cfg repo depth diagram cx cy (init cfg) = Ok st ->
  exists bs, blocks st = Ok bs.
Proof.
  intros Hg. apply blocks_of_ok. intros pkg Hpkg g Hin.
  apply sorted_pkgs_elem in Hpkg as [k Hk].
  pose proof (gather_collected env cfg repo _ _ _ _ _ _ (init_collected cfg) Hg) as Hc.
  destruct (gather_members env cfg repo _ _ _ _ _ _ (init_collected cfg) Hg k pkg Hk)
    as (ms & Hms & Hlook).
  rewrite (packages_guid _ Hc _ _ Hk), Hlook in Hin. simpl in Hin.
  by eapply members_of_keys.
Qed.

Lemma gather_block_elem depth diagram cx cy st bs pkg ms g el :
  gather env cfg repo depth diagram cx cy (init cfg) = Ok st ->
  blocks st = Ok bs ->
  (pkg, ms) ∈ bs ->
  (g, el) ∈ ms <->
    (g, el) ∈ elements st /\ g <> pkg_guid pkg /\
    el_type el <> "Package" /\ inside (el_rect el) (pkg_rect pkg) = Ok true.
Proof.
  intros Hg Hb Hin.
  pose proof (gather_collected env cfg repo _ _ _ _ _ _ (init_collected cfg) Hg) as Hc.
  destruct (blocks_of_spec _ _ _ Hb) as [Hfst Hbm].
  assert (pkg ∈ sorted_pkgs st) as Hpkg.
  { rewrite <- Hfst. apply list_elem_of_fmap. by exists (pkg, ms). }
  apply sorted_pkgs_elem in Hpkg as [k Hk].
  destruct (gather_members env cfg repo _ _ _ _ _ _ (init_collected cfg) Hg k pkg Hk)
    as (gs & Hgs & Hlook).
  pose proof (packages_guid _ Hc _ _ Hk) as Hkg.
  specialize (Hbm _ _ Hin). rewrite Hkg, Hlook in Hbm. simpl in Hbm.
  rewrite (block_members_spec _ _ _ Hbm g el), Hkg. split.
  - intros (Hg' & Hget & Ht).
    apply get_Some_elem in Hget as Hel.
    apply (members_of_spec _ _ _ _ Hgs) in Hg' as (el' & Hel' & Hne & Hi).
    assert (el' = el) as ->; [|done].
    apply (elem_get _ _ _ (elements_nodup _ Hc)) in Hel'. congruence.
  - intros (Hel & Hne & Ht & Hi). split_and!; [|by apply elem_get; [apply Hc|]|done].
    apply (members_of_spec _ _ _ _ Hgs). by exists el.
Qed.

Lemma gather_leftover_elem depth diagram cx cy st bs g el :
  gather env cfg repo depth diagram cx cy (init cfg) = Ok st ->
  blocks st = Ok bs ->
  (g, el) ∈ leftovers st bs <->
    (g, el) ∈ elements st /\ el_type el <> "Package" /\
    forall pkg ms, (pkg, ms) ∈ bs -> (g, el) ∉ ms.
Proof.
  intros Hg Hb.
  pose proof (gather_collected env cfg repo _ _ _ _ _ _ (init_collected cfg) Hg) as Hc.
  rewrite leftovers_spec. split.
  - intros (Hel & Ht & Hem). split_and!; [done..|].
    intros pkg ms Hin Hms.
    assert (existsb (String.eqb g) (emitted bs) = true); [|congruence].
    apply emitted_spec. by exists pkg, ms, el.
  - intros (Hel & Ht & Hno). split_and!; [done..|].
    destruct (existsb _ _) eqn:E; [|done]. exfalso.
    apply emitted_spec in E as (pkg & ms & el' & Hin & Hms).
    apply (Hno pkg ms Hin).
    apply (gather_block_elem _ _ _ _ _ _ _ _ _ el' Hg Hb Hin) in Hms as Hms'.
    destruct Hms' as (Hel' & _).
    assert (el' = el) as ->; [|done].
    apply (elem_get _ _ _ (elements_nodup _ Hc)) in Hel, Hel'. congruence.
Qed.

End GroupingTheorems.

(* ===================================================================== *)
(** * Gathering a flat diagram succeeds                                    *)
(* ===================================================================== *)

Section TotalityFacts.
Import EAPlantUMLExporter.
Local Open Scope Z_scope.

Lemma float_of_int_ok n :
  0 <= n < 2 ^ 106 -> exists v, Py.float_of_int n = Ok v.
Proof.
  intros [H0 Hn]. destruct (Z.eq_dec n 0) as [->|Hne]; [by exists 0|].
  destruct (float_of_int_near n) as (v & Hv & _); [lia..|]. by exists v.
Qed.

Lemma inside_ok erect preg :
  in_double_range erect -> exists b, inside erect preg = Ok b.
Proof.
  intros [Hw Hh]. unfold inside, Py.ge_half_of.
  destruct (center_inside erect preg); [by exists true|].
  destruct (float_of_int_ok (area erect)) as [v ->]; [|simpl; eauto].
  split; [apply area_nonneg|].
  unfold area. change (2 ^ 106) with (2 ^ 53 * 2 ^ 53). nia.
Qed.

Lemma members_of_ok k preg els :
  (forall g el, (g, el) ∈ els -> in_double_range (el_rect el)) ->
  exists ms, members_of k preg els = Ok ms.
Proof.
  induction els as [|[g el] els IH]; intros Hr; simpl; [eauto|].
  destruct IH as [rest Hrest]; [intros; eapply Hr; by right|].
  destruct (String.eqb g k); [eauto|].
  destruct (inside_ok (el_rect el) preg) as [b ->]; [eapply Hr; left|].
  rewrite Hrest. simpl. eauto.
Qed.

Lemma second_pass_ok pkgs st :
  (forall g el, (g, el) ∈ elements st -> in_double_range (el_rect el)) ->
  exists st', second_pass pkgs st = Ok st'.
Proof.
  revert st. induction pkgs as [|[k p] pkgs IH]; intros st Hr; simpl; [eauto|].
  destruct (members_of_ok k (pkg_rect p) (elements st) Hr) as [ms ->]. simpl.
  by apply IH.
Qed.

Lemma elem_set_inv {V} (d : list (string * V)) k v k' v' :
  (k', v') ∈ Py.set d k v -> v' = v \/ (k', v') ∈ d.
Proof.
  induction d as [|[k0 v0] d IH]; simpl.
  - intros H. apply list_elem_of_singleton in H as [= -> ->]. by left.
  - destruct (String.eqb k0 k).
    + intros H. apply elem_of_cons in H as [[= -> ->]|H]; [by left|right; by right].
    + intros H. apply elem_of_cons in H as [[= -> ->]|H]; [right; left|].
      destruct (IH H); [by left|right; by right].
Qed.

Variables (env : Env) (cfg : Config) (repo : EA.Repository).

Lemma first_pass_flat_ok gather_sub objs cx cy st :
  Forall (fun o => EA.Type_ (EA.GetElementByID repo (EA.do_ElementID o)) <> "UMLDiagram")
    objs ->
  Forall (fun o => in_double_range (rect o cx cy)) objs ->
  (forall g el, (g, el) ∈ elements st -> in_double_range (el_rect el)) ->
  exists st',
    first_pass env cfg repo gather_sub objs cx cy st = Ok st' /\
    forall g el, (g, el) ∈ elements st' -> in_double_range (el_rect el).
Proof.
  revert st. induction objs as [|o objs IH]; intros st Hf Hb Hr; simpl; [eauto|].
  inversion Hf as [|? ? Hfo Hf']; subst. inversion Hb as [|? ? Hbo Hb']; subst.
  pose proof (collect_elements env cfg repo o cx cy st) as Hels.
  assert (el_type (collect env cfg repo o cx cy st).2
          = EA.Type_ (EA.GetElementByID repo (EA.do_ElementID o))) as Ht.
  { unfold collect. destruct (utils.AliasFactory.make _ _ _ _ _) as [[? ?] ?].
    simpl. apply or_str_empty. }
  assert (el_rect (collect env cfg repo o cx cy st).2 = rect o cx cy) as Hrect.
  { unfold collect. by destruct (utils.AliasFactory.make _ _ _ _ _) as [[? ?] ?]. }
  destruct (collect env cfg repo o cx cy st) as [st1 el]. simpl in *.
  rewrite Ht. apply String.eqb_neq in Hfo. rewrite Hfo. simpl.
  apply IH; [done..|].
  intros g e. rewrite Hels. intros Hin.
  apply elem_set_inv in Hin as [->|Hin]; [by rewrite Hrect|eauto].
Qed.

(** The run of [gather] on a diagram without nested diagrams, with shapes
    whose sides are below 2^53, returns a state. *)
Lemma gather_flat_ok depth d cx cy :
  flat repo d ->
  Forall (fun o => in_double_range (rect o cx cy)) (EA.DiagramObjects d) ->
  exists st, gather env cfg repo (S depth) d cx cy (init cfg) = Ok st.
Proof.
  intros Hf Hb. simpl.
  destruct (first_pass_flat_ok (gather env cfg repo depth) (EA.DiagramObjects d)
              cx cy (init cfg) Hf Hb) as (st1 & -> & Hr).
  { intros g el H. by apply elem_of_nil in H. }
  simpl. destruct (second_pass_ok (packages st1) st1 Hr) as [st2 ->]. simpl. eauto.
Qed.

End TotalityFacts.

(* ===================================================================== *)
(** * The geometry kernel: centroid containment and the overlap threshold  *)
(* ===================================================================== *)

Section GeometryTheorems.
Import EAPlantUMLExporter.
Local Open Scope Z_scope.

(** C9. For rectangles of non-negative width and height,
    [center_inside inner outer] holds exactly when the centroid of [inner],
    taken as [(x + w/2, y + h/2)] with the division truncated, lies within
    the closed bounds of [outer]. *)
Theorem center_inside_closed_bounds (inner outer : Rect) :
  0 <= w inner -> 0 <= h inner -> 0 <= w outer -> 0 <= h outer ->
  center_inside inner outer = true <->
  x outer <= x inner + Z.quot (w inner) 2 <= x outer + w outer /\
  y outer <= y inner + Z.quot (h inner) 2 <= y outer + h outer.
Proof.
  intros Hw Hh _ _.
  rewrite !Z.quot_div_nonneg by lia.
  apply center_inside_iff.
Qed.

Lemma center_inside_closed_bounds_witness :
  center_inside {| x := 0; y := 0; w := 3; h := 5 |}
                {| x := 1; y := 2; w := 4; h := 4 |} = true <->
  1 <= 0 + Z.quot 3 2 <= 1 + 4 /\ 2 <= 0 + Z.quot 5 2 <= 2 + 4.
Proof.
  apply (center_inside_closed_bounds
           {| x := 0; y := 0; w := 3; h := 5 |} {| x := 1; y := 2; w := 4; h := 4 |});
    simpl; lia.
Defined.

(** The membership test at the threshold, for any rectangle: a shape
    overlapped in exactly half of its own area is a member; a shape whose
    sides are below 2^53, overlapped in less than half of its area and
    with its centroid outside the closed bounds of the container, is not;
    a shape with its centroid inside is. *)
Lemma inside_threshold (s c : Rect) :
  (2 * overlap_area s c = area s -> inside s c = Ok true) /\
  (in_double_range s ->
   2 * overlap_area s c < area s -> center_inside s c = false ->
   inside s c = Ok false) /\
  (center_inside s c = true -> inside s c = Ok true).
Proof.
  unfold inside. split_and!.
  - intros Hhalf. destruct (center_inside s c) eqn:Hc; [done|].
    destruct (Z.eq_dec (area s) 0) as [H0|H0].
    + rewrite H0. replace (overlap_area s c) with 0 by lia. done.
    + pose proof (area_nonneg s).
      rewrite half_overlap_center in Hc by lia. done.
  - intros [Hw Hh] Hless Hc. rewrite Hc.
    pose proof (overlap_area_nonneg s c) as Hov.
    assert (0 < area s) as Ha by lia.
    assert (0 < w s /\ 0 < h s) as [Hw0 Hh0] by (unfold area in Ha; nia).
    assert (area s = w s * h s) as Harea by (unfold area; lia).
    assert (area s < 2 ^ 106) as Hbig.
    { change (2 ^ 106) with (2 ^ 53 * 2 ^ 53). nia. }
    destruct (float_of_int_near (area s) Ha Hbig) as (v & Hv & Hnear).
    unfold Py.ge_half_of. rewrite Hv. simpl. f_equal.
    apply Z.leb_gt.
    destruct (off_center_overlap s c Ha Hc) as [Ho|Ho]; nia.
  - by intros ->.
Qed.

(** The rectangle [rect] makes of 32-bit coordinates has sides below 2^32,
    whatever the corner. *)
Lemma long_in_double_range (o : EA.DiagramObject) (cx cy : Z) :
  long_coordinates o -> in_double_range (rect o cx cy).
Proof.
  unfold long_coordinates, long, in_double_range, rect. simpl.
  intros (? & ? & ? & ?).
  assert (2 ^ 31 = 2147483648) as E31 by reflexivity.
  assert (2 ^ 53 = 9007199254740992) as E53 by reflexivity.
  lia.
Qed.

(** C3. For a shape as [rect] makes it of the coordinates Enterprise
    Architect supplies, at any corner, and any container: a shape
    overlapped in exactly half of its own area is a member (the boundary
    is inclusive); a shape overlapped in less than half of its area is no
    member unless its centroid lies within the closed bounds of the
    container, and with its centroid within them it is one. *)
Theorem overlap_threshold (o : EA.DiagramObject) (cx cy : Z) (c : Rect) :
  long_coordinates o ->
  (2 * overlap_area (rect o cx cy) c = area (rect o cx cy) ->
   inside (rect o cx cy) c = Ok true) /\
  (2 * overlap_area (rect o cx cy) c < area (rect o cx cy) ->
   center_inside (rect o cx cy) c = false ->
   inside (rect o cx cy) c = Ok false) /\
  (2 * overlap_area (rect o cx cy) c < area (rect o cx cy) ->
   center_inside (rect o cx cy) c = true ->
   inside (rect o cx cy) c = Ok true).
Proof.
  intros Hlong.
  destruct (inside_threshold (rect o cx cy) c) as (H1 & H2 & H3).
  split_and!; [done| |by intros _].
  apply H2. by apply long_in_double_range.
Qed.

Lemma overlap_threshold_witness :
  inside (rect (Examples.placed 3 "{C}" 0 0 10 10) 0 0)
         {| x := 5; y := 0; w := 20; h := 10 |} = Ok true /\
  inside (rect (Examples.placed 3 "{C}" 0 0 10 10) 0 0)
         {| x := 6; y := 0; w := 20; h := 10 |} = Ok false /\
  inside (rect (Examples.placed 3 "{C}" 0 0 10 10) 0 0)
         {| x := 4; y := 4; w := 2; h := 2 |} = Ok true.
Proof.
  assert (long_coordinates (Examples.placed 3 "{C}" 0 0 10 10)) as Hlong.
  { unfold long_coordinates, long. simpl. lia. }
  split_and!.
  - apply (proj1 (overlap_threshold (Examples.placed 3 "{C}" 0 0 10 10) 0 0
                    {| x := 5; y := 0; w := 20; h := 10 |} Hlong)).
    reflexivity.
  - apply (proj1 (proj2 (overlap_threshold (Examples.placed 3 "{C}" 0 0 10 10) 0 0
                           {| x := 6; y := 0; w := 20; h := 10 |} Hlong)));
      reflexivity.
  - apply (proj2 (proj2 (overlap_threshold (Examples.placed 3 "{C}" 0 0 10 10) 0 0
                           {| x := 4; y := 4; w := 2; h := 2 |} Hlong)));
      reflexivity.
Defined.

End GeometryTheorems.

(* ===================================================================== *)
(** * The alias allocator                                                  *)
(* ===================================================================== *)

Section AliasTheorems.
Import utils.

(** C6. In human mode the first shape named Foo gets [Foo] and the second
    [Foo_2]; in general the call number [k] for a base slug gets the slug
    itself when [k] is 1 and the slug followed by [_k] otherwise. *)
Theorem make_human_suffix (env : Env) (calls : list (string * string)) (i : nat)
    (guid name : string) :
  calls !! i = Some (guid, name) ->
  AliasFactory.make_all env (AliasFactory.init "human") 0
    [("g1", "Foo"); ("g2", "Foo")] = ["Foo"; "Foo_2"] /\
  let base := slugify_name name in
  let k := S (length (filter (same_base base) (take i calls))) in
  AliasFactory.make_all env (AliasFactory.init "human") 0 calls !! i =
    Some (if decide (k = 1%nat) then base
          else base +:+ "_" +:+ Py.str_of_int (Z.of_nat k)).
Proof.
  intros Hi. split; [by vm_compute|]. cbn zeta.
  rewrite (make_all_human_lookup env (AliasFactory.init "human") 0 calls i guid name eq_refl Hi).
  cbn [AliasFactory.init AliasFactory.counts]. rewrite lookup_empty. cbn [default].
  rewrite Z.add_0_l.
  set (n := length _).
  destruct n as [|n]; [done|].
  rewrite decide_False by lia.
  destruct (Z.eqb_spec (Z.of_nat (S n)) 0); [lia|].
  by replace (Z.of_nat (S n) + 1)%Z with (Z.of_nat (S (S n))) by lia.
Qed.

Lemma make_human_suffix_witness :
  AliasFactory.make_all Examples.env_a (AliasFactory.init "human") 0
    [("g1", "Foo"); ("g2", "Foo")] = ["Foo"; "Foo_2"] /\
  AliasFactory.make_all Examples.env_a (AliasFactory.init "human") 0
    [("g1", "Foo"); ("g2", "Bar"); ("g3", "Foo"); ("g4", "Foo")] !! 3%nat =
    Some "Foo_3".
Proof.
  apply (make_human_suffix Examples.env_a
           [("g1", "Foo"); ("g2", "Bar"); ("g3", "Foo"); ("g4", "Foo")] 3 "g4" "Foo").
  reflexivity.
Defined.

(** C5 fails on the code: a display name that is itself a suffixed slug
    collides with the alias made for a repeated name. *)
Theorem human_alias_collision (env : Env) :
  AliasFactory.make_all env (AliasFactory.init "human") 0
    [("g1", "Foo"); ("g2", "Foo"); ("g3", "Foo_2")] = ["Foo"; "Foo_2"; "Foo_2"].
Proof. by vm_compute. Qed.

End AliasTheorems.

(* ===================================================================== *)
(** * Grouping: what the package blocks hold                               *)
(* ===================================================================== *)

Section BlockTheorems.
Import EAPlantUMLExporter.

(** C1, as the code has it. After [gather] the package blocks come in the
    order of their top edge, then their left edge; a block declares exactly
    the shapes, other than packages and the container itself, that are
    geometric candidates of its container, so a shape that is a candidate
    of several containers is declared in each of their blocks; the
    leftovers are the shapes, other than packages, that no block declares;
    and the text is made of these blocks and leftovers. *)
Theorem blocks_hold_every_candidate (env : Env) (cfg : Config) (repo : EA.Repository)
    (depth : nat) (diagram : EA.Diagram) (cx cy : Z) (st : State) :
  gather env cfg repo depth diagram cx cy (init cfg) = Ok st ->
  exists bs,
    blocks st = Ok bs /\
    render_elements_grouped cfg st =
      Ok (Py.join Py.newline
            (flat_map (block_lines cfg) bs ++ flat_map (emit cfg) (Py.values (leftovers st bs)) ++ [""])) /\
    map fst bs = sorted_pkgs st /\
    Sorted pkg_order (sorted_pkgs st) /\
    Permutation (sorted_pkgs st) (Py.values (packages st)) /\
    (forall pkg ms guid el, (pkg, ms) ∈ bs ->
       (guid, el) ∈ ms <->
         (guid, el) ∈ elements st /\ guid <> pkg_guid pkg /\
         el_type el <> "Package" /\ inside (el_rect el) (pkg_rect pkg) = Ok true) /\
    (forall guid el,
       (guid, el) ∈ leftovers st bs <->
         (guid, el) ∈ elements st /\ el_type el <> "Package" /\
         forall pkg ms, (pkg, ms) ∈ bs -> (guid, el) ∉ ms).
Proof.
  intros Hg.
  destruct (gather_blocks_ok env cfg repo _ _ _ _ _ Hg) as [bs Hb].
  exists bs. split_and!.
  - done.
  - unfold render_elements_grouped. by rewrite Hb.
  - by apply blocks_of_spec in Hb as [? _].
  - apply sorted_pkgs_sorted.
  - apply sorted_pkgs_perm.
  - intros pkg ms guid el Hin. by eapply gather_block_elem.
  - intros guid el. by eapply gather_leftover_elem.
Qed.

Lemma blocks_hold_every_candidate_witness :
  exists bs,
    blocks Examples.gathered = Ok bs /\
    render_elements_grouped Examples.cfg_human Examples.gathered =
      Ok (Py.join Py.newline
            (flat_map (block_lines Examples.cfg_human) bs ++
             flat_map (emit Examples.cfg_human)
               (Py.values (leftovers Examples.gathered bs)) ++ [""])) /\
    map fst bs = sorted_pkgs Examples.gathered /\
    Sorted pkg_order (sorted_pkgs Examples.gathered) /\
    Permutation (sorted_pkgs Examples.gathered) (Py.values (packages Examples.gathered)) /\
    (forall pkg ms guid el, (pkg, ms) ∈ bs ->
       (guid, el) ∈ ms <->
         (guid, el) ∈ elements Examples.gathered /\ guid <> pkg_guid pkg /\
         el_type el <> "Package" /\ inside (el_rect el) (pkg_rect pkg) = Ok true) /\
    (forall guid el,
       (guid, el) ∈ leftovers Examples.gathered bs <->
         (guid, el) ∈ elements Examples.gathered /\ el_type el <> "Package" /\
         forall pkg ms, (pkg, ms) ∈ bs -> (guid, el) ∉ ms).
Proof.
  apply (blocks_hold_every_candidate Examples.env_a Examples.cfg_human
           (Examples.repository (Examples.overlapping []))
           (recursion_limit Examples.env_a) (Examples.overlapping []) 0 0
           Examples.gathered).
  vm_compute. reflexivity.
Defined.

(** C1, as stated, fails on the code: no package claims a shape. The class
    of the example is a candidate of both packages; the first block in the
    sort order is the one of P1, and the block of P2 declares the class
    again. *)
Lemma first_match_wins_counterexample :
  inside {| x := 60; y := 60; w := 20; h := 20 |}
         {| x := 0; y := 0; w := 100; h := 100 |} = Ok true /\
  inside {| x := 60; y := 60; w := 20; h := 20 |}
         {| x := 50; y := 50; w := 100; h := 100 |} = Ok true /\
  match blocks Examples.gathered with
  | Ok bs => map (fun b => (pkg_name (fst b), Py.keys (snd b))) bs
  | Raise _ => []
  end = [("P1", ["{C}"]); ("P2", ["{C}"])] /\
  render_elements_grouped Examples.cfg_human Examples.gathered =
    Ok (Py.join Py.newline
          ["package " +:+ Examples.quoted "P1" +:+ " {";
           "class " +:+ Examples.quoted "C" +:+ " as C";
           "}";
           "";
           "package " +:+ Examples.quoted "P2" +:+ " {";
           "class " +:+ Examples.quoted "C" +:+ " as C";
           "}";
           "";
           ""]).
Proof. vm_compute. done. Qed.

(** C10. After [gather] a shape of type Package is declared in no package
    block and not among the leftovers, whatever its geometry; it has a
    block of its own. *)
Theorem packages_only_as_blocks (env : Env) (cfg : Config) (repo : EA.Repository)
    (depth : nat) (diagram : EA.Diagram) (cx cy : Z) (st : State) :
  gather env cfg repo depth diagram cx cy (init cfg) = Ok st ->
  exists bs,
    blocks st = Ok bs /\
    render_elements_grouped cfg st =
      Ok (Py.join Py.newline
            (flat_map (block_lines cfg) bs ++ flat_map (emit cfg) (Py.values (leftovers st bs)) ++ [""])) /\
    forall guid el,
      (guid, el) ∈ elements st -> el_type el = "Package" ->
      (forall pkg ms, (pkg, ms) ∈ bs -> (guid, el) ∉ ms) /\
      ((guid, el) ∉ leftovers st bs) /\
      exists ms, (pkg_of el, ms) ∈ bs.
Proof.
  intros Hg.
  destruct (gather_blocks_ok env cfg repo _ _ _ _ _ Hg) as [bs Hb].
  pose proof (gather_collected env cfg repo _ _ _ _ _ _ (init_collected cfg) Hg) as Hc.
  exists bs. split_and!; [done|unfold render_elements_grouped; by rewrite Hb|].
  intros guid el Hel Ht. split_and!.
  - intros pkg ms Hin Hms.
    apply (gather_block_elem env cfg repo _ _ _ _ _ _ _ _ guid el Hg Hb Hin) in Hms.
    by destruct Hms as (_ & _ & Hn & _).
  - intros Hl. apply leftovers_spec in Hl as (_ & Hn & _). done.
  - assert (pkg_of el ∈ map fst bs) as Hin.
    { apply blocks_of_spec in Hb as [-> _]. apply sorted_pkgs_elem.
      exists guid. by apply (packages_of _ Hc). }
    apply list_elem_of_fmap in Hin as ([pkg ms] & Heq & Hin). simpl in Heq. subst pkg.
    by exists ms.
Qed.

Lemma packages_only_as_blocks_witness :
  exists bs,
    blocks Examples.gathered = Ok bs /\
    render_elements_grouped Examples.cfg_human Examples.gathered =
      Ok (Py.join Py.newline
            (flat_map (block_lines Examples.cfg_human) bs ++
             flat_map (emit Examples.cfg_human)
               (Py.values (leftovers Examples.gathered bs)) ++ [""])) /\
    forall guid el,
      (guid, el) ∈ elements Examples.gathered -> el_type el = "Package" ->
      (forall pkg ms, (pkg, ms) ∈ bs -> (guid, el) ∉ ms) /\
      ((guid, el) ∉ leftovers Examples.gathered bs) /\
      exists ms, (pkg_of el, ms) ∈ bs.
Proof.
  apply (packages_only_as_blocks Examples.env_a Examples.cfg_human
           (Examples.repository (Examples.overlapping []))
           (recursion_limit Examples.env_a) (Examples.overlapping []) 0 0
           Examples.gathered).
  vm_compute. reflexivity.
Defined.

End BlockTheorems.

(* ===================================================================== *)
(** * Connectors with an endpoint on no shape                              *)
(* ===================================================================== *)

Section ConnectorFacts.
Import EAPlantUMLExporter.

Variable env : Env.
Variable cfg : Config.

Lemma add_link_unresolved repo dLnk st :
  unresolved repo st dLnk = true -> add_link cfg repo dLnk st = st.
Proof.
  unfold unresolved, add_link. intros ->. by destruct (EA.IsHidden dLnk).
Qed.

Lemma unresolved_frame repo st st' dLnk :
  elements st' = elements st -> elemid_to_instuid st' = elemid_to_instuid st ->
  unresolved repo st' dLnk = unresolved repo st dLnk.
Proof.
  intros He Hi. unfold unresolved, resolve_endpoint_uid. by rewrite He, Hi.
Qed.

Lemma add_links_app repo l1 l2 st :
  add_links cfg repo (l1 ++ l2) st = add_links cfg repo l2 (add_links cfg repo l1 st).
Proof. unfold add_links. apply foldl_app. Qed.

Lemma add_links_drop repo l1 l l2 st :
  unresolved repo st l = true ->
  add_links cfg repo (l1 ++ l :: l2) st = add_links cfg repo (l1 ++ l2) st.
Proof.
  intros Hu. rewrite !add_links_app.
  change (add_links cfg repo (l :: l2) (add_links cfg repo l1 st))
    with (add_links cfg repo l2 (add_link cfg repo l (add_links cfg repo l1 st))).
  rewrite add_link_unresolved; [done|].
  destruct (add_links_frame cfg repo l1 st) as (He & _ & _ & Hi).
  by rewrite (unresolved_frame _ _ _ _ He Hi).
Qed.

(** [gather] reads the repository through its three lookups only. *)
Lemma first_pass_repo_ext r1 r2 g1 g2 objs cx cy st :
  EA.GetElementByID r1 = EA.GetElementByID r2 ->
  EA.GetDiagramByID r1 = EA.GetDiagramByID r2 ->
  (forall d x y s, g1 d x y s = g2 d x y s) ->
  first_pass env cfg r1 g1 objs cx cy st = first_pass env cfg r2 g2 objs cx cy st.
Proof.
  intros He Hd Hg. revert st.
  induction objs as [|o objs IH]; intros st; simpl; [done|].
  assert (collect env cfg r1 o cx cy st = collect env cfg r2 o cx cy st) as ->.
  { unfold collect. by rewrite He. }
  destruct (collect env cfg r2 o cx cy st) as [st1 el].
  rewrite Hd, Hg.
  destruct (if String.eqb _ _ then _ else _) as [st2|]; simpl; [apply IH|done].
Qed.

Lemma add_links_repo_ext r1 r2 links st :
  EA.GetConnectorByID r1 = EA.GetConnectorByID r2 ->
  add_links cfg r1 links st = add_links cfg r2 links st.
Proof.
  intros Hc. unfold add_links. revert st.
  induction links as [|l links IH]; intros st; simpl; [done|].
  rewrite IH. f_equal. unfold add_link. by rewrite Hc.
Qed.

Lemma gather_repo_ext r1 r2 depth d cx cy st :
  EA.GetElementByID r1 = EA.GetElementByID r2 ->
  EA.GetDiagramByID r1 = EA.GetDiagramByID r2 ->
  EA.GetConnectorByID r1 = EA.GetConnectorByID r2 ->
  gather env cfg r1 depth d cx cy st = gather env cfg r2 depth d cx cy st.
Proof.
  intros He Hd Hc. revert d cx cy st.
  induction depth as [|depth IH]; intros d cx cy st; simpl; [done|].
  rewrite (first_pass_repo_ext r1 r2 _ (gather env cfg r2 depth)) by done.
  destruct (first_pass _ _ _ _ _ _ _ _) as [st1|]; simpl; [|done].
  destruct (second_pass _ _) as [st2|]; simpl; [|done].
  by rewrite (add_links_repo_ext r1 r2).
Qed.

(** Dropping from the links of a diagram one that resolves to no shape of
    the diagram leaves the outcome of [gather] as it is. *)
Lemma gather_drop repo depth d l1 l l2 cx cy st0 :
  EA.DiagramLinks d = l1 ++ l :: l2 ->
  (forall st, gather env cfg repo depth (with_links d []) cx cy st0 = Ok st ->
              unresolved repo st l = true) ->
  gather env cfg repo depth d cx cy st0 =
  gather env cfg repo depth (with_links d (l1 ++ l2)) cx cy st0.
Proof.
  intros Hl Hu. destruct depth as [|depth]; simpl in *; [done|].
  destruct (first_pass _ _ _ _ _ _ _ _) as [st1|]; simpl in *; [|done].
  destruct (second_pass _ _) as [st2|]; simpl in *; [|done].
  rewrite Hl. f_equal. apply add_links_drop. by apply Hu.
Qed.

End ConnectorFacts.

Section ConnectorTheorems.
Import EAPlantUMLExporter.

Lemma component_render_drop (cfg : config.Config) (diagram : models.Diagram)
    (out : PlantUMLWriter.t) (l1 l2 : list models.Connector) (c : models.Connector) :
  handlers.index_get diagram (models.element_id (models.c_source c)) = None
  \/ handlers.index_get diagram (models.element_id (models.c_target c)) = None ->
  handlers.component.render (with_connectors diagram (l1 ++ c :: l2)) out cfg =
  handlers.component.render (with_connectors diagram (l1 ++ l2)) out cfg.
Proof.
  intros Hnone. unfold handlers.component.render. simpl.
  do 4 f_equal. rewrite !omap_app. f_equal. simpl.
  assert (handlers.component.connector_line cfg
            (with_connectors diagram (l1 ++ c :: l2)) c = None) as ->.
  { unfold handlers.component.connector_line, handlers.index_get in *. simpl.
    destruct Hnone as [-> | ->]; [done|]. by destruct (last _). }
  done.
Qed.

(** C7. A link with an endpoint that resolves to no shape of the diagram,
    neither by its instance identity nor through the element index, is
    skipped: the export of the diagram is the export of the diagram without
    that link, in the file written and in the outcome, so no error comes
    from it and no line stands for it. The component handler of the package
    likewise writes what it writes without a connector whose source or
    target is no element of the diagram. *)
Theorem dangling_connector_omitted :
  (forall (env : Env) (cfg : Config) (repo : EA.Repository) (d : EA.Diagram)
          (l1 : list EA.DiagramLink) (l : EA.DiagramLink) (l2 : list EA.DiagramLink)
          (outdir : string) (filename : option string) (fs : OS.FS),
     EA.DiagramLinks d = l1 ++ l :: l2 ->
     (forall st,
        gather env cfg repo (recursion_limit env) (with_links d []) 0 0 (init cfg) = Ok st ->
        unresolved repo st l = true) ->
     export env cfg (Ok (with_selected repo d)) outdir filename fs =
     export env cfg (Ok (with_selected repo (with_links d (l1 ++ l2)))) outdir filename fs) /\
  (forall (cfg : config.Config) (diagram : models.Diagram) (out : PlantUMLWriter.t)
          (l1 : list models.Connector) (c : models.Connector) (l2 : list models.Connector),
     handlers.index_get diagram (models.element_id (models.c_source c)) = None
     \/ handlers.index_get diagram (models.element_id (models.c_target c)) = None ->
     handlers.component.render (with_connectors diagram (l1 ++ c :: l2)) out cfg =
     handlers.component.render (with_connectors diagram (l1 ++ l2)) out cfg).
Proof.
  split.
  - intros env cfg repo d l1 l l2 outdir filename fs Hl Hu.
    unfold export. cbn [rbind get_selected_diagram with_selected EA.GetTreeSelectedItem].
    change (negb (8 =? 8)%Z) with false. cbn [rbind].
    rewrite !(gather_repo_ext env cfg (with_selected repo _) repo) by done.
    rewrite (gather_drop env cfg repo _ d l1 l l2 0%Z 0%Z (init cfg) Hl Hu).
    clear Hu.
    destruct (gather _ _ _ _ _ _ _ _) as [st|e]; cbn [rbind]; [|done].
    change (render cfg (with_links d (l1 ++ l2)) st) with (render cfg d st).
    by destruct (render cfg d st).
  - intros. by apply component_render_drop.
Qed.

Lemma dangling_connector_omitted_witness :
  export Examples.env_a Examples.cfg_human
    (Ok (with_selected (Examples.repository (Examples.overlapping []))
           (Examples.overlapping [Examples.good_link; Examples.dangling_link])))
    "output" None Examples.empty_fs =
  export Examples.env_a Examples.cfg_human
    (Ok (with_selected (Examples.repository (Examples.overlapping []))
           (with_links (Examples.overlapping [Examples.good_link; Examples.dangling_link])
              ([Examples.good_link] ++ []))))
    "output" None Examples.empty_fs /\
  handlers.component.render
    (with_connectors (Examples.pkg_diagram [])
       ([Examples.pkg_connector 1 1 2] ++ Examples.pkg_connector 2 1 5 :: []))
    (PlantUMLWriter.init None None) Examples.pkg_cfg =
  handlers.component.render
    (with_connectors (Examples.pkg_diagram []) ([Examples.pkg_connector 1 1 2] ++ []))
    (PlantUMLWriter.init None None) Examples.pkg_cfg.
Proof.
  split.
  - apply (proj1 dangling_connector_omitted Examples.env_a Examples.cfg_human
             (Examples.repository (Examples.overlapping []))
             (Examples.overlapping [Examples.good_link; Examples.dangling_link])
             [Examples.good_link] Examples.dangling_link []).
    + reflexivity.
    + intros st H. vm_compute in H. injection H as <-. vm_compute. reflexivity.
  - apply (proj2 dangling_connector_omitted).
    right. vm_compute. reflexivity.
Defined.

End ConnectorTheorems.

(* ===================================================================== *)
(** * Connector labels                                                     *)
(* ===================================================================== *)

Section LabelTheorems.
Import EAPlantUMLExporter.

(** C8, as the code has it. In the monolithic exporter the parts of a
    label follow [" : "] and are separated by one space, and the
    hidden-labels flag of the connector withholds its name only, never its
    stereotype. In the component handler of the package the parts are
    separated by [" / "] and no hidden-labels flag is read. *)
Theorem connector_label_cases :
  (forall (cfg : Config) (c : Conn),
     connector_label cfg c =
     label_of " "
       (one_of (edge_labels cfg) ["name"; "both"] && negb (hidden_labels c))
       (one_of (edge_labels cfg) ["stereotype"; "both"])
       (conn_name c) (conn_stereotype c)) /\
  (forall (cfg : config.Config) (c : models.Connector),
     handlers.component.connector_label cfg c =
     label_of " / "
       (handlers.policy_in (config.edge_labels cfg) ["name"; "both"])
       (handlers.policy_in (config.edge_labels cfg) ["stereotype"; "both"])
       (default "" (Py.get (models.c_labels c) "name"))
       (default "" (models.c_stereotype c))).
Proof.
  split.
  - intros cfg c. unfold connector_label, connector_parts, label_of.
    destruct (one_of (edge_labels cfg) ["name"; "both"]),
             (one_of (edge_labels cfg) ["stereotype"; "both"]),
             (hidden_labels c), (Py.truthy (conn_name c)),
             (Py.truthy (conn_stereotype c)); reflexivity.
  - intros cfg c.
    unfold handlers.component.connector_label, handlers.component.label_parts,
      label_of, truthy_opt.
    destruct (handlers.policy_in (config.edge_labels cfg) ["name"; "both"]),
             (handlers.policy_in (config.edge_labels cfg) ["stereotype"; "both"]),
             (Py.get (models.c_labels c) "name") as [nm|],
             (models.c_stereotype c) as [st|]; simpl;
      try destruct (Py.truthy nm); try destruct (Py.truthy st); reflexivity.
Qed.

(** C8, as stated, fails on the code: with both parts selected the
    exporter separates them by a space where the specification has
    [" / "], and for a connector flagged hidden-labels it still shows the
    stereotype where the specification shows nothing. *)
Lemma connector_label_counterexample :
  render_connectors Examples.cfg_human (Examples.gathered_with [Examples.good_link]) =
    Py.join Py.newline ["C ..> P1 : uses <<call>>"; ""] /\
  spec_label "both" false "uses" "call" = " : uses / <<call>>" /\
  render_connectors Examples.cfg_human (Examples.gathered_with [Examples.hidden_label_link]) =
    Py.join Py.newline ["C ..> P1 : <<call>>"; ""] /\
  spec_label "both" true "uses" "call" = "".
Proof. vm_compute. done. Qed.

End LabelTheorems.

(* ===================================================================== *)
(** * Dispatch on the diagram type                                         *)
(* ===================================================================== *)

Section DispatchTheorems.
Import EAPlantUMLExporter.

Lemma gather_with_type env cfg repo depth d t cx cy st :
  gather env cfg repo depth (with_type d t) cx cy st = gather env cfg repo depth d cx cy st.
Proof. by destruct depth. Qed.

(** C4, as the code has it. The registry of the package holds the types
    component, sequence and use case; [run] on a diagram whose type has no
    entry in it raises the [KeyError] of [resolve] and leaves the file
    system as it was. The monolithic exporter has no registry: once
    [gather] has returned, the text of a diagram whose type is sequence is
    the one of the sequence strategy and the text of a diagram of any
    other type, known or not, is the one of the structural strategy; and
    when the operating system grants the directory and the file, [export]
    returns the path and has written that text to it. *)
Theorem unknown_type_dispatch :
  (forall key : string,
     handler_registry._REGISTRY !! key = None <->
     key <> "component" /\ key <> "sequence" /\ key <> "use case") /\
  (forall (env : Env) (cfg : config.Config) (app : result EA.Repository) (fs : OS.FS)
          (diagram : models.Diagram),
     EAAdapter.get_selected_diagram env cfg app = Ok diagram ->
     handler_registry._REGISTRY !! Py.lower (Py.strip (models.d_type diagram)) = None ->
     main.run env cfg app fs =
       (fs, Raise (KeyError ("No handler registered for diagram type: "
                             +:+ Py.repr (models.d_type diagram))))) /\
  (forall (env : Env) (cfg : Config) (repo : EA.Repository) (d : EA.Diagram)
          (outdir : string) (filename : option string) (fs : OS.FS) (st : State),
     EA.GetTreeSelectedItem repo = (8%Z, d) ->
     gather env cfg repo (recursion_limit env) d 0 0 (init cfg) = Ok st ->
     exists puml,
       render cfg d st = Ok puml /\
       (if String.eqb (Py.lower (EA.d_Type d)) "sequence"
        then puml = sequence_text cfg d st
        else exists grouped,
               render_elements_grouped cfg st = Ok grouped /\
               puml = structural_text cfg d st grouped) /\
       (granted fs outdir
          (OS.path_join fs outdir (export_base filename d +:+ ".puml")) puml ->
        exists fs',
          export env cfg (Ok repo) outdir filename fs =
            (fs', Ok (OS.path_join fs outdir (export_base filename d +:+ ".puml"))) /\
          OS.files fs' =
            <[OS.path_join fs outdir (export_base filename d +:+ ".puml") := puml]>
              (OS.files fs))).
Proof.
  split_and!.
  - intros key. unfold handler_registry._REGISTRY, handler_registry.register.
    change (Py.lower (Py.strip "Use Case")) with "use case".
    change (Py.lower (Py.strip "Sequence")) with "sequence".
    change (Py.lower (Py.strip "Component")) with "component".
    rewrite !lookup_insert_None, lookup_empty. intuition congruence.
  - intros env cfg app fs diagram Hd Hnone. unfold main.run. rewrite Hd. cbn [rbind].
    assert (forall dg, models.d_type dg = models.d_type diagram ->
              handler_registry.resolve (models.d_type dg) =
              Raise (handler_registry.no_handler (models.d_type diagram))) as Hr.
    { intros dg ->. unfold handler_registry.resolve. by rewrite or_str_empty, Hnone. }
    rewrite Hr; [done|]. by destruct (truthy_opt _).
  - intros env cfg repo d outdir filename fs st Hsel Hg.
    destruct (gather_blocks_ok env cfg repo _ _ _ _ _ Hg) as [bs Hb].
    assert (exists grouped, render_elements_grouped cfg st = Ok grouped) as [grouped Hgr].
    { unfold render_elements_grouped. rewrite Hb. cbn [rbind]. by eexists. }
    assert (exists puml,
              render cfg d st = Ok puml /\
              (if String.eqb (Py.lower (EA.d_Type d)) "sequence"
               then puml = sequence_text cfg d st
               else exists grouped,
                      render_elements_grouped cfg st = Ok grouped /\
                      puml = structural_text cfg d st grouped)) as (puml & Hr & Hif).
    { unfold render, is_sequence_diagram. rewrite or_str_empty.
      destruct (String.eqb (Py.lower (EA.d_Type d)) "sequence").
      - by eexists.
      - rewrite Hgr. cbn [rbind]. eexists. split; [done|]. by exists grouped. }
    exists puml. split_and!; [done..|].
    intros [Hm Ho]. unfold export, get_selected_diagram. cbn [rbind]. rewrite Hsel.
    change (negb (8 =? 8)%Z) with false. cbn [rbind]. rewrite Hg. cbn [rbind].
    rewrite Hr. cbn [rbind]. fold (export_base filename d).
    unfold OS.makedirs. destruct (OS.mkdir_answer fs outdir) as [made err].
    simpl in Hm. subst err.
    unfold OS.write_text. cbn [OS.with_dirs OS.open_answer]. rewrite Ho.
    eexists. split; [done|done].
Qed.

Lemma unknown_type_dispatch_witness :
  main.run Examples.env_a Examples.pkg_cfg
    (Ok (Examples.repository (Examples.overlapping []))) Examples.empty_fs =
    (Examples.empty_fs,
     Raise (KeyError ("No handler registered for diagram type: "
                      +:+ Py.repr (models.d_type Examples.adapted)))) /\
  exists puml grouped fs',
    render_elements_grouped Examples.cfg_human Examples.gathered = Ok grouped /\
    puml = structural_text Examples.cfg_human (Examples.overlapping []) Examples.gathered
             grouped /\
    export Examples.env_a Examples.cfg_human
      (Ok (Examples.repository (Examples.overlapping []))) "output" None
      Examples.empty_fs = (fs', Ok "output\Overlap.puml") /\
    OS.files fs' = <["output\Overlap.puml" := puml]> (OS.files Examples.empty_fs).
Proof.
  split.
  - apply (proj1 (proj2 unknown_type_dispatch) Examples.env_a Examples.pkg_cfg
             (Ok (Examples.repository (Examples.overlapping []))) Examples.empty_fs
             Examples.adapted).
    + vm_compute. reflexivity.
    + vm_compute. reflexivity.
  - destruct (proj2 (proj2 unknown_type_dispatch) Examples.env_a Examples.cfg_human
                (Examples.repository (Examples.overlapping [])) (Examples.overlapping [])
                "output" None Examples.empty_fs Examples.gathered)
      as (puml & _ & (grouped & Hgr & Hp) & Hexp).
    + reflexivity.
    + vm_compute. reflexivity.
    + destruct Hexp as (fs' & He & Hf); [by split|].
      exists puml, grouped, fs'. by split_and!.
Defined.

(** C4, as stated, fails on the monolithic exporter: the type Logical has
    no handler in the registry of the package, and the exporter renders a
    diagram of that type with the structural strategy and writes the
    file. *)
Lemma unknown_type_counterexample :
  handler_registry.resolve "Logical" =
    Raise (KeyError "No handler registered for diagram type: 'Logical'") /\
  snd (export Examples.env_a Examples.cfg_human
         (Ok (Examples.repository (Examples.overlapping []))) "output" None
         Examples.empty_fs) = Ok "output\Overlap.puml" /\
  OS.files (fst (export Examples.env_a Examples.cfg_human
                   (Ok (Examples.repository (Examples.overlapping []))) "output" None
                   Examples.empty_fs)) !! "output\Overlap.puml" =
    Some (Py.join Py.newline
            ["@startuml";
             "title " +:+ Examples.quoted "Overlap";
             "";
             "package " +:+ Examples.quoted "P1" +:+ " {";
             "class " +:+ Examples.quoted "C" +:+ " as C";
             "}";
             "";
             "package " +:+ Examples.quoted "P2" +:+ " {";
             "class " +:+ Examples.quoted "C" +:+ " as C";
             "}";
             ""; ""; ""; "";
             "@enduml";
             ""]).
Proof. vm_compute. done. Qed.

End DispatchTheorems.

(* ===================================================================== *)
(** * Two runs on the same input                                           *)
(* ===================================================================== *)

Section RerunFacts.
Import utils EAPlantUMLExporter.

Lemma sanitize_alias_stable env draws guid :
  guid_stable guid ->
  sanitize_alias env draws guid =
    ("E_" +:+ Py.slice_to 16 (Py.sub_non_alnum_empty guid), draws).
Proof.
  unfold guid_stable, sanitize_alias. intros Hs.
  destruct guid as [|c guid]; [done|]. cbn [Py.truthy negb].
  by rewrite Hs.
Qed.

Lemma make_env_indep env1 env2 self draws guid name :
  AliasFactory.mode self <> "uuid" \/ guid_stable guid ->
  AliasFactory.make env1 self draws guid name = AliasFactory.make env2 self draws guid name.
Proof.
  intros Hc. unfold AliasFactory.make.
  destruct (String.eqb_spec (AliasFactory.mode self) "uuid") as [Hu|Hu]; [|done].
  destruct Hc as [Hc|Hc]; [done|].
  by rewrite !sanitize_alias_stable.
Qed.

Lemma make_mode env self draws guid name :
  AliasFactory.mode (AliasFactory.make env self draws guid name).1.2 = AliasFactory.mode self.
Proof.
  unfold AliasFactory.make.
  destruct (String.eqb _ "uuid"); [by destruct (sanitize_alias _ _ _)|].
  by destruct (String.eqb _ "human").
Qed.

Section Gather.
Variables (env1 env2 : Env) (cfg : Config) (repo : EA.Repository) (M : string).
Hypothesis Hrepo : M <> "uuid" \/ forall id, diagram_stable (EA.GetDiagramByID repo id).

Lemma collect_env_indep o cx cy st :
  AliasFactory.mode (alias_factory st) = M ->
  M <> "uuid" \/ guid_stable (EA.InstanceGUID o) ->
  collect env1 cfg repo o cx cy st = collect env2 cfg repo o cx cy st.
Proof.
  intros Hm Hc. unfold collect.
  rewrite (make_env_indep env1 env2); [done|]. by rewrite Hm.
Qed.

Lemma collect_mode env o cx cy st :
  AliasFactory.mode (alias_factory (collect env cfg repo o cx cy st).1) =
  AliasFactory.mode (alias_factory st).
Proof.
  unfold collect.
  pose proof (make_mode env (alias_factory st) (draws st) (EA.InstanceGUID o)
                (Py.or_str (EA.Name (EA.GetElementByID repo (EA.do_ElementID o))) "")) as H.
  by destruct (AliasFactory.make _ _ _ _ _) as [[? ?] ?].
Qed.

Lemma first_pass_env_indep g1 g2 objs cx cy st :
  (forall id x y s,
     AliasFactory.mode (alias_factory s) = M ->
     g1 (EA.GetDiagramByID repo id) x y s = g2 (EA.GetDiagramByID repo id) x y s /\
     forall s', g1 (EA.GetDiagramByID repo id) x y s = Ok s' ->
                AliasFactory.mode (alias_factory s') = M) ->
  AliasFactory.mode (alias_factory st) = M ->
  M <> "uuid" \/ Forall (fun o => guid_stable (EA.InstanceGUID o)) objs ->
  first_pass env1 cfg repo g1 objs cx cy st = first_pass env2 cfg repo g2 objs cx cy st /\
  forall st', first_pass env1 cfg repo g1 objs cx cy st = Ok st' ->
              AliasFactory.mode (alias_factory st') = M.
Proof.
  intros Hg. revert st.
  induction objs as [|o objs IH]; intros st Hm Hc; simpl.
  - split; [done|]. by intros st' [= <-].
  - assert (M <> "uuid" \/ guid_stable (EA.InstanceGUID o)) as Ho.
    { destruct Hc as [?|Hc]; [by left|right]. by inversion Hc. }
    assert (M <> "uuid" \/ Forall (fun o => guid_stable (EA.InstanceGUID o)) objs) as Hr.
    { destruct Hc as [?|Hc]; [by left|right]. by inversion Hc. }
    rewrite <- (collect_env_indep o cx cy st Hm Ho).
    pose proof (collect_mode env1 o cx cy st) as Hm1. rewrite Hm in Hm1.
    destruct (collect env1 cfg repo o cx cy st) as [st1 el]. simpl in Hm1.
    destruct (String.eqb (el_type el) "UMLDiagram").
    + destruct (Hg (EA.MiscData0 (el_raw el)) (EA.Left o) (- EA.Top o)%Z st1 Hm1) as [<- Hm2].
      destruct (g1 _ _ _ st1) as [st2|]; simpl; [|done].
      apply IH; [by apply Hm2|done].
    + simpl. by apply IH.
Qed.

Lemma second_pass_factory pkgs st st' :
  second_pass pkgs st = Ok st' -> alias_factory st' = alias_factory st.
Proof.
  revert st. induction pkgs as [|[k p] pkgs IH]; intros st; simpl.
  - by intros [= <-].
  - destruct (members_of _ _ _) as [ms|e]; simpl; [|done].
    intros H. by apply IH in H.
Qed.

Lemma add_links_factory links st :
  alias_factory (add_links cfg repo links st) = alias_factory st.
Proof.
  unfold add_links. revert st.
  induction links as [|l links IH]; intros st; [done|]. simpl.
  rewrite IH. unfold add_link. destruct (EA.IsHidden l); [done|]. by destruct (_ || _).
Qed.

Lemma gather_env_indep depth d cx cy st :
  AliasFactory.mode (alias_factory st) = M ->
  M <> "uuid" \/ diagram_stable d ->
  gather env1 cfg repo depth d cx cy st = gather env2 cfg repo depth d cx cy st /\
  forall st', gather env1 cfg repo depth d cx cy st = Ok st' ->
              AliasFactory.mode (alias_factory st') = M.
Proof.
  revert d cx cy st.
  induction depth as [|depth IH]; intros d cx cy st Hm Hd; simpl; [done|].
  destruct (first_pass_env_indep (gather env1 cfg repo depth) (gather env2 cfg repo depth)
              (EA.DiagramObjects d) cx cy st) as [<- Hm1]; [|done|done|].
  { intros id x y s Hs. apply IH; [done|].
    destruct Hrepo as [?|Hall]; [by left|right; apply Hall]. }
  destruct (first_pass env1 _ _ _ _ _ _ _) as [st1|]; simpl; [|done].
  specialize (Hm1 _ eq_refl).
  destruct (second_pass (packages st1) st1) as [st2|] eqn:E2; simpl; [|done].
  split; [done|]. intros st' [= <-].
  rewrite add_links_factory, (second_pass_factory _ _ _ E2). done.
Qed.

End Gather.

Lemma collect_elements_env_indep env1 env2 cfg repo objs factory draws :
  AliasFactory.mode factory <> "uuid"
  \/ Forall (fun o => guid_stable (EA.InstanceGUID o)) objs ->
  EAAdapter.collect_elements env1 cfg repo objs factory draws =
  EAAdapter.collect_elements env2 cfg repo objs factory draws.
Proof.
  revert factory draws.
  induction objs as [|o objs IH]; intros factory draws Hc; simpl; [done|].
  assert (AliasFactory.mode factory <> "uuid" \/ guid_stable (EA.InstanceGUID o)) as Ho.
  { destruct Hc as [?|Hc]; [by left|right]. by inversion Hc. }
  rewrite (make_env_indep env1 env2 factory draws _ _ Ho).
  pose proof (make_mode env2 factory draws (EA.InstanceGUID o)
                (Py.or_str (EA.Name (EA.GetElementByID repo (EA.do_ElementID o))) "")) as Hm.
  destruct (AliasFactory.make env2 _ _ _ _) as [[a f'] d']. simpl in Hm.
  f_equal. apply IH.
  destruct Hc as [?|Hc]; [left; by rewrite Hm|right]. by inversion Hc.
Qed.

End RerunFacts.

Section RerunTheorems.
Import utils EAPlantUMLExporter.

(** C2, as the code has it. In uuid mode the alias of a GUID with an
    alphanumeric character is [E_] followed by its first 16 alphanumeric
    characters, whatever the process. Two runs of the
    exporter, and of the package, on the same input and configuration
    write the same file with the same outcome when the alias mode is not
    uuid or every shape has such a GUID. *)
Theorem rerun_identical :
  (forall (env : Env) (draws : nat) (guid : string),
     guid_stable guid ->
     sanitize_alias env draws guid =
       ("E_" +:+ Py.slice_to 16 (Py.sub_non_alnum_empty guid), draws)) /\
  (forall (env1 env2 : Env) (cfg : Config) (repo : EA.Repository)
          (outdir : string) (filename : option string) (fs : OS.FS),
     recursion_limit env1 = recursion_limit env2 ->
     alias_mode cfg <> "uuid"
     \/ (diagram_stable (EA.GetTreeSelectedItem repo).2
         /\ forall id, diagram_stable (EA.GetDiagramByID repo id)) ->
     export env1 cfg (Ok repo) outdir filename fs =
     export env2 cfg (Ok repo) outdir filename fs) /\
  (forall (env1 env2 : Env) (cfg : config.Config) (repo : EA.Repository) (fs : OS.FS),
     config.alias_mode cfg <> Some "uuid"
     \/ (forall dia, EA.GetCurrentDiagram repo = Some dia -> diagram_stable dia) ->
     main.run env1 cfg (Ok repo) fs = main.run env2 cfg (Ok repo) fs).
Proof.
  split_and!.
  - intros env draws guid Hs. by apply sanitize_alias_stable.
  - intros env1 env2 cfg repo outdir filename fs Hlim Hc.
    unfold export, get_selected_diagram. cbn [rbind].
    destruct (EA.GetTreeSelectedItem repo) as [ty item]. simpl in Hc.
    destruct (negb (ty =? 8)%Z); cbn [rbind]; [done|].
    rewrite Hlim.
    destruct (gather_env_indep env1 env2 cfg repo (alias_mode cfg)) with
      (depth := recursion_limit env2) (d := item) (cx := 0%Z) (cy := 0%Z) (st := init cfg)
      as [-> _]; [| done | |done].
    + destruct Hc as [?|[_ ?]]; [by left|by right].
    + destruct Hc as [?|[? _]]; [by left|by right].
  - intros env1 env2 cfg repo fs Hc.
    unfold main.run, EAAdapter.get_selected_diagram. cbn [rbind].
    destruct (EA.GetCurrentDiagram repo) as [dia|]; [|done].
    rewrite (collect_elements_env_indep env1 env2); [done|].
    destruct Hc as [Hc|Hc]; [left|right; by apply Hc].
    cbn [AliasFactory.init AliasFactory.mode].
    destruct (config.alias_mode cfg) as [[|c m]|]; [done| |done].
    cbn [Py.or_str Py.truthy]. congruence.
Qed.

Lemma rerun_identical_witness :
  sanitize_alias Examples.env_a 0 "{7F3A-12bc}" = ("E_7F3A12bc", 0%nat) /\
  export Examples.env_a Examples.cfg_uuid
    (Ok (Examples.repository (Examples.overlapping []))) "output" None Examples.empty_fs =
  export Examples.env_b Examples.cfg_uuid
    (Ok (Examples.repository (Examples.overlapping []))) "output" None Examples.empty_fs /\
  main.run Examples.env_a Examples.pkg_cfg
    (Ok (Examples.repository (with_type (Examples.overlapping []) "Component")))
    Examples.empty_fs =
  main.run Examples.env_b Examples.pkg_cfg
    (Ok (Examples.repository (with_type (Examples.overlapping []) "Component")))
    Examples.empty_fs.
Proof.
  split_and!.
  - apply (proj1 rerun_identical). reflexivity.
  - apply (proj1 (proj2 rerun_identical)); [reflexivity|].
    right. split; [|intros id]; repeat constructor.
  - apply (proj2 (proj2 rerun_identical)). left. discriminate.
Defined.

(** C2, as stated, fails on the code: for a shape without an instance
    GUID the alias comes from [os.urandom], and two runs on the same
    diagram and configuration write different files. *)
Lemma rerun_counterexample :
  OS.files (export Examples.env_a Examples.cfg_uuid
              (Ok (Examples.repository Examples.anonymous)) "output" None
              Examples.empty_fs).1 !! "output\Anonymous.puml" =
    Some (Py.join Py.newline
            ["@startuml"; "title " +:+ Examples.quoted "Anonymous"; "";
             "class " +:+ Examples.quoted "C" +:+ " as E_16909060";
             ""; ""; ""; "@enduml"; ""]) /\
  OS.files (export Examples.env_b Examples.cfg_uuid
              (Ok (Examples.repository Examples.anonymous)) "output" None
              Examples.empty_fs).1 !! "output\Anonymous.puml" =
    Some (Py.join Py.newline
            ["@startuml"; "title " +:+ Examples.quoted "Anonymous"; "";
             "class " +:+ Examples.quoted "C" +:+ " as E_84281096";
             ""; ""; ""; "@enduml"; ""]).
Proof. vm_compute. done. Qed.

End RerunTheorems.

(* ===================================================================== *)
(** * Further properties of the geometry kernel                            *)
(* ===================================================================== *)

Section KernelProperties.
Import EAPlantUMLExporter.
Local Open Scope Z_scope.

(** X1. The overlap of two rectangles does not depend on their order, is
    never negative and never exceeds the area of either of them, whatever
    the signs of their sides; rectangles that only touch along an edge, or
    lie apart, overlap in 0. *)
Theorem overlap_area_bounds (a b : Rect) :
  overlap_area a b = overlap_area b a /\
  0 <= overlap_area a b <= Z.min (area a) (area b) /\
  (x a + w a <= x b \/ x b + w b <= x a \/ y a + h a <= y b \/ y b + h b <= y a ->
   overlap_area a b = 0).
Proof.
  split_and!.
  - unfold overlap_area.
    rewrite (Z.max_comm (x a)), (Z.max_comm (y a)), (Z.min_comm (x a + w a)),
      (Z.min_comm (y a + h a)). done.
  - apply overlap_area_nonneg.
  - unfold overlap_area, area.
    destruct (_ || _) eqn:E; [nia|].
    apply orb_false_iff in E as [E1 E2]. apply Z.leb_gt in E1, E2.
    set (x1 := Z.max (x a) (x b)) in *. set (x2 := Z.min (x a + w a) (x b + w b)) in *.
    set (y1 := Z.max (y a) (y b)) in *. set (y2 := Z.min (y a + h a) (y b + h b)) in *.
    assert (x2 - x1 <= w a /\ x2 - x1 <= w b) by (unfold x1, x2; lia).
    assert (y2 - y1 <= h a /\ y2 - y1 <= h b) by (unfold y1, y2; lia).
    clearbody x1 x2 y1 y2.
    rewrite !Z.max_r by lia. apply Z.min_glb; nia.
  - intros Hapart. unfold overlap_area.
    destruct (_ || _) eqn:E; [done|].
    apply orb_false_iff in E as [E1 E2]. apply Z.leb_gt in E1, E2. lia.
Qed.

Lemma overlap_area_bounds_witness :
  overlap_area {| x := 0; y := 0; w := 10; h := 10 |}
               {| x := 10; y := 0; w := 5; h := 10 |} = 0.
Proof.
  apply (proj2 (proj2 (overlap_area_bounds {| x := 0; y := 0; w := 10; h := 10 |}
                         {| x := 10; y := 0; w := 5; h := 10 |}))).
  left. simpl. lia.
Defined.

(** X2. [rect] with a corner is [rect] without one, moved by the corner;
    and moving a shape and a container by the same offset changes neither
    their areas, nor their overlap, nor the centre test, nor the outcome
    of the membership test that the second pass of [gather] applies to
    the two rectangles. *)
Theorem membership_shift_invariant (dobj : EA.DiagramObject) (dx dy : Z) (s c : Rect) :
  rect dobj dx dy = shift dx dy (rect dobj 0 0) /\
  area (shift dx dy s) = area s /\
  overlap_area (shift dx dy s) (shift dx dy c) = overlap_area s c /\
  center_inside (shift dx dy s) (shift dx dy c) = center_inside s c /\
  inside (shift dx dy s) (shift dx dy c) = inside s c.
Proof.
  assert (overlap_area (shift dx dy s) (shift dx dy c) = overlap_area s c) as Ho.
  { unfold overlap_area, shift. simpl.
    replace (Z.max (x s + dx) (x c + dx)) with (Z.max (x s) (x c) + dx) by lia.
    replace (Z.max (y s + dy) (y c + dy)) with (Z.max (y s) (y c) + dy) by lia.
    replace (Z.min (x s + dx + w s) (x c + dx + w c))
      with (Z.min (x s + w s) (x c + w c) + dx) by lia.
    replace (Z.min (y s + dy + h s) (y c + dy + h c))
      with (Z.min (y s + h s) (y c + h c) + dy) by lia.
    set (x1 := Z.max _ _). set (x2 := Z.min _ _). set (y1 := Z.max _ _). set (y2 := Z.min _ _).
    replace (x2 + dx <=? x1 + dx) with (x2 <=? x1) by (apply Bool.eq_true_iff_eq; rewrite !Z.leb_le; lia).
    replace (y2 + dy <=? y1 + dy) with (y2 <=? y1) by (apply Bool.eq_true_iff_eq; rewrite !Z.leb_le; lia).
    destruct (_ || _); [done|]. f_equal; lia. }
  assert (center_inside (shift dx dy s) (shift dx dy c) = center_inside s c) as Hc.
  { apply Bool.eq_true_iff_eq. rewrite !center_inside_iff. unfold shift. simpl. lia. }
  split_and!; [|done|done|done|].
  - unfold rect, shift. simpl. f_equal; lia.
  - unfold inside. rewrite Ho, Hc. done.
Qed.

(** X3. A shape of positive or zero width and height that lies within the
    closed bounds of a container is a member of it. *)
Theorem contained_shape_is_member (s c : Rect) :
  0 <= w s -> 0 <= h s -> within s c -> inside s c = Ok true.
Proof.
  intros Hw Hh (Hx1 & Hx2 & Hy1 & Hy2). unfold inside.
  assert (center_inside s c = true) as ->; [|done].
  apply center_inside_iff. Z.to_euclidean_division_equations. lia.
Qed.

Lemma contained_shape_is_member_witness :
  inside {| x := 2; y := 2; w := 3; h := 0 |} {| x := 0; y := 0; w := 5; h := 5 |} = Ok true.
Proof.
  apply contained_shape_is_member; unfold within; simpl; lia.
Defined.

(** X4. A shape without area, that is of width or height zero or below, is
    a member of every container, wherever the two lie: its overlap, 0, is
    at least half of its area, 0. *)
Theorem degenerate_shape_is_member (s c : Rect) :
  w s <= 0 \/ h s <= 0 -> inside s c = Ok true.
Proof.
  intros Hd. unfold inside.
  destruct (center_inside s c); [done|].
  assert (area s = 0) as Ha by (unfold area; nia).
  pose proof (overlap_area_bounds s c) as (_ & Hb & _). rewrite Ha in Hb.
  assert (overlap_area s c = 0) as -> by lia. rewrite Ha. done.
Qed.

Lemma degenerate_shape_is_member_witness :
  inside {| x := 500; y := 500; w := 0; h := 40 |} {| x := 0; y := 0; w := 5; h := 5 |} = Ok true.
Proof. apply degenerate_shape_is_member. left. simpl. lia. Defined.

End KernelProperties.

(* ===================================================================== *)
(** * Further properties of the text helpers                               *)
(* ===================================================================== *)

Section TextFacts.
Import utils.

Lemma chars_app s t : Py.chars (s +:+ t) = Py.chars s ++ Py.chars t.
Proof. induction s as [|c s IH]; simpl; [done|]. by rewrite <- IH. Qed.

Lemma len_chars s : Py.len s = length (Py.chars s).
Proof. unfold Py.len. induction s as [|c s IH]; simpl; [done|]. by rewrite IH. Qed.

Lemma chars_inj s t : Py.chars s = Py.chars t -> s = t.
Proof. intros H. by rewrite <- (str_chars s), <- (str_chars t), H. Qed.

Lemma sub_runs_keep keep b l :
  keep "_"%char = true ->
  Forall (fun c => keep c = true) (Py.sub_runs keep b l).
Proof.
  intros Hk. revert b. induction l as [|c l IH]; intros b; simpl; [constructor|].
  destruct (keep c) eqn:E; [by constructor|].
  destruct b; [done|by constructor].
Qed.

Lemma sub_runs_length keep b l : (length (Py.sub_runs keep b l) <= length l)%nat.
Proof.
  revert b. induction l as [|c l IH]; intros b; simpl; [done|].
  destruct (keep c); simpl; [specialize (IH false); lia|].
  destruct b; simpl; [specialize (IH true); lia|specialize (IH true); lia].
Qed.

Lemma is_word_not_superscript c :
  Py.is_word c = true -> Py.isdigit c = Py.in_range 48 57 c.
Proof.
  unfold Py.is_word, Py.is_alnum, Py.isdigit, Py.in_range.
  intros H. apply Bool.eq_true_iff_eq.
  rewrite !orb_true_iff, !andb_true_iff, !N.leb_le, !N.eqb_eq in *. lia.
Qed.

(** The characters of a slug. *)
Lemma slugify_name_chars name :
  let l0 := Py.sub_runs Py.is_word false (Py.chars (Py.strip (Py.or_str name ""))) in
  let l1 := match l0 with
            | [] => ["E"%char; "_"%char]
            | c :: _ => if Py.isdigit c then "E"%char :: "_"%char :: l0 else l0
            end in
  Py.chars (slugify_name name) = take 40 l1.
Proof.
  cbn zeta. unfold slugify_name, Py.sub_non_word_underscore.
  set (l0 := Py.sub_runs _ _ _).
  set (s := match Py.str l0 with EmptyString => _ | _ => _ end).
  set (l1 := match l0 with [] => _ | _ => _ end).
  assert (Py.chars s = l1) as Hs.
  { subst s l1. destruct l0 as [|c l0]; [done|]. cbn [Py.str string_of_list_ascii].
    destruct (Py.isdigit c).
    - change (String c (string_of_list_ascii l0)) with (Py.str (c :: l0)).
      by rewrite chars_app, chars_str.
    - apply (chars_str (c :: l0)). }
  rewrite len_chars, Hs.
  destruct (40 <? length l1)%nat eqn:E.
  - unfold Py.slice_to. by rewrite chars_str, Hs.
  - apply Nat.ltb_ge in E. by rewrite Hs, take_ge.
Qed.

(** Replacing a one-character pattern works character by character. *)
Lemma replace_char_flat_map a new l :
  Py.replace_chars [a] new 0 l = flat_map (fun c => if Ascii.eqb a c then new else [c]) l.
Proof.
  induction l as [|c l IH]; [done|].
  cbn [Py.replace_chars Py.starts_with_chars flat_map length Nat.sub].
  destruct (Ascii.eqb a c); [by rewrite IH|].
  by rewrite IH.
Qed.

Lemma flat_map_flat_map {A B C : Type} (f : A -> list B) (g : B -> list C) l :
  flat_map g (flat_map f l) = flat_map (fun a => flat_map g (f a)) l.
Proof.
  induction l as [|a l IH]; [done|]. simpl. by rewrite flat_map_app, IH.
Qed.

Lemma puml_escape_inline_chars text :
  Py.chars (puml_escape_inline text) = flat_map escape_char (Py.chars text).
Proof.
  unfold puml_escape_inline, Py.replace. rewrite !chars_str.
  change (Py.chars Py.dquote) with ["034"%char].
  change (Py.chars "\") with ["\"%char].
  rewrite !replace_char_flat_map, flat_map_flat_map.
  apply flat_map_ext. intros c.
  change (Py.chars "\\") with ["\"%char; "\"%char].
  change (Py.chars ("\" +:+ Py.dquote)) with ["\"%char; "034"%char].
  unfold escape_char, Py.code.
  destruct (Ascii.eqb_spec "\"%char c) as [<-|H1]; [done|].
  destruct (Ascii.eqb_spec "034"%char c) as [<-|H2]; [done|].
  cbn [flat_map app]. rewrite (proj2 (Ascii.eqb_neq _ _) H2).
  destruct (N.eqb_spec (N_of_ascii c) 92) as [E|_].
  { destruct H1. rewrite <- (ascii_N_embedding c), E. done. }
  destruct (N.eqb_spec (N_of_ascii c) 34) as [E|_]; [|done].
  destruct H2. rewrite <- (ascii_N_embedding c), E. done.
Qed.

Lemma escape_char_cases c :
  (escape_char c = ["\"%char; c] /\ (c = "\"%char \/ c = "034"%char)) \/
  (escape_char c = [c] /\ c <> "\"%char).
Proof.
  unfold escape_char, Py.code.
  destruct (N.eqb_spec (N_of_ascii c) 92) as [E|N1].
  { left. split; [done|]. left. by rewrite <- (ascii_N_embedding c), E. }
  destruct (N.eqb_spec (N_of_ascii c) 34) as [E|N2].
  { left. split; [done|]. right. by rewrite <- (ascii_N_embedding c), E. }
  right. split; [done|]. intros ->. by apply N1.
Qed.

Lemma flat_map_escape_inj l1 l2 :
  flat_map escape_char l1 = flat_map escape_char l2 -> l1 = l2.
Proof.
  revert l2. induction l1 as [|c1 l1 IH]; intros [|c2 l2]; simpl.
  - done.
  - destruct (escape_char_cases c2) as [[-> _]|[-> _]]; done.
  - destruct (escape_char_cases c1) as [[-> _]|[-> _]]; done.
  - destruct (escape_char_cases c1) as [[-> H1]|[-> H1]],
             (escape_char_cases c2) as [[-> H2]|[-> H2]]; simpl.
    + intros [= -> H]. f_equal. by apply IH.
    + intros [= <- _]. done.
    + intros [= -> _]. done.
    + intros [= -> H]. f_equal. by apply IH.
Qed.

(** ** Decimal numerals *)

Lemma string_of_uint_digits d :
  Forall digit (Py.chars (DecimalString.NilEmpty.string_of_uint d)).
Proof. induction d; simpl; constructor; done. Qed.

Lemma str_of_int_digits n :
  (0 <= n)%Z ->
  Forall digit (Py.chars (Py.str_of_int n)) /\ Py.chars (Py.str_of_int n) <> [].
Proof.
  intros Hn. unfold Py.str_of_int. destruct n as [|p|p]; [|
    |lia].
  - split; [by repeat constructor|done].
  - cbn [Z.to_int DecimalString.NilZero.string_of_int].
    pose proof (DecimalPos.Unsigned.to_uint_nonnil p) as Hnil.
    destruct (Pos.to_uint p) eqn:E; [done|..];
      (split; [apply (string_of_uint_digits _)|done]).
Qed.

Lemma str_of_int_inj n m : Py.str_of_int n = Py.str_of_int m -> n = m.
Proof.
  unfold Py.str_of_int. intros H. apply DecimalZ.to_int_inj.
  assert (forall z, Z.to_int z <> Decimal.Pos Decimal.Nil /\
                    Z.to_int z <> Decimal.Neg Decimal.Nil) as Hz.
  { intros [|p|p]; simpl; split; try done;
      intros [= E]; by apply (DecimalPos.Unsigned.to_uint_nonnil p). }
  pose proof (DecimalString.NilZero.isi _ (proj1 (Hz n)) (proj2 (Hz n))) as H1.
  pose proof (DecimalString.NilZero.isi _ (proj1 (Hz m)) (proj2 (Hz m))) as H2.
  rewrite H in H1. congruence.
Qed.

Lemma digit_is_word c : digit c -> Py.is_word c = true.
Proof. unfold digit, Py.is_word, Py.is_alnum. intros ->. by rewrite !orb_true_r. Qed.

Lemma digit_not_underscore c : digit c -> c <> "_"%char.
Proof. intros H ->. done. Qed.

(** A token that ends in an underscore and a numeral splits in one way. *)
Lemma suffix_split (b1 b2 d1 d2 : list ascii) :
  Forall digit d1 -> Forall digit d2 ->
  b1 ++ "_"%char :: d1 = b2 ++ "_"%char :: d2 -> b1 = b2 /\ d1 = d2.
Proof.
  intros H1 H2 E.
  assert (rev d1 ++ "_"%char :: rev b1 = rev d2 ++ "_"%char :: rev b2) as E'.
  { apply (f_equal (@rev ascii)) in E.
    rewrite !rev_app_distr in E. simpl in E. by rewrite <- !app_assoc in E. }
  apply Forall_rev in H1, H2. 
  assert (rev d1 = rev d2 /\ rev b1 = rev b2) as [Ed Eb].
  { revert H1 H2 E'. generalize (rev d1) (rev d2) (rev b1) (rev b2).
    intros x. induction x as [|c x IH]; intros [|c' y] u v Hx Hy; simpl.
    - by intros [= ->].
    - intros [= <- _]. inversion Hy as [|? ? Hc _]. by destruct (digit_not_underscore _ Hc).
    - intros [= -> _]. inversion Hx as [|? ? Hc _]. by destruct (digit_not_underscore _ Hc).
    - intros [= -> E'']. inversion Hx; inversion Hy; subst.
      destruct (IH y u v) as [-> ->]; done. }
  split.
  - by rewrite <- (rev_involutive b1), Eb, rev_involutive.
  - by rewrite <- (rev_involutive d1), Ed, rev_involutive.
Qed.

End TextFacts.

Section TextTheorems.
Import utils.

(** X5. Whatever the display name, [slugify_name] returns an identifier:
    at least one and at most 40 characters, each of them a letter, a
    decimal digit or an underscore, the first one no digit. *)
Theorem slugify_name_identifier (name : string) :
  identifier (slugify_name name) /\ (1 <= Py.len (slugify_name name) <= 40)%nat.
Proof.
  unfold identifier. rewrite len_chars, slugify_name_chars.
  set (l0 := Py.sub_runs _ _ _).
  assert (Forall (fun c => Py.is_word c = true) l0) as H0 by (by apply sub_runs_keep).
  set (l1 := match l0 with [] => _ | _ => _ end).
  assert (Forall (fun c => Py.is_word c = true) l1 /\
          exists c r, l1 = c :: r /\ Py.in_range 48 57 c = false) as [H1 (c & r & -> & Hc)].
  { subst l1. destruct l0 as [|c l0]; [split; [by repeat constructor|by eexists _, _]|].
    destruct (Py.isdigit c) eqn:E.
    - split; [by do 2 (constructor; [done|])|by eexists _, _].
    - split; [done|]. exists c, l0. split; [done|].
      rewrite <- (is_word_not_superscript c); [done|by inversion H0]. }
  cbn [take]. split; [split; [done|]|].
  - change (c :: take 39 r) with (take 40 (c :: r)). by apply Forall_take.
  - rewrite length_cons, length_take. lia.
Qed.

(** X6. [puml_escape_inline] works character by character: it puts a
    backslash before every backslash and every double quote of the text
    and leaves the other characters as they are (the second replacement
    does not touch what the first one wrote); so two different texts never
    have the same escaped form. *)
Theorem puml_escape_inline_faithful (text text' : string) :
  puml_escape_inline text = Py.str (flat_map escape_char (Py.chars text)) /\
  (puml_escape_inline text = puml_escape_inline text' -> text = text').
Proof.
  split.
  - by rewrite <- puml_escape_inline_chars, str_chars.
  - intros H. apply chars_inj, flat_map_escape_inj.
    by rewrite <- !puml_escape_inline_chars, H.
Qed.

Lemma puml_escape_inline_faithful_witness :
  puml_escape_inline "a\b" = "a\\b" /\ "a\b" = "a\b".
Proof.
  destruct (puml_escape_inline_faithful "a\b" "a\b") as [H1 H2].
  split; [by rewrite H1|by apply H2].
Defined.

End TextTheorems.

(* ===================================================================== *)
(** * Further properties of the alias allocator                            *)
(* ===================================================================== *)

Section AllocatorFacts.
Import utils.

Lemma identifier_intro c l :
  Py.in_range 48 57 c = false ->
  Forall (fun c => Py.is_word c = true) (c :: l) ->
  identifier (Py.str (c :: l)).
Proof. intros H1 H2. unfold identifier. rewrite chars_str. done. Qed.

Lemma identifier_chars s :
  identifier s ->
  exists c l, Py.chars s = c :: l /\ Py.in_range 48 57 c = false /\
              Forall (fun c => Py.is_word c = true) (c :: l).
Proof.
  unfold identifier. destruct (Py.chars s) as [|c l]; [done|].
  intros [H1 H2]. by exists c, l.
Qed.

Lemma identifier_app s t :
  identifier s -> Forall (fun c => Py.is_word c = true) (Py.chars t) ->
  identifier (s +:+ t).
Proof.
  intros (c & l & E & H1 & H2)%identifier_chars Ht.
  unfold identifier. rewrite chars_app, E. simpl. split; [done|].
  rewrite app_comm_cons. by apply Forall_app.
Qed.

Lemma digits_word l : Forall digit l -> Forall (fun c => Py.is_word c = true) l.
Proof. intros H. eapply Forall_impl; [exact H|]. intros c. apply digit_is_word. Qed.

Lemma str_of_int_word n :
  (0 <= n)%Z -> Forall (fun c => Py.is_word c = true) (Py.chars (Py.str_of_int n)).
Proof. intros H. by apply digits_word, str_of_int_digits. Qed.

Lemma sanitize_alias_identifier env draws guid :
  identifier (sanitize_alias env draws guid).1.
Proof.
  unfold sanitize_alias. destruct (negb (Py.truthy guid)); cbn [fst].
  - apply (identifier_app "E_"); [by split; [|repeat constructor]|].
    apply str_of_int_word. lia.
  - apply (identifier_app "E_"); [by split; [|repeat constructor]|].
    unfold Py.slice_to. rewrite chars_str. apply Forall_take.
    destruct (negb (Py.truthy (Py.sub_non_alnum_empty guid))).
    + rewrite chars_app. apply Forall_app. split; [by repeat constructor|].
      apply str_of_int_word. apply Z.mod_pos_bound. lia.
    + unfold Py.sub_non_alnum_empty. rewrite chars_str.
      apply Forall_forall. intros c [Hc _]%list_elem_of_filter.
      simpl in Hc. unfold Py.is_word. by rewrite Hc.
Qed.

Lemma make_counts_nonneg env self draws guid name :
  counts_nonneg self ->
  counts_nonneg (AliasFactory.make env self draws guid name).1.2.
Proof.
  intros Hc. unfold AliasFactory.make.
  destruct (String.eqb _ "uuid"); [by destruct (sanitize_alias _ _ _)|].
  destruct (String.eqb _ "human"); [|done]. unfold counts_nonneg. simpl.
  intros b n. destruct (decide (b = Py.or_str (slugify_name name) "E")) as [->|Hne].
  - rewrite lookup_insert_eq. intros [= <-].
    destruct (AliasFactory.counts self !! _) as [m|] eqn:E; simpl; [|lia].
    specialize (Hc _ _ E). lia.
  - rewrite lookup_insert_ne by done. apply Hc.
Qed.

Lemma make_identifier env self draws guid name :
  counts_nonneg self ->
  AliasFactory.mode self = "uuid" \/ AliasFactory.mode self = "human" ->
  identifier (AliasFactory.make env self draws guid name).1.1.
Proof.
  intros Hc Hm. unfold AliasFactory.make.
  destruct (String.eqb_spec (AliasFactory.mode self) "uuid") as [Hu|Hu].
  { pose proof (sanitize_alias_identifier env draws guid) as H.
    by destruct (sanitize_alias env draws guid). }
  destruct Hm as [Hm|Hm]; [done|]. rewrite Hm. cbn [String.eqb Ascii.eqb Bool.eqb fst].
  rewrite (or_str_truthy _ _ (slugify_name_truthy name)).
  pose proof (proj1 (slugify_name_identifier name)) as Hid.
  destruct (AliasFactory.counts self !! slugify_name name) as [n|] eqn:E; simpl; [|done].
  specialize (Hc _ _ E).
  destruct (n =? 0)%Z; [done|].
  apply identifier_app; [done|]. rewrite chars_app. apply Forall_app.
  split; [by repeat constructor|]. apply str_of_int_word. lia.
Qed.

Lemma make_all_length env self draws calls :
  length (AliasFactory.make_all env self draws calls) = length calls.
Proof.
  revert self draws. induction calls as [|[g n] calls IH]; intros self draws; [done|].
  cbn [AliasFactory.make_all].
  destruct (AliasFactory.make env self draws g n) as [[a self'] draws'].
  simpl. by rewrite IH.
Qed.

Lemma make_all_identifiers env self draws calls :
  counts_nonneg self ->
  AliasFactory.mode self = "uuid" \/ AliasFactory.mode self = "human" ->
  Forall identifier (AliasFactory.make_all env self draws calls).
Proof.
  revert self draws. induction calls as [|[g n] calls IH]; intros self draws Hc Hm;
    [constructor|].
  cbn [AliasFactory.make_all].
  pose proof (make_identifier env self draws g n Hc Hm) as Hid.
  pose proof (make_counts_nonneg env self draws g n Hc) as Hc'.
  pose proof (make_mode env self draws g n) as Hm'.
  destruct (AliasFactory.make env self draws g n) as [[a self'] draws'].
  simpl in *. constructor; [done|]. apply IH; [done|]. by rewrite Hm'.
Qed.

Lemma make_all_name_mode env self draws calls :
  AliasFactory.mode self <> "uuid" -> AliasFactory.mode self <> "human" ->
  Forall (fun a => a = "") (AliasFactory.make_all env self draws calls).
Proof.
  intros Hu Hh. revert draws. induction calls as [|[g n] calls IH]; intros draws;
    [constructor|].
  cbn [AliasFactory.make_all]. unfold AliasFactory.make.
  rewrite (proj2 (String.eqb_neq _ _) Hu), (proj2 (String.eqb_neq _ _) Hh).
  constructor; [done|apply IH].
Qed.

(** The calls before call [j] with its base slug are more than those
    before an earlier call [i] with the same slug. *)
Lemma same_base_count_lt (calls : list (string * string)) i j b c :
  (i < j)%nat -> calls !! i = Some c -> same_base b c ->
  (length (filter (same_base b) (take i calls))
   < length (filter (same_base b) (take j calls)))%nat.
Proof.
  intros Hij Hi Hb.
  assert (take j calls = take i calls ++ c :: take (j - S i) (drop (S i) calls)) as ->.
  { pose proof (lookup_lt_Some _ _ _ Hi) as Hlen.
    rewrite <- (take_drop_middle calls i c Hi) at 1.
    replace j with (i + S (j - S i))%nat at 1 by lia.
    rewrite take_app_add' by (rewrite length_take; lia). done. }
  rewrite filter_app, filter_cons_True by done.
  rewrite length_app. simpl. lia.
Qed.

End AllocatorFacts.

Section AllocatorTheorems.
Import utils.

(** X7. In uuid and in human mode every alias the allocator returns in a
    run is an identifier: not empty, made of letters, decimal digits and
    underscores, and not starting with a digit. In any other mode every
    alias is the empty string. *)
Theorem aliases_are_identifiers (env : Env) (mode : string) (draws : nat)
    (calls : list (string * string)) :
  (mode = "uuid" \/ mode = "human" ->
   Forall identifier (AliasFactory.make_all env (AliasFactory.init mode) draws calls)) /\
  (mode <> "uuid" -> mode <> "human" ->
   Forall (fun a => a = "") (AliasFactory.make_all env (AliasFactory.init mode) draws calls)).
Proof.
  split.
  - intros Hm. apply make_all_identifiers; [|done].
    intros b n. cbn. by rewrite lookup_empty.
  - intros Hu Hh. by apply make_all_name_mode.
Qed.

Lemma aliases_are_identifiers_witness :
  Forall identifier
    (AliasFactory.make_all Examples.env_a (AliasFactory.init "human") 0
       [("g1", "2 fast"); ("g2", "2 fast"); ("g3", "")]).
Proof.
  apply (proj1 (aliases_are_identifiers Examples.env_a "human" 0
                  [("g1", "2 fast"); ("g2", "2 fast"); ("g3", "")])).
  right. reflexivity.
Defined.

(** X8. In human mode the aliases of a run are pairwise different provided
    no base slug of the run is another base slug of the run followed by an
    underscore and a number from 2 on. *)
Theorem human_aliases_distinct (env : Env) (calls : list (string * string)) :
  (forall i j gi ni gj nj k,
     calls !! i = Some (gi, ni) -> calls !! j = Some (gj, nj) -> (2 <= k)%Z ->
     slugify_name ni <> slugify_name nj +:+ "_" +:+ Py.str_of_int k) ->
  NoDup (AliasFactory.make_all env (AliasFactory.init "human") 0 calls).
Proof.
  intros Hfree. apply NoDup_alt. intros i j a Hi Hj.
  assert (forall i a, AliasFactory.make_all env (AliasFactory.init "human") 0 calls !! i = Some a ->
            exists g n, calls !! i = Some (g, n)) as Hcall.
  { intros i' a' H. apply lookup_lt_Some in H. rewrite make_all_length in H.
    destruct (lookup_lt_is_Some_2 calls i' H) as [[g n] E]. by exists g, n. }
  destruct (Hcall _ _ Hi) as (gi & ni & Ei). destruct (Hcall _ _ Hj) as (gj & nj & Ej).
  rewrite (make_all_human_lookup env (AliasFactory.init "human") 0 calls i gi ni eq_refl Ei) in Hi.
  rewrite (make_all_human_lookup env (AliasFactory.init "human") 0 calls j gj nj eq_refl Ej) in Hj.
  cbn [AliasFactory.init AliasFactory.counts] in Hi, Hj.
  rewrite lookup_empty in Hi, Hj. cbn [default] in Hi, Hj. rewrite !Z.add_0_l in Hi, Hj.
  set (ci := length (filter (same_base (slugify_name ni)) (take i calls))) in *.
  set (cj := length (filter (same_base (slugify_name nj)) (take j calls))) in *.
  assert (forall (b : string) (k : Z), (0 <= k)%Z -> b +:+ "_" +:+ Py.str_of_int k <> b) as Hlen.
  { intros b k Hk E. apply (f_equal Py.len) in E. rewrite !len_chars, !chars_app in E.
    rewrite !length_app in E. simpl in E. lia. }
  assert (forall (b b' : string) (k k' : Z), (0 <= k)%Z -> (0 <= k')%Z ->
            b +:+ "_" +:+ Py.str_of_int k = b' +:+ "_" +:+ Py.str_of_int k' ->
            b = b' /\ k = k') as Hsplit.
  { intros b b' k k' Hk Hk' E. apply (f_equal Py.chars) in E.
    rewrite !chars_app in E. cbn [Py.chars list_ascii_of_string app] in E.
    apply suffix_split in E as [Eb Ed]; [|by apply str_of_int_digits..].
    split; [by apply chars_inj|]. by apply str_of_int_inj, chars_inj. }
  destruct (decide (slugify_name ni = slugify_name nj)) as [Eb|Nb].
  - (* the same base slug: the counts tell the calls apart *)
    assert (ci = cj) as Ec.
    { destruct (Z.eqb_spec (Z.of_nat ci) 0) as [Zi|Zi],
               (Z.eqb_spec (Z.of_nat cj) 0) as [Zj|Zj];
        injection Hi as <-; injection Hj as Hj.
      - lia.
      - rewrite Eb in Hj. by apply Hlen in Hj; [|lia].
      - rewrite Eb in Hj. symmetry in Hj. by apply Hlen in Hj; [|lia].
      - apply Hsplit in Hj as [_ ?]; lia. }
    destruct (Nat.lt_trichotomy i j) as [Hlt|[->|Hlt]]; [|done|].
    + pose proof (same_base_count_lt calls i j (slugify_name nj) (gi, ni) Hlt Ei Eb) as H.
      subst ci cj. rewrite Eb in Ec. lia.
    + pose proof (same_base_count_lt calls j i (slugify_name ni) (gj, nj) Hlt Ej
                    (eq_sym Eb)) as H.
      subst ci cj. rewrite <- Eb in Ec. lia.
  - (* different base slugs: equal aliases would make one the suffixed other *)
    exfalso.
    destruct (Z.eqb_spec (Z.of_nat ci) 0) as [Zi|Zi],
             (Z.eqb_spec (Z.of_nat cj) 0) as [Zj|Zj];
      injection Hi as <-; injection Hj as Hj.
    + by apply Nb.
    + apply (Hfree i j gi ni gj nj (Z.of_nat cj + 1)%Z Ei Ej); [lia|done].
    + apply (Hfree j i gj nj gi ni (Z.of_nat ci + 1)%Z Ej Ei); [lia|done].
    + apply Hsplit in Hj as [? _]; [|lia..]. by apply Nb.
Qed.

Lemma human_aliases_distinct_witness :
  NoDup (AliasFactory.make_all Examples.env_a (AliasFactory.init "human") 0
           [("g1", "Foo"); ("g2", "Foo"); ("g3", "Bar")]).
Proof.
  apply human_aliases_distinct.
  intros i j gi ni gj nj k Hi Hj Hk E.
  apply (f_equal Py.chars) in E. rewrite !chars_app in E.
  destruct i as [|[|[|i]]]; simplify_eq/=;
    destruct j as [|[|[|j]]]; simplify_eq/=.
Defined.

(** X9. In uuid mode the alias of a GUID with an alphanumeric character is
    [E_] followed by its first 16 alphanumeric characters, so it has at
    most 18 characters, and two GUIDs that agree on these 16 characters
    get the same alias whatever follows. *)
Theorem uuid_alias_prefix (env : Env) (self : AliasFactory.t) (draws : nat)
    (guid guid' name name' : string) :
  AliasFactory.mode self = "uuid" ->
  guid_stable guid -> guid_stable guid' ->
  take 16 (filter (fun c => Py.is_alnum c = true) (Py.chars guid)) =
  take 16 (filter (fun c => Py.is_alnum c = true) (Py.chars guid')) ->
  (AliasFactory.make env self draws guid name).1.1 =
  (AliasFactory.make env self draws guid' name').1.1 /\
  (Py.len (AliasFactory.make env self draws guid name).1.1 <= 18)%nat.
Proof.
  intros Hm Hg Hg' E. unfold AliasFactory.make. rewrite Hm.
  cbn [String.eqb Ascii.eqb Bool.eqb].
  rewrite !sanitize_alias_stable by done. cbn [fst].
  unfold Py.slice_to, Py.sub_non_alnum_empty. rewrite !chars_str, E. split; [done|].
  rewrite len_chars, chars_app, chars_str, length_app, length_take.
  change (length (Py.chars "E_")) with 2%nat. lia.
Qed.

Lemma uuid_alias_prefix_witness :
  (AliasFactory.make Examples.env_a (AliasFactory.init "uuid") 0
     "{01234567-89AB-CDEF-0000-000000000001}" "A").1.1 =
  (AliasFactory.make Examples.env_a (AliasFactory.init "uuid") 0
     "{01234567-89AB-CDEF-1111-000000000002}" "B").1.1.
Proof.
  apply (uuid_alias_prefix Examples.env_a (AliasFactory.init "uuid") 0
           "{01234567-89AB-CDEF-0000-000000000001}"
           "{01234567-89AB-CDEF-1111-000000000002}" "A" "B");
    by vm_compute.
Defined.

End AllocatorTheorems.

(* ===================================================================== *)
(** * Further properties of the grouping pass                              *)
(* ===================================================================== *)

Section OrderFacts.
Import EAPlantUMLExporter.

Lemma key_le_refl a : Py.key_le a a = true.
Proof.
  destruct (Py.key_le a a) eqn:E; [done|]. pose proof (key_le_total _ _ E). congruence.
Qed.

(** [sorted] is stable: the elements of one key keep their order. *)
Lemma insert_sorted_filter {A : Type} (key : A -> Z * Z) (k : Z * Z) x l :
  filter (fun a => key a = k) (Py.insert_sorted key x l) =
  filter (fun a => key a = k) (x :: l).
Proof.
  induction l as [|y l IH]; [done|]. simpl.
  destruct (Py.key_le (key x) (key y)) eqn:E; [done|].
  rewrite filter_cons, IH, !filter_cons.
  destruct (decide (key y = k)) as [Hy|Hy], (decide (key x = k)) as [Hx|Hx]; try done.
  rewrite Hx, Hy, key_le_refl in E. done.
Qed.

Lemma sorted_filter {A : Type} (key : A -> Z * Z) (k : Z * Z) l :
  filter (fun a => key a = k) (Py.sorted key l) = filter (fun a => key a = k) l.
Proof.
  induction l as [|x l IH]; [done|].
  change (Py.sorted key (x :: l)) with (Py.insert_sorted key x (Py.sorted key l)).
  by rewrite insert_sorted_filter, !filter_cons, IH.
Qed.

Lemma filter_ext_elem {A : Type} (f g : A -> bool) (l : list A) :
  (forall a, a ∈ l -> f a = g a) ->
  filter (fun a => f a = true) l = filter (fun a => g a = true) l.
Proof.
  induction l as [|a l IH]; intros H; [done|].
  rewrite !filter_cons, IH by (intros; apply H; by right).
  rewrite (H a) by left. done.
Qed.

(** The members of a package, as [gather] lists them, make the block the
    filter of the shapes by [declared_in]. *)
Lemma block_members_filter st pkg els guids ms :
  (forall g el, (g, el) ∈ els -> Py.get (elements st) g = Some el) ->
  members_of (pkg_guid pkg) (pkg_rect pkg) els = Ok guids ->
  block_members st guids = Ok ms ->
  ms = filter (fun ge => declared_in pkg ge = true) els.
Proof.
  revert guids ms. induction els as [|[g el] els IH]; intros guids ms Hget; simpl.
  - intros [= <-]. simpl. by intros [= <-].
  - assert (forall g' el', (g', el') ∈ els -> Py.get (elements st) g' = Some el') as Hget'.
    { intros; apply Hget; by right. }
    rewrite filter_cons.
    assert (declared_in pkg (g, el) =
            negb (String.eqb g (pkg_guid pkg)) && negb (String.eqb (el_type el) "Package") &&
            match inside (el_rect el) (pkg_rect pkg) with Ok true => true | _ => false end)
      as Hd by done.
    destruct (String.eqb g (pkg_guid pkg)) eqn:Eg.
    { rewrite decide_False by (by rewrite Hd). by apply IH. }
    destruct (inside (el_rect el) (pkg_rect pkg)) as [ins|e]; simpl; [|done].
    destruct (members_of _ _ els) as [rest|e] eqn:Er; simpl; [|done].
    intros [= <-]. destruct ins.
    + simpl. rewrite (Hget g el) by left.
      destruct (block_members st rest) as [r|e] eqn:Eb; simpl; [|done].
      intros [= <-]. rewrite (IH rest r Hget' eq_refl Eb).
      destruct (String.eqb (el_type el) "Package").
      * by rewrite decide_False by (by rewrite Hd).
      * by rewrite decide_True by (by rewrite Hd).
    + intros Hb. rewrite decide_False by (rewrite Hd, andb_false_r; done).
      by apply (IH rest).
Qed.

End OrderFacts.

Section OrderTheorems.
Import EAPlantUMLExporter.

(** X10. The sort of the package blocks is stable: in [sorted_pkgs], the
    list the blocks are rendered from, the packages with one and the same
    top-left corner come in the order in which [gather] recorded them. *)
Theorem package_order_stable (st : State) (k : Z * Z) :
  filter (fun p => pkg_key p = k) (sorted_pkgs st) =
  filter (fun p => pkg_key p = k) (Py.values (packages st)).
Proof. apply sorted_filter. Qed.

(** X11. After [gather] a package block declares its shapes in the order
    of ingestion, each once: the block is the list of shapes filtered by
    the membership test. The leftovers are the shapes, in the same order,
    that are no packages and pass the test of no block. *)
Theorem blocks_in_ingestion_order (env : Env) (cfg : Config) (repo : EA.Repository)
    (depth : nat) (diagram : EA.Diagram) (cx cy : Z) (st : State) :
  gather env cfg repo depth diagram cx cy (init cfg) = Ok st ->
  exists bs,
    blocks st = Ok bs /\
    Forall (fun b => snd b = filter (fun ge => declared_in (fst b) ge = true) (elements st)) bs /\
    leftovers st bs = filter (fun ge => undeclared bs ge = true) (elements st).
Proof.
  intros Hg.
  destruct (gather_blocks_ok env cfg repo _ _ _ _ _ Hg) as [bs Hb].
  exists bs. split; [done|].
  pose proof (gather_collected env cfg repo _ _ _ _ _ _ (init_collected cfg) Hg) as Hc.
  assert (forall pkg ms, (pkg, ms) ∈ bs ->
            ms = filter (fun ge => declared_in pkg ge = true) (elements st)) as Hblocks.
  { intros pkg ms Hin.
    destruct (blocks_of_spec _ _ _ Hb) as [Hfst Hbm].
    assert (pkg ∈ sorted_pkgs st) as Hpkg.
    { rewrite <- Hfst. apply list_elem_of_fmap. by exists (pkg, ms). }
    apply sorted_pkgs_elem in Hpkg as [k Hk].
    destruct (gather_members env cfg repo _ _ _ _ _ _ (init_collected cfg) Hg k pkg Hk)
      as (guids & Hms & Hlook).
    specialize (Hbm _ _ Hin).
    rewrite (packages_guid _ Hc _ _ Hk), Hlook in Hbm. simpl in Hbm.
    rewrite <- (packages_guid _ Hc _ _ Hk) in Hms.
    apply (block_members_filter st pkg (elements st) guids ms); [|done..].
    intros g el. apply elem_get, Hc. }
  split; [apply Forall_forall; intros [pkg ms] Hin; by apply Hblocks|].
  unfold leftovers. apply filter_ext_elem. intros [g el] Hel.
  unfold undeclared. cbn [fst snd]. rewrite negb_orb. f_equal.
  apply Bool.eq_true_iff_eq. rewrite negb_true_iff, forallb_forall. split.
  - intros Hem [pkg ms] Hin%list_elem_of_In. cbn [fst].
    apply negb_true_iff. destruct (declared_in pkg (g, el)) eqn:Ed; [|done].
    assert (existsb (String.eqb g) (emitted bs) = true); [|congruence].
    apply emitted_spec. exists pkg, ms, el. split; [done|].
    rewrite (Hblocks _ _ Hin). by apply list_elem_of_filter.
  - intros Hall. destruct (existsb _ _) eqn:Hem; [|done].
    apply emitted_spec in Hem as (pkg & ms & el' & Hin & Hms).
    rewrite (Hblocks _ _ Hin) in Hms. apply list_elem_of_filter in Hms as [Hd Hel'].
    assert (el' = el) as ->.
    { apply (elem_get _ _ _ (elements_nodup _ Hc)) in Hel, Hel'. congruence. }
    specialize (Hall (pkg, ms) (proj1 (list_elem_of_In _ _) Hin)). cbn [fst] in Hall.
    by rewrite Hd in Hall.
Qed.

Lemma blocks_in_ingestion_order_witness :
  exists bs,
    blocks Examples.gathered = Ok bs /\
    Forall (fun b => snd b = filter (fun ge => declared_in (fst b) ge = true)
                               (elements Examples.gathered)) bs /\
    leftovers Examples.gathered bs =
      filter (fun ge => undeclared bs ge = true) (elements Examples.gathered).
Proof.
  apply (blocks_in_ingestion_order Examples.env_a Examples.cfg_human
           (Examples.repository (Examples.overlapping []))
           (recursion_limit Examples.env_a)
           (Examples.overlapping []) 0 0 Examples.gathered).
  vm_compute. reflexivity.
Defined.

End OrderTheorems.

(* ===================================================================== *)
(** * Further properties of the connectors                                 *)
(* ===================================================================== *)

Section EndpointFacts.
Import EAPlantUMLExporter.

Variable env : Env.
Variable cfg : Config.
Variable repo : EA.Repository.

Lemma keys_set_mono {V} (d : list (string * V)) k v k' :
  k' ∈ Py.keys d -> k' ∈ Py.keys (Py.set d k v).
Proof.
  rewrite keys_set. destruct (Py.contains_key d k); [done|].
  intros H. apply elem_of_app. by left.
Qed.

Lemma keys_set_new {V} (d : list (string * V)) k v : k ∈ Py.keys (Py.set d k v).
Proof.
  rewrite keys_set. unfold Py.contains_key.
  destruct (Py.get d k) eqn:E.
  - apply get_Some_elem in E. by apply elem_keys in E.
  - apply elem_of_app. right. left.
Qed.

Lemma contains_key_keys {V} (d : list (string * V)) k :
  Py.contains_key d k = true -> k ∈ Py.keys d.
Proof.
  unfold Py.contains_key. destruct (Py.get d k) eqn:E; [|done].
  intros _. apply get_Some_elem in E. by apply elem_keys in E.
Qed.

Lemma keys_get {V} (d : list (string * V)) k :
  k ∈ Py.keys d -> exists v, Py.get d k = Some v.
Proof.
  intros H. destruct (Py.get d k) eqn:E; [eauto|]. by apply get_None_keys in E.
Qed.

Lemma omap_length_all {A B : Type} (f : A -> option B) (l : list A) :
  Forall (fun a => is_Some (f a)) l -> length (omap f l) = length l.
Proof.
  induction 1 as [|a l [b Hb] _ IH]; [done|].
  change (omap f (a :: l)) with (match f a with Some y => y :: omap f l | None => omap f l end).
  rewrite Hb. simpl. by f_equal.
Qed.

Lemma init_resolved : resolved (init cfg).
Proof.
  split; simpl.
  - intros id g. by rewrite lookup_empty.
  - intros k c H. by apply elem_of_nil in H.
Qed.

Lemma collect_resolved dObj cx cy st :
  resolved st -> resolved (collect env cfg repo dObj cx cy st).1.
Proof.
  intros [Hi He]. unfold collect.
  destruct (utils.AliasFactory.make _ _ _ _ _) as [[a f] d]. cbn [fst].
  split; cbn [elements connectors elemid_to_instuid].
  - intros id g. destruct (elemid_to_instuid st !! EA.do_ElementID dObj) eqn:E.
    + intros H. apply keys_set_mono. by eapply Hi.
    + destruct (decide (id = EA.do_ElementID dObj)) as [->|Hne].
      * rewrite lookup_insert_eq. intros [= <-]. apply keys_set_new.
      * rewrite lookup_insert_ne by done. intros H. apply keys_set_mono. by eapply Hi.
  - intros k c H. destruct (He k c H). split; by apply keys_set_mono.
Qed.

Lemma first_pass_resolved gather_sub objs cx cy st st' :
  (forall d x y s s', resolved s -> gather_sub d x y s = Ok s' -> resolved s') ->
  resolved st ->
  first_pass env cfg repo gather_sub objs cx cy st = Ok st' ->
  resolved st'.
Proof.
  intros Hsub. revert st.
  induction objs as [|dObj objs IH]; intros st Hst; simpl.
  - by intros [= <-].
  - pose proof (collect_resolved dObj cx cy st Hst) as Hc.
    destruct (collect env cfg repo dObj cx cy st) as [st1 el]. simpl in Hc.
    destruct (String.eqb (el_type el) "UMLDiagram").
    + destruct (gather_sub _ _ _ st1) as [st2|e] eqn:E; simpl; [|done].
      apply IH. by eapply Hsub.
    + simpl. by apply IH.
Qed.

Lemma resolved_ext st st' :
  elements st' = elements st -> connectors st' = connectors st ->
  elemid_to_instuid st' = elemid_to_instuid st ->
  resolved st -> resolved st'.
Proof. intros He Hc Hi [? ?]. split; rewrite ?He, ?Hc, ?Hi; done. Qed.

Lemma resolve_endpoint_placed st dlnk dconn which uid :
  resolved st ->
  resolve_endpoint_uid st dlnk dconn which = Some uid ->
  uid ∈ Py.keys (elements st).
Proof.
  intros [Hi _]. unfold resolve_endpoint_uid.
  destruct (_ && _) eqn:E.
  - intros [= <-]. apply andb_true_iff in E as [_ E]. by apply contains_key_keys.
  - apply Hi.
Qed.

Lemma add_link_resolved dLnk st :
  resolved st -> resolved (add_link cfg repo dLnk st).
Proof.
  intros Hr. unfold add_link. destruct (EA.IsHidden dLnk); [done|].
  destruct (resolve_endpoint_uid st dLnk _ source) as [s|] eqn:Es; [|done].
  destruct (resolve_endpoint_uid st dLnk _ target) as [t|] eqn:Et;
    [|by rewrite orb_true_r].
  destruct (_ || _); [done|].
  apply (resolve_endpoint_placed _ _ _ _ _ Hr) in Es, Et.
  destruct Hr as [Hi He]. split; cbn [elements connectors elemid_to_instuid set_connectors].
  - done.
  - intros k c [->|H]%elem_set_inv; [done|]. by eapply He.
Qed.

Lemma add_links_resolved links st :
  resolved st -> resolved (add_links cfg repo links st).
Proof.
  unfold add_links. revert st.
  induction links as [|l links IH]; intros st Hr; [done|].
  simpl. apply IH. by apply add_link_resolved.
Qed.

Lemma gather_resolved depth diagram cx cy st0 st :
  resolved st0 ->
  gather env cfg repo depth diagram cx cy st0 = Ok st ->
  resolved st.
Proof.
  revert diagram cx cy st0 st.
  induction depth as [|depth IH]; intros diagram cx cy st0 st H0 Hg; [done|].
  apply gather_inv in Hg as (d' & st1 & st2 & [= <-] & H1 & H2 & ->).
  apply first_pass_resolved in H1; [|eauto|done].
  apply second_pass_frame in H2 as (He & _ & Hc & Hi).
  apply add_links_resolved. by eapply resolved_ext.
Qed.

End EndpointFacts.

Section EndpointTheorems.
Import EAPlantUMLExporter.

(** X12. After [gather] both ends of every connector it recorded are
    shapes of [elements], so [render_connectors] skips none of them: it
    writes one line for each connector. *)
Theorem connectors_all_rendered (env : Env) (cfg : Config) (repo : EA.Repository)
    (depth : nat) (diagram : EA.Diagram) (cx cy : Z) (st : State) :
  gather env cfg repo depth diagram cx cy (init cfg) = Ok st ->
  Forall (fun c => exists src dst,
            Py.get (elements st) (source_uid c) = Some src /\
            Py.get (elements st) (target_uid c) = Some dst /\
            connector_line cfg st c =
              Some (ref_token cfg src +:+ " " +:+ colored cfg c (relation c) +:+ " " +:+
                    ref_token cfg dst +:+ connector_label cfg c))
    (Py.values (connectors st)) /\
  length (omap (connector_line cfg st) (Py.values (connectors st)))
  = length (connectors st).
Proof.
  intros Hg.
  pose proof (gather_resolved env cfg repo _ _ _ _ _ _ (init_resolved cfg) Hg) as [_ He].
  assert (Forall (fun c => exists src dst,
            Py.get (elements st) (source_uid c) = Some src /\
            Py.get (elements st) (target_uid c) = Some dst /\
            connector_line cfg st c =
              Some (ref_token cfg src +:+ " " +:+ colored cfg c (relation c) +:+ " " +:+
                    ref_token cfg dst +:+ connector_label cfg c))
            (Py.values (connectors st))) as Hall.
  { apply Forall_forall. intros c Hc. unfold Py.values in Hc.
    apply list_elem_of_fmap in Hc as ([k c'] & -> & Hin). simpl.
    destruct (He _ _ Hin) as [[src Hs]%keys_get [dst Hd]%keys_get].
    exists src, dst. unfold connector_line. by rewrite Hs, Hd. }
  split; [done|].
  rewrite <- (length_map snd (connectors st)). apply omap_length_all.
  eapply Forall_impl; [exact Hall|]. intros c (src & dst & _ & _ & ->). done.
Qed.

Lemma connectors_all_rendered_witness :
  length (omap (connector_line Examples.cfg_human
                  (Examples.gathered_with [Examples.good_link]))
            (Py.values (connectors (Examples.gathered_with [Examples.good_link]))))
  = length (connectors (Examples.gathered_with [Examples.good_link])).
Proof.
  apply (connectors_all_rendered Examples.env_a Examples.cfg_human
           (Examples.repository (Examples.overlapping []))
           (recursion_limit Examples.env_a)
           (Examples.overlapping [Examples.good_link]) 0 0
           (Examples.gathered_with [Examples.good_link])).
  vm_compute. reflexivity.
Defined.

(** X13. The relation token of a connector is one of ten, each beginning
    with one of the four two-character stems the colouring knows, so a
    connector with a line colour always gets it (the last branch of the
    colouring, for a token with a single dash, is never needed): the
    colour, in square brackets, goes in after the first character. *)
Theorem colored_relation (cfg : Config) (c : Conn) (hx : string) :
  include_colors cfg = true -> line_hex c = Some hx -> Py.truthy hx = true ->
  relation c ∈ ["-->"; "---"; "..>"; "..-"; "..|>"; "--|>"; "o->"; "o--"; "*->"; "*--"] /\
  colored cfg c (relation c) =
    Py.slice_to 1 (relation c) +:+ "[" +:+ hx +:+ "]" +:+ Py.slice_from 1 (relation c).
Proof.
  intros Hc Hl Ht. unfold colored. rewrite Hc, Hl, Ht. cbn [andb].
  unfold relation, relation_for_type.
  repeat (match goal with |- context [one_of ?t ?l] => destruct (one_of t l) end);
    cbn [String.eqb Ascii.eqb Bool.eqb];
    try (destruct (_ || _));
    (split; [set_solver|done]).
Qed.

Lemma colored_relation_witness :
  relation red_dependency = "..>" /\
  colored Examples.cfg_human red_dependency (relation red_dependency) = ".[#FF0000].>".
Proof.
  split; [reflexivity|].
  rewrite (proj2 (colored_relation Examples.cfg_human red_dependency "#FF0000"
                    eq_refl eq_refl eq_refl)).
  reflexivity.
Defined.

End EndpointTheorems.

(* ===================================================================== *)
(** * Further properties of the written file                               *)
(* ===================================================================== *)

Section FileFacts.

Lemma str_app_assoc (a b c : string) : (a +:+ b) +:+ c = a +:+ (b +:+ c).
Proof. apply chars_inj. by rewrite !chars_app, app_assoc. Qed.

Lemma str_app_empty_r (a : string) : a +:+ "" = a.
Proof. apply chars_inj. by rewrite chars_app, app_nil_r. Qed.

(** A joined list opens with its first part and closes with its last. *)
Lemma join_frame sep x l y :
  exists r, Py.join sep (x :: l ++ [y]) = x +:+ r +:+ y.
Proof.
  revert x. induction l as [|z l IH]; intros x.
  - by exists sep.
  - destruct (IH z) as [r Hr]. exists (sep +:+ z +:+ r).
    change (Py.join sep (x :: (z :: l) ++ [y]))
      with (x +:+ sep +:+ Py.join sep (z :: l ++ [y])).
    rewrite Hr. by rewrite !str_app_assoc.
Qed.

Lemma join_last sep l y : exists r, Py.join sep (l ++ [y]) = r +:+ y.
Proof.
  destruct l as [|x l]; [by exists ""|].
  destruct (join_frame sep x l y) as [r Hr]. exists (x +:+ r).
  rewrite <- app_comm_cons, Hr. by rewrite str_app_assoc.
Qed.

Lemma sub_runs_nonempty keep l : l <> [] -> Py.sub_runs keep false l <> [].
Proof. destruct l as [|c l]; [done|]. intros _. simpl. by destruct (keep c). Qed.

Lemma sub_non_filename_plain s :
  s <> "" -> plain_name (Py.sub_non_filename_underscore s).
Proof.
  intros Hs. unfold plain_name, Py.sub_non_filename_underscore. split.
  - intros E. apply (f_equal Py.chars) in E. rewrite chars_str in E.
    apply sub_runs_nonempty in E; [done|]. by destruct s.
  - rewrite chars_str. by apply sub_runs_keep.
Qed.

Lemma or_str_nonempty a b : b <> "" -> Py.or_str a b <> "".
Proof. unfold Py.or_str. by destruct a. Qed.

Lemma render_header_opens cfg diagram :
  exists r, EAPlantUMLExporter.render_header cfg diagram = "@startuml" +:+ r.
Proof.
  unfold EAPlantUMLExporter.render_header.
  set (title := "title " +:+ _).
  set (lines := match EAPlantUMLExporter.direction cfg with Some _ => _ | None => _ end).
  assert (exists l, lines = "@startuml" :: title :: l) as [l ->].
  { subst lines. destruct (EAPlantUMLExporter.direction cfg) as [d|]; [|by exists []].
    destruct (String.eqb d "LR"); [by eexists|].
    destruct (String.eqb d "TB"); by eexists. }
  set (lines := if EAPlantUMLExporter.skin cfg then _ else _).
  assert (exists l', lines = "@startuml" :: title :: l') as [l' ->].
  { subst lines. destruct (EAPlantUMLExporter.skin cfg); by eexists. }
  set (lines := if EAPlantUMLExporter.autolayout cfg then _ else _).
  assert (exists l'', lines = "@startuml" :: title :: l'') as [l'' ->].
  { subst lines. destruct (EAPlantUMLExporter.autolayout cfg); by eexists. }
  destruct (join_frame Py.newline "@startuml" (title :: l'') "") as [r Hr].
  exists r. rewrite <- !app_comm_cons in *. rewrite Hr. by rewrite str_app_empty_r.
Qed.

Lemma render_framed cfg diagram st text :
  EAPlantUMLExporter.render cfg diagram st = Ok text -> framed text.
Proof.
  unfold EAPlantUMLExporter.render.
  set (body := if EAPlantUMLExporter.is_sequence_diagram diagram then _ else _).
  destruct body as [body|e]; cbn [rbind]; [|done]. intros [= <-].
  change (framed (Py.join Py.newline
            (EAPlantUMLExporter.render_header cfg diagram
             :: body ++ [EAPlantUMLExporter.render_footer]))).
  destruct (join_frame Py.newline (EAPlantUMLExporter.render_header cfg diagram) body
              EAPlantUMLExporter.render_footer) as [r ->].
  destruct (render_header_opens cfg diagram) as [h ->].
  exists (h +:+ r +:+ Py.newline). unfold EAPlantUMLExporter.render_footer.
  by rewrite !str_app_assoc.
Qed.

Lemma sanitize_filename_plain name : plain_name (main._sanitize_filename name).
Proof.
  unfold main._sanitize_filename.
  destruct (Py.strip name) as [|c s] eqn:E.
  - split; [done|]. by repeat constructor.
  - pose proof (sub_non_filename_plain (String c s)) as Hp.
    destruct Hp as [Hne Hall]; [done|].
    rewrite or_str_truthy; [done|]. by destruct (Py.sub_non_filename_underscore _).
Qed.

Lemma endswith_newline_app a b :
  b <> "" -> PlantUMLWriter.endswith_newline (a +:+ b) = PlantUMLWriter.endswith_newline b.
Proof.
  intros Hb. unfold PlantUMLWriter.endswith_newline. rewrite chars_app, rev_app_distr.
  destruct (rev (Py.chars b)) as [|c l] eqn:E; [|done].
  destruct b; [done|]. apply (f_equal (@length ascii)) in E.
  rewrite length_rev in E. done.
Qed.

Lemma text_of_buffer (w : PlantUMLWriter.t) l y :
  PlantUMLWriter.buf w = l ++ [y] ->
  PlantUMLWriter.text w =
    Py.join Py.newline (l ++ [y]) +:+
    (if PlantUMLWriter.endswith_newline y then "" else Py.newline).
Proof.
  intros E. unfold PlantUMLWriter.text. rewrite E, rev_unit.
  by destruct (PlantUMLWriter.endswith_newline y).
Qed.

(** The buffer of a new writer after [start]. *)
Lemma start_init_buf skin autolayout title :
  exists l,
    PlantUMLWriter.buf (PlantUMLWriter.start (PlantUMLWriter.init skin autolayout) title)
    = "@startuml" :: l /\
    PlantUMLWriter.ended (PlantUMLWriter.start (PlantUMLWriter.init skin autolayout) title)
    = false.
Proof.
  unfold PlantUMLWriter.start. cbn [PlantUMLWriter.init PlantUMLWriter.started
    PlantUMLWriter.buf PlantUMLWriter.skin PlantUMLWriter.autolayout PlantUMLWriter.ended app].
  set (b1 := match skin with Some _ => _ | None => _ end).
  assert (exists l, b1 = "@startuml" :: l) as [l1 ->].
  { subst b1. destruct skin as [k|]; [destruct (Py.truthy k)|]; by eexists. }
  set (b2 := match autolayout with Some _ => _ | None => _ end).
  assert (exists l, b2 = "@startuml" :: l) as [l2 ->].
  { subst b2. destruct autolayout as [k|]; [destruct (Py.truthy k)|]; by eexists. }
  destruct (Py.truthy title); by eexists.
Qed.

Lemma handler_render_buf hd diagram out cfg :
  exists lines,
    PlantUMLWriter.buf (handler_registry.render hd diagram out cfg)
    = PlantUMLWriter.buf out ++ lines /\
    PlantUMLWriter.ended (handler_registry.render hd diagram out cfg)
    = PlantUMLWriter.ended out.
Proof. destruct hd; by eexists. Qed.

End FileFacts.

Section FileTheorems.
Import EAPlantUMLExporter.

(** X14. A run of [export] touches at most one file: the one whose path
    [os.path.join] makes of the output directory and a plain name (not
    empty, no character outside [[A-Za-z0-9._-]], so no path separator and
    no drive) followed by [.puml]. A run that succeeds has written to it a
    text that opens with [@startuml] and closes with [@enduml] and a line
    feed, and has changed no other file. A run that fails has either
    changed nothing at all, or no file but, possibly, that one. *)
Theorem export_writes_one_file (env : Env) (cfg : Config) (app : result EA.Repository)
    (outdir : string) (filename : option string) (fs : OS.FS) :
  match export env cfg app outdir filename fs with
  | (fs', Ok path) =>
      exists base text,
        path = OS.path_join fs outdir (base +:+ ".puml") /\ plain_name base /\
        framed text /\
        OS.files fs' = <[path := text]> (OS.files fs)
  | (fs', Raise _) =>
      fs' = fs \/
      exists base,
        plain_name base /\
        forall p, p <> OS.path_join fs outdir (base +:+ ".puml") ->
                  OS.files fs' !! p = OS.files fs !! p
  end.
Proof.
  unfold export.
  destruct app as [repo|e]; simpl; [|by left].
  destruct (get_selected_diagram repo) as [diagram|e]; simpl; [|by left].
  destruct (gather _ _ _ _ _ _ _ _) as [st|e]; simpl; [|by left].
  destruct (render cfg diagram st) as [puml|e] eqn:Er; simpl; [|by left].
  fold (export_base filename diagram).
  assert (plain_name (export_base filename diagram)) as Hplain.
  { apply sub_non_filename_plain.
    destruct filename as [f|]; repeat apply or_str_nonempty; done. }
  unfold OS.makedirs. destruct (OS.mkdir_answer fs outdir) as [made [e|]].
  { right. by exists (export_base filename diagram). }
  unfold OS.write_text. cbn [OS.with_dirs OS.open_answer OS.files].
  destruct (OS.open_answer fs _ puml) as [[[partial|] e]|]; cbn [rbind OS.with_files OS.files].
  - right. exists (export_base filename diagram). split; [done|].
    intros p Hp. by rewrite lookup_insert_ne.
  - right. by exists (export_base filename diagram).
  - exists (export_base filename diagram), puml.
    split_and!; [done|done|by eapply render_framed|done].
Qed.

(** X15. A run of the package ([main.run]) touches at most one file: the
    one whose path [pathlib] makes of the output directory and a name
    followed by [.puml], the name being the configured file name taken as
    it is or, without one, a plain name made from the diagram name. A run
    that succeeds has written to it a text that opens with [@startuml] and
    closes with [@enduml] and a line feed, and has changed no other file.
    A run that fails has either changed nothing at all, as when no handler
    is registered, or no file but, possibly, that one. *)
Theorem run_writes_one_file (env : Env) (cfg : config.Config)
    (app : result EA.Repository) (fs : OS.FS) :
  match main.run env cfg app fs with
  | (fs', Ok path) =>
      exists fname text,
        path = OS.truediv fs (config.outdir cfg) (fname +:+ ".puml") /\
        ((config.filename cfg = Some fname /\ fname <> "") \/ plain_name fname) /\
        framed text /\
        OS.files fs' = <[path := text]> (OS.files fs)
  | (fs', Raise _) =>
      fs' = fs \/
      exists fname,
        ((config.filename cfg = Some fname /\ fname <> "") \/ plain_name fname) /\
        forall p, p <> OS.truediv fs (config.outdir cfg) (fname +:+ ".puml") ->
                  OS.files fs' !! p = OS.files fs !! p
  end.
Proof.
  unfold main.run.
  destruct (EAAdapter.get_selected_diagram env cfg app) as [d0|e]; cbn [rbind]; [|by left].
  set (diagram := if truthy_opt (config.direction cfg) then _ else _).
  destruct (handler_registry.resolve (models.d_type diagram)) as [hd|e]; cbn [rbind];
    [|by left].
  set (out0 := PlantUMLWriter.start _ _).
  set (out1 := handler_registry.render hd diagram out0 cfg).
  set (fname := match config.filename cfg with Some _ => _ | None => _ end).
  assert ((config.filename cfg = Some fname /\ fname <> "") \/ plain_name fname) as Hname.
  { subst fname. destruct (config.filename cfg) as [f|]; [|right; apply sanitize_filename_plain].
    destruct f as [|c f]; [right; apply sanitize_filename_plain|by left]. }
  assert (framed (PlantUMLWriter.text (PlantUMLWriter.end_ out1))) as Hframed.
  { destruct (start_init_buf (config.skin cfg) (config.autolayout cfg)
                (models.d_name diagram)) as (l & Hb0 & He0). fold out0 in Hb0, He0.
    destruct (handler_render_buf hd diagram out0 cfg) as (lines & Hb1 & He1).
    fold out1 in Hb1, He1. rewrite Hb0 in Hb1. rewrite He0 in He1.
    assert (PlantUMLWriter.buf (PlantUMLWriter.end_ out1)
            = ("@startuml" :: l ++ lines) ++ ["@enduml"]) as Hb2.
    { unfold PlantUMLWriter.end_. rewrite He1. simpl. by rewrite Hb1. }
    rewrite (text_of_buffer _ _ _ Hb2). cbn [PlantUMLWriter.endswith_newline].
    rewrite <- app_comm_cons.
    destruct (join_frame Py.newline "@startuml" (l ++ lines) "@enduml") as [r ->].
    exists r. vm_compute PlantUMLWriter.endswith_newline. by rewrite !str_app_assoc. }
  unfold PlantUMLWriter.save, OS.makedirs.
  destruct (OS.mkdir_answer fs (config.outdir cfg)) as [made [e|]].
  { right. by exists fname. }
  unfold OS.write_text. cbn [OS.with_dirs OS.open_answer OS.files].
  destruct (OS.open_answer fs _ _) as [[[partial|] e]|]; cbn [rbind OS.with_files OS.files].
  - right. exists fname. split; [done|].
    intros p Hp. by rewrite lookup_insert_ne.
  - right. by exists fname.
  - exists fname, (PlantUMLWriter.text (PlantUMLWriter.end_ out1)). by split_and!.
Qed.

(** X16. The writer puts each marker once: a second [start] and a second
    [end] change nothing. Its text is empty for an empty buffer and ends
    with a line feed otherwise. *)
Theorem writer_markers_once (w : PlantUMLWriter.t) (title title' : string) :
  PlantUMLWriter.start (PlantUMLWriter.start w title) title' = PlantUMLWriter.start w title /\
  PlantUMLWriter.end_ (PlantUMLWriter.end_ w) = PlantUMLWriter.end_ w /\
  (PlantUMLWriter.buf w = [] -> PlantUMLWriter.text w = "") /\
  (PlantUMLWriter.buf w <> [] ->
   PlantUMLWriter.endswith_newline (PlantUMLWriter.text w) = true).
Proof.
  split_and!.
  - assert (PlantUMLWriter.started (PlantUMLWriter.start w title) = true) as E.
    { unfold PlantUMLWriter.start. by destruct (PlantUMLWriter.started w) eqn:E. }
    unfold PlantUMLWriter.start at 1. by rewrite E.
  - assert (PlantUMLWriter.ended (PlantUMLWriter.end_ w) = true) as E.
    { unfold PlantUMLWriter.end_. by destruct (PlantUMLWriter.ended w) eqn:E. }
    unfold PlantUMLWriter.end_ at 1. by rewrite E.
  - unfold PlantUMLWriter.text. by intros ->.
  - intros Hne. destruct (exists_last Hne) as (l & y & E).
    rewrite (text_of_buffer _ _ _ E).
    destruct (join_last Py.newline l y) as [r ->].
    destruct (PlantUMLWriter.endswith_newline y) eqn:Ey.
    + rewrite str_app_empty_r, endswith_newline_app; [done|]. intros ->. done.
    + by rewrite endswith_newline_app.
Qed.

Lemma writer_markers_once_witness :
  PlantUMLWriter.text (PlantUMLWriter.init None None) = "" /\
  PlantUMLWriter.endswith_newline
    (PlantUMLWriter.text (PlantUMLWriter.writeln (PlantUMLWriter.init None None) "a")) = true.
Proof.
  split.
  - by apply (writer_markers_once (PlantUMLWriter.init None None) "" "").
  - by apply (writer_markers_once
                (PlantUMLWriter.writeln (PlantUMLWriter.init None None) "a") "" "").
Defined.

End FileTheorems.

(* ===================================================================== *)
(** * The command line of the package: tag lists                           *)
(* ===================================================================== *)

Section CliFacts.

Lemma lstrip_head l :
  match Py.lstrip_chars l with [] => True | c :: _ => Py.isspace c = false end.
Proof.
  induction l as [|c l IH]; simpl; [done|].
  destruct (Py.isspace c) eqn:E; [done|]. by rewrite E.
Qed.

Lemma lstrip_id l :
  match l with [] => True | c :: _ => Py.isspace c = false end ->
  Py.lstrip_chars l = l.
Proof. destruct l as [|c l]; simpl; [done|]. by intros ->. Qed.

Lemma lstrip_suffix l : exists p, l = p ++ Py.lstrip_chars l.
Proof.
  induction l as [|c l [p IH]]; simpl; [by exists []|].
  destruct (Py.isspace c); [|by exists []].
  exists (c :: p). simpl. by rewrite <- IH.
Qed.

(** The characters of a stripped string, and what was cut off. *)
Lemma strip_chars s :
  exists p q,
    Py.chars s = p ++ Py.chars (Py.strip s) ++ q /\
    match Py.chars (Py.strip s) with [] => True | c :: _ => Py.isspace c = false end /\
    match rev (Py.chars (Py.strip s)) with [] => True | c :: _ => Py.isspace c = false end.
Proof.
  unfold Py.strip. rewrite chars_str.
  destruct (lstrip_suffix (Py.chars s)) as [p Hp].
  set (m := Py.lstrip_chars (Py.chars s)) in *.
  destruct (lstrip_suffix (rev m)) as [q Hq].
  set (n := Py.lstrip_chars (rev m)) in *.
  assert (m = rev n ++ rev q) as Hm.
  { rewrite <- (rev_involutive m), Hq, rev_app_distr. done. }
  exists p, (rev q). split_and!.
  - by rewrite Hp at 1; rewrite Hm.
  - pose proof (lstrip_head (Py.chars s)) as Hh. fold m in Hh. rewrite Hm in Hh.
    by destruct (rev n).
  - rewrite rev_involutive. apply (lstrip_head (rev m)).
Qed.

Lemma strip_idempotent s : Py.strip (Py.strip s) = Py.strip s.
Proof.
  destruct (strip_chars s) as (p & q & _ & H1 & H2).
  set (t := Py.strip s) in *. unfold Py.strip at 1.
  rewrite (lstrip_id _ H1), (lstrip_id _ H2), rev_involutive. apply str_chars.
Qed.

Lemma contains_char c l :
  Py.contains_chars [c] l = existsb (Ascii.eqb c) l.
Proof.
  induction l as [|d l IH]; [done|].
  cbn [Py.contains_chars Py.starts_with_chars existsb]. rewrite IH.
  by destruct (Ascii.eqb c d).
Qed.

Lemma contains_comma s : Py.contains "," s = true <-> ","%char ∈ Py.chars s.
Proof.
  unfold Py.contains. change (Py.chars ",") with [","%char].
  rewrite contains_char, existsb_exists. split.
  - intros (c & Hin & ->%Ascii.eqb_eq). by apply list_elem_of_In.
  - intros H. exists ","%char. split; [by apply list_elem_of_In|done].
Qed.

Lemma split_chars_nonempty sep l : cli.split_chars sep l <> [].
Proof.
  destruct l as [|c l]; simpl; [done|].
  destruct (Ascii.eqb c sep); [done|]. by destruct (cli.split_chars sep l).
Qed.

Lemma split_chars_free sep l :
  Forall (fun piece => sep ∉ piece) (cli.split_chars sep l).
Proof.
  induction l as [|c l IH]; simpl.
  - constructor; [apply not_elem_of_nil|done].
  - destruct (Ascii.eqb_spec c sep) as [->|Hne].
    + constructor; [apply not_elem_of_nil|done].
    + destruct (cli.split_chars sep l) as [|piece pieces].
      * constructor; [|done].
        intros [->|H]%elem_of_cons; [done|by apply elem_of_nil in H].
      * inversion IH as [|? ? H1 H3]; subst. constructor; [|done].
        intros [->|H]%elem_of_cons; done.
Qed.

Lemma split_chars_whole sep l : sep ∉ l -> cli.split_chars sep l = [l].
Proof.
  induction l as [|c l IH]; [done|]. intros Hn. simpl.
  apply not_elem_of_cons in Hn as [Hc Hn].
  destruct (Ascii.eqb_spec c sep) as [->|_]; [done|]. by rewrite IH.
Qed.

Lemma split_chars_app sep l1 l2 :
  cli.split_chars sep (l1 ++ sep :: l2) = cli.split_chars sep l1 ++ cli.split_chars sep l2.
Proof.
  induction l1 as [|c l1 IH]; simpl.
  - by rewrite Ascii.eqb_refl.
  - destruct (Ascii.eqb c sep); [by rewrite IH|]. rewrite IH.
    pose proof (split_chars_nonempty sep l1).
    by destruct (cli.split_chars sep l1).
Qed.

(** The test for a comma is not needed: a value without one is its only
    piece. *)
Lemma csv_branch v :
  (if Py.contains "," v
   then filter (fun x => Py.truthy x = true) (map Py.strip (cli.split "," v))
   else let s := Py.strip v in if Py.truthy s then [s] else [])
  = filter (fun x => Py.truthy x = true) (map Py.strip (cli.split "," v)).
Proof.
  destruct (Py.contains "," v) eqn:E; [done|].
  assert (","%char ∉ Py.chars v) as Hn.
  { intros H. apply contains_comma in H. congruence. }
  unfold cli.split. rewrite (split_chars_whole _ _ Hn). cbn [map]. rewrite str_chars.
  rewrite filter_cons. by destruct (Py.truthy (Py.strip v)).
Qed.

Lemma csv_or_multi_flat values :
  cli._csv_or_multi values =
  flat_map (fun v => filter (fun x => Py.truthy x = true) (map Py.strip (cli.split "," v)))
    values.
Proof. unfold cli._csv_or_multi. apply flat_map_ext. intros v. apply csv_branch. Qed.

End CliFacts.

Section CliTheorems.

(** X17. Every tag [_csv_or_multi] returns is non-empty, holds no comma
    and has no white space at either end (stripping it again changes
    nothing). *)
Theorem csv_or_multi_items (values : list string) :
  Forall (fun x => x <> "" /\ Py.contains "," x = false /\ Py.strip x = x)
    (cli._csv_or_multi values).
Proof.
  rewrite csv_or_multi_flat. apply Forall_forall. intros x Hx.
  apply list_elem_of_In, in_flat_map in Hx as (v & _ & Hx).
  apply list_elem_of_In, list_elem_of_filter in Hx as [Ht Hx].
  apply list_elem_of_fmap in Hx as (y & -> & Hy).
  unfold cli.split in Hy. apply list_elem_of_fmap in Hy as (piece & -> & Hp).
  pose proof (split_chars_free ","%char (Py.chars v)) as Hfree.
  rewrite Forall_forall in Hfree. pose proof (Hfree _ Hp) as Hc.
  split_and!.
  - intros E. by rewrite E in Ht.
  - destruct (Py.contains "," _) eqn:E; [|done]. exfalso.
    apply contains_comma in E.
    destruct (strip_chars (Py.str piece)) as (p & q & Hpq & _). rewrite chars_str in Hpq.
    apply Hc. rewrite Hpq. set_solver.
  - apply strip_idempotent.
Qed.

(** X18. A tag list given as one comma-separated value and the same tags
    given as separate values are read alike; the test for a comma in
    [_csv_or_multi] makes no difference, every value is split. *)
Theorem csv_or_multi_csv (before after : list string) (a b : string) :
  cli._csv_or_multi (before ++ [a +:+ "," +:+ b] ++ after) =
  cli._csv_or_multi (before ++ [a; b] ++ after) /\
  cli._csv_or_multi before =
  flat_map (fun v => filter (fun x => Py.truthy x = true) (map Py.strip (cli.split "," v)))
    before.
Proof.
  split; [|apply csv_or_multi_flat].
  rewrite !csv_or_multi_flat, !flat_map_app. f_equal. f_equal.
  cbn [flat_map]. rewrite !app_nil_r.
  unfold cli.split. rewrite !chars_app.
  change (Py.chars ",") with [","%char]. cbn [app].
  by rewrite split_chars_app, !map_app, filter_app.
Qed.

End CliTheorems.

(* ===================================================================== *)
(** * Further properties of the aliases of a run                           *)
(* ===================================================================== *)

Section RunAliasFacts.
Import EAPlantUMLExporter.

Variable env : Env.
Variable cfg : Config.
Variable repo : EA.Repository.

Lemma collect_alias dObj cx cy st :
  let m := utils.AliasFactory.make env (alias_factory st) (draws st) (EA.InstanceGUID dObj)
             (Py.or_str (EA.Name (EA.GetElementByID repo (EA.do_ElementID dObj))) "") in
  el_alias (collect env cfg repo dObj cx cy st).2 = m.1.1 /\
  alias_factory (collect env cfg repo dObj cx cy st).1 = m.1.2 /\
  draws (collect env cfg repo dObj cx cy st).1 = m.2.
Proof.
  cbn zeta. unfold collect. by destruct (utils.AliasFactory.make _ _ _ _ _) as [[? ?] ?].
Qed.

Lemma collect_aliased dObj cx cy st :
  aliased st -> aliased (collect env cfg repo dObj cx cy st).1.
Proof.
  intros (Hc & Hm & Ha).
  destruct (collect_alias dObj cx cy st) as (Hal & Hf & _).
  pose proof (collect_elements env cfg repo dObj cx cy st) as Hels.
  unfold aliased. rewrite Hf, Hels. split_and!.
  - by apply make_counts_nonneg.
  - by rewrite make_mode.
  - intros k el [->|Hin]%elem_set_inv; [|by eapply Ha].
    rewrite Hal. by apply make_identifier.
Qed.

Lemma first_pass_aliased gather_sub objs cx cy st st' :
  (forall d x y s s', aliased s -> gather_sub d x y s = Ok s' -> aliased s') ->
  aliased st ->
  first_pass env cfg repo gather_sub objs cx cy st = Ok st' ->
  aliased st'.
Proof.
  intros Hsub. revert st.
  induction objs as [|dObj objs IH]; intros st Hst; simpl.
  - by intros [= <-].
  - pose proof (collect_aliased dObj cx cy st Hst) as Hc.
    destruct (collect env cfg repo dObj cx cy st) as [st1 el]. simpl in Hc.
    destruct (String.eqb (el_type el) "UMLDiagram").
    + destruct (gather_sub _ _ _ st1) as [st2|e] eqn:E; simpl; [|done].
      apply IH. by eapply Hsub.
    + simpl. by apply IH.
Qed.

Lemma second_pass_factory_frame pkgs st st' :
  second_pass pkgs st = Ok st' -> alias_factory st' = alias_factory st.
Proof.
  revert st. induction pkgs as [|[k p] pkgs IH]; intros st; simpl.
  - by intros [= <-].
  - destruct (members_of _ _ _) as [ms|e]; simpl; [|done].
    intros H. by apply IH in H.
Qed.

Lemma add_links_factory_frame links st :
  alias_factory (add_links cfg repo links st) = alias_factory st.
Proof.
  unfold add_links. revert st.
  induction links as [|l links IH]; intros st; [done|]. simpl. rewrite IH.
  unfold add_link. destruct (EA.IsHidden l); [done|]. by destruct (_ || _).
Qed.

Lemma gather_aliased depth diagram cx cy st0 st :
  aliased st0 ->
  gather env cfg repo depth diagram cx cy st0 = Ok st ->
  aliased st.
Proof.
  revert diagram cx cy st0 st.
  induction depth as [|depth IH]; intros diagram cx cy st0 st H0 Hg; [done|].
  apply gather_inv in Hg as (d' & st1 & st2 & [= <-] & H1 & H2 & ->).
  apply first_pass_aliased in H1; [|eauto|done].
  pose proof (second_pass_factory_frame _ _ _ H2) as Hf.
  apply second_pass_frame in H2 as (He & _).
  destruct (add_links_frame cfg repo (EA.DiagramLinks diagram) st2) as (He' & _).
  unfold aliased. rewrite add_links_factory_frame, He', Hf, He. exact H1.
Qed.

Lemma set_fresh {V} (d : list (string * V)) k v :
  k ∉ Py.keys d -> Py.set d k v = d ++ [(k, v)].
Proof.
  induction d as [|[k' v'] d IH]; [done|]. unfold Py.keys. simpl.
  intros [Hne Hn]%not_elem_of_cons.
  destruct (String.eqb_spec k' k) as [->|_]; [done|]. by rewrite IH.
Qed.

(** On a diagram without nested diagrams whose shapes have different
    instance GUIDs the first pass makes one element per shape, with the
    aliases of successive calls of the allocator. *)
Lemma first_pass_flat_aliases gather_sub objs cx cy st st' :
  Forall (fun o => EA.Type_ (EA.GetElementByID repo (EA.do_ElementID o)) <> "UMLDiagram")
    objs ->
  NoDup (map EA.InstanceGUID objs) ->
  (forall o, o ∈ objs -> EA.InstanceGUID o ∉ Py.keys (elements st)) ->
  first_pass env cfg repo gather_sub objs cx cy st = Ok st' ->
  map (fun ge => el_alias ge.2) (elements st') =
  map (fun ge => el_alias ge.2) (elements st) ++
  utils.AliasFactory.make_all env (alias_factory st) (draws st) (alias_calls repo objs).
Proof.
  revert st. induction objs as [|o objs IH]; intros st Hf Hnd Hfresh; simpl.
  - intros [= <-]. by rewrite app_nil_r.
  - inversion Hf as [|? ? Hfo Hf']; subst.
    apply NoDup_cons in Hnd as [Ho Hnd].
    pose proof (collect_elements env cfg repo o cx cy st) as Hels.
    destruct (collect_alias o cx cy st) as (Hal & Hfa & Hdr).
    assert (el_type (collect env cfg repo o cx cy st).2
            = EA.Type_ (EA.GetElementByID repo (EA.do_ElementID o))) as Ht.
    { unfold collect. destruct (utils.AliasFactory.make _ _ _ _ _) as [[? ?] ?].
      simpl. apply or_str_empty. }
    destruct (collect env cfg repo o cx cy st) as [st1 el]. simpl in *.
    rewrite Ht. apply String.eqb_neq in Hfo. rewrite Hfo. simpl.
    intros H1. rewrite set_fresh in Hels by (apply Hfresh; left).
    rewrite (IH st1 Hf' Hnd); [| |done].
    + rewrite Hels, map_app, <- app_assoc. f_equal. simpl.
      rewrite Hal, Hfa, Hdr.
      by destruct (utils.AliasFactory.make _ _ _ _ _) as [[? ?] ?].
    + intros o' Ho'. rewrite Hels. unfold Py.keys. rewrite map_app. simpl.
      intros [Hin|Hin]%elem_of_app.
      * apply (Hfresh o'); [by right|done].
      * apply list_elem_of_singleton in Hin. apply Ho. rewrite <- Hin.
        apply list_elem_of_fmap. by exists o'.
Qed.

Lemma collect_elements_aliases (pcfg : config.Config) objs factory draws' :
  (config.alias_mode pcfg = Some "name" -> utils.AliasFactory.mode factory = "name") ->
  map models.e_alias (EAAdapter.collect_elements env pcfg repo objs factory draws') =
  map Some (utils.AliasFactory.make_all env factory draws' (alias_calls repo objs)).
Proof.
  revert factory draws'. induction objs as [|o objs IH]; intros factory draws' Hn; [done|].
  cbn [EAAdapter.collect_elements alias_calls map utils.AliasFactory.make_all].
  pose proof (make_mode env factory draws' (EA.InstanceGUID o)
                (Py.or_str (EA.Name (EA.GetElementByID repo (EA.do_ElementID o))) "")) as Hm.
  assert (config.alias_mode pcfg = Some "name" ->
          (utils.AliasFactory.make env factory draws' (EA.InstanceGUID o)
             (Py.or_str (EA.Name (EA.GetElementByID repo (EA.do_ElementID o))) "")).1.1 = "")
    as Hname.
  { intros E. unfold utils.AliasFactory.make. by rewrite (Hn E). }
  destruct (utils.AliasFactory.make _ _ _ _ _) as [[a f] d]. simpl in *.
  rewrite IH by (by rewrite Hm). f_equal.
  destruct (bool_decide_reflect (config.alias_mode pcfg = Some "name")) as [E|_]; [|done].
  simpl. by rewrite (Hname E).
Qed.

(** Outside the uuid mode, and in it on GUIDs with an alphanumeric
    character, the aliases of a run do not depend on the process. *)
Lemma make_all_env_indep env1 env2 self draws' calls :
  utils.AliasFactory.mode self <> "uuid" \/ Forall (fun c => guid_stable c.1) calls ->
  utils.AliasFactory.make_all env1 self draws' calls =
  utils.AliasFactory.make_all env2 self draws' calls.
Proof.
  revert self draws'. induction calls as [|[g n] calls IH]; intros self draws' Hc; [done|].
  cbn [utils.AliasFactory.make_all].
  rewrite (make_env_indep env1 env2 self draws' g n).
  2: { destruct Hc as [?|Hc]; [by left|right]. by inversion Hc. }
  pose proof (make_mode env2 self draws' g n) as Hm.
  destruct (utils.AliasFactory.make env2 self draws' g n) as [[a f] d]. simpl in Hm.
  rewrite IH; [done|]. rewrite Hm.
  destruct Hc as [?|Hc]; [by left|right]. by inversion Hc.
Qed.

End RunAliasFacts.

Section RunAliasTheorems.
Import EAPlantUMLExporter.

(** X19. In uuid and in human mode every shape [gather] collects, on the
    diagram and on the diagrams nested in it, has an identifier for its
    alias, so the token that stands for the shape in the text,
    [ref_token], is that identifier; in name mode it is the quoted
    display name. In all three modes the token is not empty. *)
Theorem gathered_references (env : Env) (cfg : Config) (repo : EA.Repository)
    (depth : nat) (diagram : EA.Diagram) (cx cy : Z) (st : State) :
  alias_mode cfg = "uuid" \/ alias_mode cfg = "human" \/ alias_mode cfg = "name" ->
  gather env cfg repo depth diagram cx cy (init cfg) = Ok st ->
  Forall (fun el =>
            ref_token cfg el <> "" /\
            if String.eqb (alias_mode cfg) "name"
            then ref_token cfg el
                 = Py.dquote +:+ utils.puml_escape_inline (el_name el) +:+ Py.dquote
            else ref_token cfg el = el_alias el /\ identifier (el_alias el))
    (Py.values (elements st)).
Proof.
  intros Hm Hg. apply Forall_forall. intros el Hel.
  unfold Py.values in Hel. apply list_elem_of_fmap in Hel as ([k el'] & -> & Hin). simpl.
  unfold ref_token.
  destruct (String.eqb_spec (alias_mode cfg) "name") as [E|E]; [done|].
  assert (aliased st) as (_ & _ & Ha).
  { eapply gather_aliased; [|exact Hg]. split_and!.
    - intros b n. cbn. by rewrite lookup_empty.
    - cbn. destruct Hm as [?|[?|?]]; [by left|by right|done].
    - intros ? ? H. by apply elem_of_nil in H. }
  specialize (Ha _ _ Hin). split; [|done].
  intros E'. unfold identifier in Ha. by rewrite E' in Ha.
Qed.

Lemma gathered_references_witness :
  Forall (fun el =>
            ref_token Examples.cfg_human el <> "" /\
            ref_token Examples.cfg_human el = el_alias el /\ identifier (el_alias el))
    (Py.values (elements Examples.gathered)).
Proof.
  apply (gathered_references Examples.env_a Examples.cfg_human
           (Examples.repository (Examples.overlapping []))
           (recursion_limit Examples.env_a) (Examples.overlapping []) 0 0
           Examples.gathered).
  - right. left. reflexivity.
  - vm_compute. reflexivity.
Defined.

(** X20. The script and the package, run in separate processes, give the
    shapes of a diagram the same aliases: for a diagram without nested
    diagrams whose shapes have pairwise different instance GUIDs, in the
    same alias mode, this mode being other than uuid or every instance
    GUID holding an alphanumeric character, the elements the adapter of
    the package builds carry, in order, the aliases of the elements
    [gather] collects, which are those of the successive calls of the
    allocator. *)
Theorem pipelines_agree_on_aliases (env1 env2 : Env) (cfg : Config) (pcfg : config.Config)
    (repo : EA.Repository) (dia : EA.Diagram) (depth : nat) (cx cy : Z) (st : State) :
  alias_mode cfg = package_mode pcfg ->
  alias_mode cfg <> "uuid" \/ diagram_stable dia ->
  EA.GetCurrentDiagram repo = Some dia ->
  flat repo dia ->
  NoDup (map EA.InstanceGUID (EA.DiagramObjects dia)) ->
  gather env1 cfg repo depth dia cx cy (init cfg) = Ok st ->
  exists d,
    EAAdapter.get_selected_diagram env2 pcfg (Ok repo) = Ok d /\
    map models.e_alias (models.d_elements d) =
      map (fun ge => Some (el_alias ge.2)) (elements st) /\
    map (fun ge => el_alias ge.2) (elements st) =
      utils.AliasFactory.make_all env1 (utils.AliasFactory.init (alias_mode cfg)) 0
        (alias_calls repo (EA.DiagramObjects dia)).
Proof.
  intros Hmode Hstable Hcur Hflat Hnd Hg.
  apply gather_inv in Hg as (d' & st1 & st2 & -> & H1 & H2 & ->).
  apply first_pass_flat_aliases in H1; [|done|done|].
  2: { intros o _. apply not_elem_of_nil. }
  apply second_pass_frame in H2 as (He & _).
  destruct (add_links_frame cfg repo (EA.DiagramLinks dia) st2) as (He' & _).
  rewrite He', He. simpl in H1.
  unfold EAAdapter.get_selected_diagram. cbn [rbind]. rewrite Hcur.
  eexists. split; [done|]. cbn [models.d_elements]. split; [|done].
  rewrite collect_elements_aliases.
  - fold (package_mode pcfg). rewrite <- Hmode.
    rewrite <- (map_map (fun ge => el_alias ge.2) Some), H1. f_equal.
    apply make_all_env_indep. destruct Hstable as [?|Hs]; [by left|right].
    unfold alias_calls. apply Forall_fmap. exact Hs.
  - intros E. by rewrite E.
Qed.

Lemma pipelines_agree_on_aliases_witness :
  exists d,
    EAAdapter.get_selected_diagram Examples.env_b Examples.pkg_cfg
      (Ok (Examples.repository (Examples.overlapping []))) = Ok d /\
    map models.e_alias (models.d_elements d) =
      map (fun ge => Some (el_alias ge.2)) (elements Examples.gathered) /\
    map (fun ge => el_alias ge.2) (elements Examples.gathered) =
      utils.AliasFactory.make_all Examples.env_a
        (utils.AliasFactory.init (alias_mode Examples.cfg_human)) 0
        (alias_calls (Examples.repository (Examples.overlapping []))
           (EA.DiagramObjects (Examples.overlapping []))).
Proof.
  apply (pipelines_agree_on_aliases Examples.env_a Examples.env_b Examples.cfg_human
           Examples.pkg_cfg
           (Examples.repository (Examples.overlapping [])) (Examples.overlapping [])
           (recursion_limit Examples.env_a) 0 0 Examples.gathered).
  - reflexivity.
  - left. discriminate.
  - reflexivity.
  - unfold flat. repeat constructor; by vm_compute.
  - apply (bool_decide_unpack _). by vm_compute.
  - vm_compute. reflexivity.
Defined.

End RunAliasTheorems.

(* ===================================================================== *)
(** * The colour conversion                                                *)
(* ===================================================================== *)

Section ColourFacts.
Import EAPlantUMLExporter.

Lemma hex_string_cons x d :
  (x < 16)%N ->
  HexadecimalString.NilEmpty.string_of_uint (hex_cons x d) =
  String (Py.hex_digit x) (HexadecimalString.NilEmpty.string_of_uint d).
Proof. intros Hx. digit_cases x H; reflexivity. Qed.

Lemma hex_of_lu_cons x d :
  (x < 16)%N ->
  HexadecimalPos.Unsigned.of_lu (hex_cons x d) = (x + 16 * HexadecimalPos.Unsigned.of_lu d)%N.
Proof. intros Hx. digit_cases x H; reflexivity. Qed.

Lemma hex_revapp_cons x d acc :
  (x < 16)%N ->
  Hexadecimal.revapp (hex_cons x d) acc = Hexadecimal.revapp d (hex_cons x acc).
Proof. intros Hx. digit_cases x H; reflexivity. Qed.

Lemma hex_digit_upper x : (x < 16)%N -> Py.upper_char (Py.hex_digit x) = HEX x.
Proof. intros Hx. digit_cases x H; reflexivity. Qed.

Lemma hex_digit_not_x x : (x < 16)%N -> Py.hex_digit x <> "x"%char.
Proof. intros Hx. digit_cases x H; discriminate. Qed.

(** A numeral without its leading zeros. *)
Lemma unorm_string d :
  d <> Hexadecimal.Nil ->
  exists k,
    Py.chars (HexadecimalString.NilEmpty.string_of_uint d) =
    repeat "0"%char k ++
    Py.chars (HexadecimalString.NilZero.string_of_uint (Hexadecimal.unorm d)).
Proof.
  induction d as [|d IH| | | | | | | | | | | | | | | ]; intros Hn; try (by exists 0%nat).
  assert (d = Hexadecimal.Nil \/ d <> Hexadecimal.Nil) as [->|Hd]
    by (destruct d; [by left|by right..]); [by exists 0%nat|].
  destruct (IH Hd) as [k Hk]. exists (S k).
  change (Hexadecimal.unorm (Hexadecimal.D0 d)) with (Hexadecimal.unorm d).
  simpl. by rewrite <- Hk.
Qed.

Lemma replace_0x_absent l :
  Forall (fun c => c <> "x"%char) l ->
  Py.replace_chars ["0"; "x"]%char [] 0 l = l.
Proof.
  induction l as [|c l IH]; intros Hl; [done|].
  inversion Hl as [|? ? Hc Hl']; subst.
  cbn [Py.replace_chars Py.starts_with_chars].
  destruct (Ascii.eqb "0" c); [|by rewrite IH].
  destruct Hl' as [|c' l' Hc' Hl'']; [done|].
  rewrite (proj2 (Ascii.eqb_neq _ _) (not_eq_sym Hc')).
  rewrite IH; [done|by constructor].
Qed.

(** The conversion, once the digits of the number are known. *)
Lemma color_of_padded (n : Z) (S : string) (k : nat) (a b c d e f : ascii) :
  (0 <= n)%Z ->
  HexadecimalString.NilZero.string_of_uint (N.to_hex_uint (Z.to_N (Z.abs n))) = S ->
  Forall (fun c => c <> "x"%char) [a; b; c; d; e; f] ->
  [a; b; c; d; e; f] = repeat "0"%char k ++ Py.chars S ->
  ea_color_long_to_hex (Some n) =
  Some (Py.str ["#"%char; Py.upper_char e; Py.upper_char f; Py.upper_char c;
                Py.upper_char d; Py.upper_char a; Py.upper_char b]).
Proof.
  intros Hn HS Hx HL. unfold ea_color_long_to_hex.
  destruct (Z.eqb_spec n (-1)) as [?|_]; [lia|].
  assert (Py.replace "0x" "" (Py.hex n) = S) as ->.
  { unfold Py.hex. destruct (Z.ltb_spec n 0) as [?|_]; [lia|]. rewrite HS.
    unfold Py.replace. rewrite !chars_app.
    change (Py.chars "" ++ Py.chars "0x" ++ Py.chars S)
      with ("0"%char :: "x"%char :: Py.chars S).
    change (Py.chars "0x") with ["0"%char; "x"%char]. change (Py.chars "") with (@nil ascii).
    cbn [Py.replace_chars Py.starts_with_chars Ascii.eqb Bool.eqb length Nat.sub app].
    rewrite replace_0x_absent; [apply str_chars|].
    rewrite HL in Hx. by apply Forall_app in Hx as [_ ?]. }
  assert (length (Py.chars S) = (6 - k)%nat /\ (k <= 6)%nat) as [Hlen Hk].
  { apply (f_equal (@length ascii)) in HL. rewrite length_app, repeat_length in HL.
    simpl in HL. lia. }
  assert (Py.repeat_char "0" (6 - Z.of_nat (Py.len S)) +:+ Py.slice_last 6 S
          = Py.str [a; b; c; d; e; f]) as ->.
  { apply chars_inj. unfold Py.repeat_char, Py.slice_last.
    rewrite chars_app, !chars_str, len_chars, Hlen, HL.
    replace (Z.to_nat (6 - Z.of_nat (6 - k))) with k by lia.
    replace (6 - k - 6)%nat with 0%nat by lia. done. }
  reflexivity.
Qed.

(** The number with the six hexadecimal digits [d5] ... [d0]. *)
Lemma color_of_digits (d0 d1 d2 d3 d4 d5 : N) :
  (d0 < 16)%N -> (d1 < 16)%N -> (d2 < 16)%N -> (d3 < 16)%N -> (d4 < 16)%N -> (d5 < 16)%N ->
  ea_color_long_to_hex
    (Some (Z.of_N (d0 + 16 * (d1 + 16 * (d2 + 16 * (d3 + 16 * (d4 + 16 * d5))))))) =
  Some (Py.str ["#"%char; HEX d1; HEX d0; HEX d3; HEX d2; HEX d5; HEX d4]).
Proof.
  intros H0 H1 H2 H3 H4 H5.
  set (d := hex_cons d5 (hex_cons d4 (hex_cons d3 (hex_cons d2 (hex_cons d1
              (hex_cons d0 Hexadecimal.Nil)))))).
  set (n := (d0 + 16 * (d1 + 16 * (d2 + 16 * (d3 + 16 * (d4 + 16 * d5)))))%N).
  assert (N.of_hex_uint d = n) as Hof.
  { unfold N.of_hex_uint. rewrite HexadecimalPos.Unsigned.of_uint_alt.
    unfold Hexadecimal.rev, d. rewrite !hex_revapp_cons by done.
    cbn [Hexadecimal.revapp]. rewrite !hex_of_lu_cons by done.
    cbn [HexadecimalPos.Unsigned.of_lu]. subst n. lia. }
  assert (d <> Hexadecimal.Nil) as Hd.
  { unfold d. clear -H5. intros E.
    assert (forall x l, (x < 16)%N -> hex_cons x l <> Hexadecimal.Nil) as Hne.
    { intros x l Hx. digit_cases x H; discriminate. }
    by apply (Hne _ _ H5) in E. }
  destruct (unorm_string d Hd) as [k Hk].
  assert (Py.chars (HexadecimalString.NilEmpty.string_of_uint d) =
          [Py.hex_digit d5; Py.hex_digit d4; Py.hex_digit d3; Py.hex_digit d2;
           Py.hex_digit d1; Py.hex_digit d0]) as HL.
  { unfold d. by rewrite !hex_string_cons by done. }
  rewrite HL in Hk.
  rewrite <- !hex_digit_upper by done.
  apply (color_of_padded (Z.of_N n)
           (HexadecimalString.NilZero.string_of_uint (Hexadecimal.unorm d)) k);
    [lia| | |exact Hk].
  - rewrite Z.abs_eq, N2Z.id by lia.
    by rewrite <- Hof, HexadecimalN.Unsigned.to_of.
  - repeat constructor; by apply hex_digit_not_x.
Qed.

End ColourFacts.

Section ColourTheorems.
Import EAPlantUMLExporter.

(** X21. [ea_color_long_to_hex] turns the colour number of Enterprise
    Architect, red + 256 green + 65536 blue with channels from 0 to 255,
    into the PlantUML colour [#RRGGBB] of the same channels, two
    upper-case hexadecimal digits each; a missing number and -1, the
    default colour, give no colour. *)
Theorem ea_color_channels (r g b : Z) :
  (0 <= r < 256)%Z -> (0 <= g < 256)%Z -> (0 <= b < 256)%Z ->
  ea_color_long_to_hex (Some (r + 256 * g + 65536 * b)%Z) =
    Some ("#" +:+ hex2 r +:+ hex2 g +:+ hex2 b) /\
  ea_color_long_to_hex None = None /\
  ea_color_long_to_hex (Some (-1)%Z) = None.
Proof.
  intros Hr Hg Hb. split; [|done].
  pose proof (color_of_digits (Z.to_N (r mod 16)) (Z.to_N (r / 16))
                (Z.to_N (g mod 16)) (Z.to_N (g / 16))
                (Z.to_N (b mod 16)) (Z.to_N (b / 16))) as H.
  replace (Z.of_N _) with (r + 256 * g + 65536 * b)%Z in H.
  - rewrite H; [done|..]; Z.to_euclidean_division_equations; lia.
  - rewrite !N2Z.inj_add, !N2Z.inj_mul, !Z2N.id
      by (Z.to_euclidean_division_equations; lia).
    Z.to_euclidean_division_equations. lia.
Qed.

Lemma ea_color_channels_witness :
  ea_color_long_to_hex (Some 255%Z) = Some "#FF0000" /\
  ea_color_long_to_hex None = None /\
  ea_color_long_to_hex (Some (-1)%Z) = None.
Proof. apply (ea_color_channels 255 0 0); lia. Defined.

End ColourTheorems.

(* ===================================================================== *)
(** * Further properties of the first pass                                 *)
(* ===================================================================== *)

Section FirstPassFacts.
Import EAPlantUMLExporter.

Variable env : Env.
Variable cfg : Config.
Variable repo : EA.Repository.

Lemma collect_type dObj cx cy st :
  el_type (collect env cfg repo dObj cx cy st).2
  = EA.Type_ (EA.GetElementByID repo (EA.do_ElementID dObj)) /\
  el_raw (collect env cfg repo dObj cx cy st).2
  = EA.GetElementByID repo (EA.do_ElementID dObj).
Proof.
  unfold collect. destruct (utils.AliasFactory.make _ _ _ _ _) as [[? ?] ?].
  simpl. split; [apply or_str_empty|done].
Qed.

Lemma collect_ids dObj cx cy st :
  elemid_to_instuid (collect env cfg repo dObj cx cy st).1 =
  match elemid_to_instuid st !! EA.do_ElementID dObj with
  | Some _ => elemid_to_instuid st
  | None => <[EA.do_ElementID dObj := EA.InstanceGUID dObj]> (elemid_to_instuid st)
  end.
Proof. unfold collect. by destruct (utils.AliasFactory.make _ _ _ _ _) as [[? ?] ?]. Qed.

(** The element index keeps the first shape seen of each model element. *)
Lemma first_pass_flat_ids gather_sub objs cx cy st st' :
  Forall (fun o => EA.Type_ (EA.GetElementByID repo (EA.do_ElementID o)) <> "UMLDiagram")
    objs ->
  first_pass env cfg repo gather_sub objs cx cy st = Ok st' ->
  forall id,
    elemid_to_instuid st' !! id =
    match elemid_to_instuid st !! id with
    | Some g => Some g
    | None => EA.InstanceGUID <$> head (filter (fun o => EA.do_ElementID o = id) objs)
    end.
Proof.
  revert st. induction objs as [|o objs IH]; intros st Hf; simpl.
  - intros [= <-] id. by destruct (elemid_to_instuid st !! id).
  - inversion Hf as [|? ? Hfo Hf']; subst.
    destruct (collect_type o cx cy st) as [Ht _].
    pose proof (collect_ids o cx cy st) as Hids.
    destruct (collect env cfg repo o cx cy st) as [st1 el]. simpl in *.
    rewrite Ht. apply String.eqb_neq in Hfo. rewrite Hfo. simpl.
    intros H1 id. rewrite (IH st1 Hf' H1 id), Hids. rewrite filter_cons.
    destruct (decide (EA.do_ElementID o = id)) as [<-|Hne].
    + destruct (elemid_to_instuid st !! EA.do_ElementID o) as [g|] eqn:E.
      * by rewrite E.
      * by rewrite lookup_insert_eq.
    + destruct (elemid_to_instuid st !! EA.do_ElementID o) as [g|] eqn:E; [done|].
      by rewrite lookup_insert_ne.
Qed.

(** The first pass fails with the error of the first nested diagram that
    fails. *)
Lemma first_pass_raises gather_sub before o after cx cy e :
  Forall (fun o' => EA.Type_ (EA.GetElementByID repo (EA.do_ElementID o')) <> "UMLDiagram")
    before ->
  EA.Type_ (EA.GetElementByID repo (EA.do_ElementID o)) = "UMLDiagram" ->
  (forall x y s,
     gather_sub (EA.GetDiagramByID repo
                   (EA.MiscData0 (EA.GetElementByID repo (EA.do_ElementID o)))) x y s
     = Raise e) ->
  forall st,
    first_pass env cfg repo gather_sub (before ++ o :: after) cx cy st = Raise e.
Proof.
  intros Hb Ho Hsub. induction before as [|o' before IH]; intros st; simpl.
  - destruct (collect_type o cx cy st) as [Ht Hr].
    destruct (collect env cfg repo o cx cy st) as [st1 el]. simpl in *.
    by rewrite Ht, Ho, Hr, Hsub.
  - inversion Hb as [|? ? Hbo Hb']; subst.
    destruct (collect_type o' cx cy st) as [Ht _].
    destruct (collect env cfg repo o' cx cy st) as [st1 el]. simpl in *.
    rewrite Ht. apply String.eqb_neq in Hbo. rewrite Hbo. simpl. by apply IH.
Qed.

End FirstPassFacts.

Section FirstPassTheorems.
Import EAPlantUMLExporter.

(** X22. On a diagram without nested diagrams the element index keeps,
    for each model element, the first shape that shows it; an end of a
    link that names no shape of the diagram by its instance identity
    resolves to that first shape of the model element at this end of the
    connector, and to nothing when the diagram shows no such shape. *)
Theorem endpoint_falls_back_to_first_shape (env : Env) (cfg : Config)
    (repo : EA.Repository) (depth : nat) (d : EA.Diagram) (cx cy : Z) (st : State)
    (dlnk : EA.DiagramLink) (dconn : EA.Connector) :
  flat repo d ->
  gather env cfg repo depth d cx cy (init cfg) = Ok st ->
  (forall id, elemid_to_instuid st !! id = first_shape_of d id) /\
  (Py.contains_key (elements st) (EA.SourceInstanceUID dlnk) = false ->
   resolve_endpoint_uid st dlnk dconn source = first_shape_of d (EA.ClientID dconn)) /\
  (Py.contains_key (elements st) (EA.TargetInstanceUID dlnk) = false ->
   resolve_endpoint_uid st dlnk dconn target = first_shape_of d (EA.SupplierID dconn)).
Proof.
  intros Hflat Hg.
  assert (forall id, elemid_to_instuid st !! id = first_shape_of d id) as Hids.
  { apply gather_inv in Hg as (d' & st1 & st2 & -> & H1 & H2 & ->).
    intros id. apply (first_pass_flat_ids _ _ _ _ _ _ _ _ _ Hflat) with (id := id) in H1.
    apply second_pass_frame in H2 as (_ & _ & _ & Hi).
    destruct (add_links_frame cfg repo (EA.DiagramLinks d) st2) as (_ & _ & _ & Hi').
    rewrite Hi', Hi, H1. cbn. by rewrite lookup_empty. }
  split_and!; [done|..]; intros Hk; unfold resolve_endpoint_uid;
    rewrite Hk, andb_false_r; apply Hids.
Qed.

Lemma endpoint_falls_back_to_first_shape_witness :
  resolve_endpoint_uid Examples.gathered Examples.good_link (Examples.connector 7) target
  = Some "{P1}".
Proof.
  destruct (endpoint_falls_back_to_first_shape Examples.env_a Examples.cfg_human
              (Examples.repository (Examples.overlapping []))
              (recursion_limit Examples.env_a) (Examples.overlapping []) 0 0
              Examples.gathered Examples.good_link (Examples.connector 7))
    as (_ & _ & H).
  - unfold flat. repeat constructor; by vm_compute.
  - vm_compute. reflexivity.
  - rewrite H; reflexivity.
Defined.

(** X23. A diagram whose first nested diagram is the diagram itself cannot
    be gathered: whatever the recursion limit, [gather] ends in
    [RecursionError], and [export] on it raises that error and writes no
    file. *)
Theorem self_nested_diagram_fails (env : Env) (cfg : Config) (repo : EA.Repository)
    (d : EA.Diagram) (depth : nat) (cx cy : Z) (st : State)
    (outdir : string) (filename : option string) (fs : OS.FS) :
  self_nested repo d ->
  gather env cfg repo depth d cx cy st = Raise RecursionError /\
  export env cfg (Ok (with_selected repo d)) outdir filename fs = (fs, Raise RecursionError).
Proof.
  intros (before & o & after & Hobjs & Hb & Ho & Hsub).
  assert (forall depth cx cy st, gather env cfg repo depth d cx cy st = Raise RecursionError)
    as Hall.
  { clear depth cx cy st. induction depth as [|depth IH]; intros cx cy st; [done|].
    simpl. rewrite Hobjs.
    rewrite (first_pass_raises env cfg repo (gather env cfg repo depth) before o after
               cx cy RecursionError Hb Ho); [done|].
    intros x y s. rewrite Hsub. apply IH. }
  split; [apply Hall|].
  unfold export. cbn [rbind get_selected_diagram with_selected EA.GetTreeSelectedItem].
  cbn [Z.eqb Pos.eqb negb]. cbn [rbind].
  rewrite (gather_repo_ext env cfg (with_selected repo d) repo); [|done..].
  by rewrite Hall.
Qed.

Lemma self_nested_diagram_fails_witness :
  gather Examples.env_a Examples.cfg_human looped_repository 1000 looped 0 0
    (init Examples.cfg_human) = Raise RecursionError /\
  export Examples.env_a Examples.cfg_human (Ok (with_selected looped_repository looped))
    "out" None Examples.empty_fs = (Examples.empty_fs, Raise RecursionError).
Proof.
  apply self_nested_diagram_fails.
  exists [], (Examples.placed 9 "{D}" 0 0 10 10), []. by split_and!.
Defined.

End FirstPassTheorems.
